(** * perf-wizard: the diagnostic engine of [lib/AdvancedCodeAnalyzer.js]
    and the project aggregation of the command-line program
    ([class UltimatePerformanceAnalyzer])

    The JavaScript classes are embedded as Rocq functions.  Numbers that the
    program only ever uses as integers are [Z]; strings are [string], read as
    sequences of 8-bit code units; arrays are [list]; a property that may be
    [undefined] is an [option]; code that may throw returns an [outcome].

    What the program takes from its environment is a parameter of the
    functions that use it: the parser ([babel.parse]), [path.extname] and
    [path.basename], the regular-expression engine, the file system and
    [glob.sync].  The traversal of @babel/traverse is modelled in [Babel]. *)

From Stdlib Require Import String Ascii List ZArith Lia Bool Permutation.
From Stdlib Require Import DecimalString.
Import ListNotations.

Set Warnings "-register-all".

Open Scope string_scope.
Open Scope Z_scope.

(** ** JavaScript primitives used by the program *)

Module Js.

(** The exceptions the program can meet. *)
Inductive exn : Type :=
| TypeError (message : string)
| SyntaxError (message : string).

Definition exn_message (e : exn) : string :=
  match e with
  | TypeError m => m
  | SyntaxError m => m
  end.

(** A computation either completes with a value or throws. *)
Inductive outcome (A : Type) : Type :=
| Ok (a : A)
| Throw (e : exn).
Arguments Ok {A} a.
Arguments Throw {A} e.

Definition bind {A B} (c : outcome A) (k : A -> outcome B) : outcome B :=
  match c with
  | Ok a => k a
  | Throw e => Throw e
  end.

(** [try { c } catch (error) { h error }] *)
Definition try_catch {A} (c : outcome A) (h : exn -> A) : A :=
  match c with
  | Ok a => a
  | Throw e => h e
  end.

(** [x || d] for an [x] that is either [undefined] or an array. *)
Definition or_else {A} (x : option (list A)) (d : list A) : list A :=
  match x with
  | Some l => l
  | None => d
  end.

(** [String.prototype.startsWith] *)
Fixpoint startsWith (s p : string) : bool :=
  match p with
  | EmptyString => true
  | String c p' =>
      match s with
      | EmptyString => false
      | String d s' => Ascii.eqb c d && startsWith s' p'
      end
  end.

(** [String.prototype.includes] *)
Fixpoint includes (s p : string) : bool :=
  startsWith s p ||
  match s with
  | EmptyString => false
  | String _ s' => includes s' p
  end.

(** [Array.prototype.includes] on an array of strings. *)
Definition array_includes (l : list string) (x : string) : bool :=
  existsb (String.eqb x) l.

(** A template placeholder [${n}] for an integer [n]. *)
Definition number_to_string (n : Z) : string :=
  NilZero.string_of_int (Z.to_int n).

(** [Math.max(0, Math.min(100, x))] *)
Definition clamp_0_100 (x : Z) : Z := Z.max 0 (Z.min 100 x).

(** [Math.round(p / q)] for integers [p] and [q > 0]: the quotient rounded
    to the nearest integer, a half rounding up. *)
Definition round_div (p q : Z) : Z := (2 * p + q) / (2 * q).

End Js.

Notation "x <- c ;; k" := (Js.bind c (fun x => k))
  (at level 61, c at next level, right associativity).

(** ** The result records of the analyzer *)

(** An entry of the [bottlenecks] and [memoryLeaks] arrays. *)
Record finding : Type := mkFinding {
  f_type : string;
  f_severity : string;
  f_line : option nat;
  f_message : string;
  f_suggestion : string
}.

(** An entry of [bundleImpact.heavyImports]. *)
Record heavyImport : Type := mkHeavyImport {
  library : string;
  estimatedSize : string;
  alternative : string
}.

(** An entry of [bundleImpact.imports]. *)
Record importInfo : Type := mkImportInfo {
  i_source : string;
  i_specifiers : list string;
  isDefaultImport : bool;
  isNamespaceImport : bool
}.

Record bundleImpact : Type := mkBundleImpact {
  imports : list importInfo;
  heavyImports : option (list heavyImport);
  bi_error : option string
}.

Record reactAnalysis : Type := mkReactAnalysis {
  issues : list string;
  recommendations : list string;
  ra_error : option string
}.

Record performance : Type := mkPerformance {
  react : option reactAnalysis;
  bottlenecks : option (list finding)
}.

(** The [results] object of [analyzeCode]. *)
Record results : Type := mkResults {
  filePath : string;
  fileType : string;
  r_performance : performance;
  r_bundleImpact : bundleImpact;
  memoryLeaks : list finding;
  r_recommendations : list string;
  performanceScore : option Z
}.

(** ** The score model *)

Module ScoreModel.

(** [calculatePerformanceScore(results)] *)
Definition calculatePerformanceScore (r : results) : Z :=
  let score := 100 in
  let bottlenecks := Js.or_else (bottlenecks (r_performance r)) [] in
  let score :=
    fold_left
      (fun score bottleneck =>
         if f_severity bottleneck =? "high" then score - 15
         else if f_severity bottleneck =? "medium" then score - 8
         else score - 3)%string
      bottlenecks score in
  let score :=
    fold_left
      (fun score leak =>
         if f_severity leak =? "high" then score - 12
         else if f_severity leak =? "medium" then score - 6
         else score - 2)%string
      (memoryLeaks r) score in
  let heavyImports := Js.or_else (heavyImports (r_bundleImpact r)) [] in
  let score := score - Z.of_nat (length heavyImports) * 5 in
  Js.clamp_0_100 score.

(** The number of findings of one severity. *)
Definition count_severity (sev : string) (l : list finding) : Z :=
  Z.of_nat (length (filter (fun f => f_severity f =? sev)%string l)).

(** Every finding carries one of the three severities of the score table. *)
Definition graded (l : list finding) : Prop :=
  Forall (fun f => In (f_severity f) ["high"; "medium"; "low"]) l.

(** The amount the bottleneck loop takes off, as a function of one finding. *)
Definition bottleneck_penalty (f : finding) : Z :=
  (if f_severity f =? "high" then 15
   else if f_severity f =? "medium" then 8 else 3)%string.

Definition leak_penalty (f : finding) : Z :=
  (if f_severity f =? "high" then 12
   else if f_severity f =? "medium" then 6 else 2)%string.

Definition total (p : finding -> Z) (l : list finding) : Z :=
  fold_right (fun f acc => p f + acc) 0 l.

End ScoreModel.

(** ** The syntax tree and the traversal of @babel/parser and @babel/traverse

    The tree has one constructor per node kind the analyzer inspects and
    [Other] for every other kind.  A [path] is what a visitor callback
    receives: the node, [path.parent] (the parent NODE) and the block of
    [path.scope]. *)

Module Babel.

Inductive node : Type :=
| File (program : node)
| Program (body : list node)
| ImportDeclaration (specifiers : list node) (source : string)
| ImportDefaultSpecifier (local : string)
| ImportNamespaceSpecifier (local : string)
| ImportSpecifier (local : string)
| ExpressionStatement (expression : node)
| BlockStatement (body : list node)
| ForStatement (line : option nat) (init test update : option node)
               (body : node)
| WhileStatement (test body : node)
| DoWhileStatement (body test : node)
| FunctionDeclaration (id : option string) (params : list node)
                      (body : node)
| FunctionExpression (params : list node) (body : node)
| ArrowFunctionExpression (params : list node) (body : node)
| CallExpression (line : option nat) (callee : node)
                 (arguments : list node)
| MemberExpression (object property : node) (computed : bool)
| Identifier (name : string)
| StringLiteral (value : string)
| Other (type : string) (children : list node).

(** [node.type] *)
Definition node_type (n : node) : string :=
  match n with
  | File _ => "File"
  | Program _ => "Program"
  | ImportDeclaration _ _ => "ImportDeclaration"
  | ImportDefaultSpecifier _ => "ImportDefaultSpecifier"
  | ImportNamespaceSpecifier _ => "ImportNamespaceSpecifier"
  | ImportSpecifier _ => "ImportSpecifier"
  | ExpressionStatement _ => "ExpressionStatement"
  | BlockStatement _ => "BlockStatement"
  | ForStatement _ _ _ _ _ => "ForStatement"
  | WhileStatement _ _ => "WhileStatement"
  | DoWhileStatement _ _ => "DoWhileStatement"
  | FunctionDeclaration _ _ _ => "FunctionDeclaration"
  | FunctionExpression _ _ => "FunctionExpression"
  | ArrowFunctionExpression _ _ => "ArrowFunctionExpression"
  | CallExpression _ _ _ => "CallExpression"
  | MemberExpression _ _ _ => "MemberExpression"
  | Identifier _ => "Identifier"
  | StringLiteral _ => "StringLiteral"
  | Other ty _ => ty
  end.

(** [node.callee]: defined on call expressions only. *)
Definition callee (n : node) : option node :=
  match n with
  | CallExpression _ c _ => Some c
  | _ => None
  end.

(** [node.name]: defined on identifiers only. *)
Definition name (n : node) : option string :=
  match n with
  | Identifier x => Some x
  | _ => None
  end.

(** [node.loc?.start.line] *)
Definition line (n : node) : option nat :=
  match n with
  | ForStatement l _ _ _ _ => l
  | CallExpression l _ _ => l
  | _ => None
  end.

(** [node.parent]: the parser puts no [parent] property on a node (the
    link to the parent lives in the path), so the read is [undefined]. *)
Definition parent_property (n : node) : option node := None.

(** [t.isFunction], [t.isCatchClause], [t.isPattern] and [t.isScopable]
    test the type of the node; the kinds the tree holds as [Other] are
    recognized by their type as well. *)
Definition function_types : list string :=
  ["FunctionDeclaration"; "FunctionExpression"; "ObjectMethod";
   "ArrowFunctionExpression"; "ClassMethod"; "ClassPrivateMethod"].

Definition pattern_types : list string :=
  ["AssignmentPattern"; "ArrayPattern"; "ObjectPattern"].

Definition scopable_types : list string :=
  ["BlockStatement"; "CatchClause"; "DoWhileStatement"; "ForInStatement";
   "ForStatement"; "FunctionDeclaration"; "FunctionExpression"; "Program";
   "ObjectMethod"; "SwitchStatement"; "WhileStatement";
   "ArrowFunctionExpression"; "ClassExpression"; "ClassDeclaration";
   "ForOfStatement"; "ClassMethod"; "ClassPrivateMethod"; "StaticBlock";
   "TSModuleBlock"].

Definition isFunction (n : node) : bool :=
  Js.array_includes function_types (node_type n).

Definition isCatchClause (n : node) : bool :=
  (node_type n =? "CatchClause")%string.

(** [t.isScope(node, parent)]: a block that is the body of a function or
    of a catch clause shares the scope of its parent, a pattern under a
    function or a catch clause is a scope, and every other node is a scope
    when its kind is scopable. *)
Definition isScope (n parent : node) : bool :=
  if (node_type n =? "BlockStatement")%string &&
     (isFunction parent || isCatchClause parent)
  then false
  else if Js.array_includes pattern_types (node_type n) &&
          (isFunction parent || isCatchClause parent)
  then true
  else Js.array_includes scopable_types (node_type n).

Record path : Type := mkPath {
  p_node : node;
  p_parent : node;
  p_scope_block : node
}.

Definition walk_opt (f : node -> list path) (o : option node) : list path :=
  match o with
  | Some n => f n
  | None => []
  end.

(** The paths of [n] and of its descendants in the order of the
    depth-first traversal ([n] first, then its children in the order of
    the node kind's visitor keys). *)
Fixpoint walk (scope parent n : node) : list path :=
  let here := if isScope n parent then n else scope in
  mkPath n parent here ::
  match n with
  | File p => walk here n p
  | Program body => flat_map (walk here n) body
  | ImportDeclaration specifiers _ => flat_map (walk here n) specifiers
  | ExpressionStatement e => walk here n e
  | BlockStatement body => flat_map (walk here n) body
  | ForStatement _ init test update body =>
      walk_opt (walk here n) init ++ walk_opt (walk here n) test ++
      walk_opt (walk here n) update ++ walk here n body
  | WhileStatement test body => walk here n test ++ walk here n body
  | DoWhileStatement body test => walk here n body ++ walk here n test
  | FunctionDeclaration _ params body =>
      flat_map (walk here n) params ++ walk here n body
  | FunctionExpression params body =>
      flat_map (walk here n) params ++ walk here n body
  | ArrowFunctionExpression params body =>
      flat_map (walk here n) params ++ walk here n body
  | CallExpression _ c args => walk here n c ++ flat_map (walk here n) args
  | MemberExpression o p _ => walk here n o ++ walk here n p
  | Other _ children => flat_map (walk here n) children
  | ImportDefaultSpecifier _ | ImportNamespaceSpecifier _
  | ImportSpecifier _ | Identifier _ | StringLiteral _ => []
  end.

(** The paths strictly below [n]: what [traverse(n, ...)],
    [path.traverse(...)] and [scope.traverse(n, ...)] visit. *)
Definition below (scope parent n : node) : list path :=
  tl (walk scope parent n).

(** [split("|")] of a visitor key. *)
Fixpoint split_pipe (s : string) : list string :=
  match s with
  | EmptyString => [EmptyString]
  | String c s' =>
      if Ascii.eqb c "|" then EmptyString :: split_pipe s'
      else match split_pipe s' with
           | [] => [String c EmptyString]
           | w :: ws => String c w :: ws
           end
  end.

Section Traverse.
(** [R]: the analyzer instance; [S]: the variables of the enclosing
    function that the callbacks assign to. *)
Context {R S : Type}.

(** A callback [Kind(path) { ... }].  Its first argument is its [this]:
    the callbacks are ordinary functions, not arrow functions, so [this]
    is what the caller passes, [None] standing for [undefined]. *)
Definition handler : Type := option R -> path -> S -> Js.outcome S.

(** A visitor object literal: its properties in source order. *)
Definition visitor : Type := list (string * handler).

(** The callback stored for a node type.  In an object literal a later
    property of the same name replaces an earlier one. *)
Fixpoint handler_for (v : visitor) (ty : string) : option handler :=
  match v with
  | [] => None
  | (key, h) :: v' =>
      match handler_for v' ty with
      | Some later => Some later
      | None => if Js.array_includes (split_pipe key) ty then Some h
                else None
      end
  end.

(** The callbacks of the analyzer neither skip, stop nor change the tree,
    so a traversal calls the callback of every path in turn until one of
    them throws. *)
Fixpoint visit_all (v : visitor) (state : option R) (ps : list path)
         (s : S) : Js.outcome S :=
  match ps with
  | [] => Js.Ok s
  | p :: ps' =>
      match handler_for v (node_type (p_node p)) with
      | Some h => s' <- h state p s ;; visit_all v state ps' s'
      | None => visit_all v state ps' s
      end
  end.

(** [traverse(ast, visitor, scope, state)]: every callback is invoked as
    [fn.call(state, path, state)]. *)
Definition traverse (ast : node) (v : visitor) (state : option R)
           (s : S) : Js.outcome S :=
  visit_all v state (below ast ast ast) s.

(** [path.traverse(visitor, state)] *)
Definition path_traverse (p : path) (v : visitor) (state : option R)
           (s : S) : Js.outcome S :=
  visit_all v state (below (p_scope_block p) (p_parent p) (p_node p)) s.

(** [scope.traverse(node, visitor, state)] *)
Definition scope_traverse (scope_block n : node) (v : visitor)
           (state : option R) (s : S) : Js.outcome S :=
  visit_all v state (below scope_block scope_block n) s.
End Traverse.

End Babel.

(** ** [class AdvancedCodeAnalyzer] *)

Module AdvancedCodeAnalyzer.
Import Babel.

(** The fields set by the constructor. *)
Record instance : Type := mkInstance {
  performanceIssues : list string;
  optimizations : list string
}.

Definition new : instance := mkInstance [] [].

(** [this.m(...)] for a method [m] of the class: it needs [this] to be an
    instance; reading a property of [undefined] throws. *)
Definition method {A} (this : option instance) (m : instance -> A)
  : Js.outcome A :=
  match this with
  | Some self => Js.Ok (m self)
  | None => Js.Throw (Js.TypeError "Cannot read properties of undefined")
  end.

(** [this.m(...)] for a name [m] the class does not define. *)
Definition missing_method {A} (this : option instance) (m : string)
  : Js.outcome A :=
  match this with
  | Some _ => Js.Throw (Js.TypeError ("this." ++ m ++ " is not a function"))
  | None => Js.Throw (Js.TypeError "Cannot read properties of undefined")
  end.

(** *** Helper methods *)

Definition is_upper (c : ascii) : bool :=
  (65 <=? nat_of_ascii c)%nat && (nat_of_ascii c <=? 90)%nat.

Definition isReactComponent (self : instance) (n : node) : bool :=
  match n with
  | FunctionDeclaration (Some (String c _)) _ _ => is_upper c
  | _ => false
  end.

Definition isHook (self : instance) (n : node) : bool :=
  match n with
  | CallExpression _ (Identifier x) _ => Js.startsWith x "use"
  | _ => false
  end.

Definition heavyLibs : list string :=
  ["lodash"; "moment"; "axios"; "jquery"; "bootstrap";
   "material-ui"; "antd"; "react-router-dom"].

Definition isHeavyLibrary (self : instance) (source : string) : bool :=
  existsb (fun lib => Js.includes source lib) heavyLibs.

Definition sizes : list (string * string) :=
  [("lodash", "70KB"); ("moment", "67KB"); ("jquery", "87KB");
   ("bootstrap", "158KB"); ("material-ui", "300KB+"); ("antd", "500KB+")].

(** [for (const [lib, v] of Object.entries(table))
      if (source.includes(lib)) return v;] *)
Fixpoint first_entry (table : list (string * string)) (source : string)
  : option string :=
  match table with
  | [] => None
  | (lib, v) :: table' =>
      if Js.includes source lib then Some v else first_entry table' source
  end.

Definition getLibrarySize (self : instance) (source : string) : string :=
  match first_entry sizes source with
  | Some size => size
  | None => "Unknown"
  end.

Definition alternatives : list (string * string) :=
  [("lodash", "Use native ES6 methods or lodash-es for tree shaking");
   ("moment", "Use date-fns or dayjs (2KB vs 67KB)");
   ("jquery", "Use vanilla JavaScript or modern alternatives");
   ("bootstrap", "Use Tailwind CSS or CSS Modules");
   ("material-ui", "Use Mantine or Chakra UI (lighter alternatives)");
   ("antd", "Use individual component imports")].

Definition suggestAlternative (self : instance) (source : string) : string :=
  match first_entry alternatives source with
  | Some alt => alt
  | None => "Consider lighter alternatives"
  end.

(** The inner callback sets [hasNested] unless [innerPath] is [path]
    itself; [path.traverse] only visits paths below [path], so the test
    [innerPath !== path] holds at every call. *)
Definition hasNestedLoop (self : instance) (p : path) : bool :=
  let hasNested := false in
  match
    path_traverse (R := instance) p
      [("ForStatement|WhileStatement|DoWhileStatement",
        fun _ innerPath hasNested => Js.Ok true)]
      None hasNested
  with
  | Js.Ok hasNested => hasNested
  | Js.Throw _ => hasNested
  end.

Definition chainMethods : list string :=
  ["map"; "filter"; "reduce"; "forEach"; "find"; "some"; "every"].

(** [callee.property.name], [undefined] when the property is no
    identifier. *)
Definition property_name (c : node) : option string :=
  match c with
  | MemberExpression _ prop _ => name prop
  | _ => None
  end.

Definition name_in (l : list string) (x : option string) : bool :=
  match x with
  | Some s => Js.array_includes l s
  | None => false
  end.

Definition isArrayMethodChain (self : instance) (p : path) : bool :=
  match callee (p_node p) with
  | Some (MemberExpression _ _ _ as c) => name_in chainMethods (property_name c)
  | _ => false
  end.

(** The [while] loop of [getChainLength], from [current.node]. *)
Fixpoint getChainLength_loop (length : Z) (current : node) : Z :=
  match current with
  | CallExpression _ (MemberExpression object _ _) _ =>
      let length := length + 1 in
      match object with
      | CallExpression _ _ _ => getChainLength_loop length object
      | _ => length
      end
  | _ => length
  end.

Definition getChainLength (self : instance) (p : path) : Z :=
  getChainLength_loop 0 (p_node p).

Definition domMethods : list string :=
  ["querySelector"; "getElementById"; "appendChild";
   "innerHTML"; "createElement"; "setAttribute"].

Definition isDOMManipulation (self : instance) (p : path) : bool :=
  match callee (p_node p) with
  | Some (MemberExpression _ _ _ as c) => name_in domMethods (property_name c)
  | Some (Identifier x) => Js.array_includes domMethods x
  | _ => false
  end.

Definition loopTypes : list string :=
  ["ForStatement"; "WhileStatement"; "DoWhileStatement"].

(** [let parent = path.parent; while (parent) { ...; parent = parent.parent }]:
    [path.parent] is a node, and the second [parent] read is the node's
    [parent] property, which is [undefined]; the loop body runs once. *)
Definition isInLoop (self : instance) (p : path) : bool :=
  let parent := p_parent p in
  if Js.array_includes loopTypes (node_type parent) then true
  else match parent_property parent with
       | Some parent' => Js.array_includes loopTypes (node_type parent')
       | None => false
       end.

Definition isEventListener (self : instance) (n : node) : bool :=
  match callee n with
  | Some (MemberExpression _ _ _ as c) =>
      match property_name c with
      | Some x => (x =? "addEventListener")%string
      | None => false
      end
  | _ => false
  end.

Definition timerMethods : list string :=
  ["setTimeout"; "setInterval"; "requestAnimationFrame"].

Definition isTimer (self : instance) (n : node) : bool :=
  match callee n with
  | Some (Identifier x) => Js.array_includes timerMethods x
  | _ => false
  end.

Definition hasEventCleanup (self : instance) (p : path) : bool :=
  let hasCleanup := false in
  let scope := p_scope_block p in
  match
    scope_traverse (R := instance) scope scope
      [("CallExpression",
        fun _ innerPath hasCleanup =>
          match callee (p_node innerPath) with
          | Some (MemberExpression _ _ _ as c) =>
              match property_name c with
              | Some x =>
                  if (x =? "removeEventListener")%string then Js.Ok true
                  else Js.Ok hasCleanup
              | None => Js.Ok hasCleanup
              end
          | _ => Js.Ok hasCleanup
          end)]
      None hasCleanup
  with
  | Js.Ok hasCleanup => hasCleanup
  | Js.Throw _ => hasCleanup
  end.

Definition cleanupMethods : list string :=
  ["clearTimeout"; "clearInterval"; "cancelAnimationFrame"].

Definition hasTimerCleanup (self : instance) (p : path) : bool :=
  let hasCleanup := false in
  let scope := p_scope_block p in
  match
    scope_traverse (R := instance) scope scope
      [("CallExpression",
        fun _ innerPath hasCleanup =>
          match callee (p_node innerPath) with
          | Some (Identifier x) =>
              if Js.array_includes cleanupMethods x then Js.Ok true
              else Js.Ok hasCleanup
          | _ => Js.Ok hasCleanup
          end)]
      None hasCleanup
  with
  | Js.Ok hasCleanup => hasCleanup
  | Js.Throw _ => hasCleanup
  end.

(** The node of a path is a loop statement. *)
Definition is_loop (q : path) : bool :=
  Js.array_includes loopTypes (node_type (p_node q)).

(** A visitor whose callbacks do nothing before they call a method of
    [this]: called with [this] undefined, each of them throws or leaves the
    state as it is. *)
Definition needs_receiver {S : Type} (v : visitor (R := instance) (S := S))
  : Prop :=
  forall key h, In (key, h) v ->
  forall p s, h None p s = Js.Ok s \/ exists e, h None p s = Js.Throw e.

(** *** The analyses

    [babel.parse(code, { sourceType: 'module', plugins })] belongs to
    @babel/parser: it returns the [File] node of [code] or throws a
    [SyntaxError]. *)

Section Analyses.
Variable babel_parse : string -> list string -> Js.outcome node.

(** [path.extname] of Node.js. *)
Variable extname : string -> string.

(** The callbacks of [analyzeReactComponent].  The methods
    [checkInlineObjects], [checkExpensiveRender], [checkMemoOpportunities],
    [analyzeHookUsage] and [checkJSXOptimizations] are not defined by the
    class. *)
Definition react_visitor
  : visitor (R := instance) (S := list string * list string) :=
  [("FunctionDeclaration",
    fun this path st =>
      b <- method this (fun self => isReactComponent self (p_node path)) ;;
      if b : bool then
        _ <- missing_method (A := unit) this "checkInlineObjects" ;;
        _ <- missing_method (A := unit) this "checkExpensiveRender" ;;
        _ <- missing_method (A := unit) this "checkMemoOpportunities" ;;
        Js.Ok st
      else Js.Ok st);
   ("CallExpression",
    fun this path st =>
      b <- method this (fun self => isHook self (p_node path)) ;;
      if b : bool then
        _ <- missing_method (A := unit) this "analyzeHookUsage" ;;
        Js.Ok st
      else Js.Ok st);
   ("JSXElement",
    fun this path st =>
      _ <- missing_method (A := unit) this "checkJSXOptimizations" ;;
      Js.Ok st)].

Definition analyzeReactComponent (code filePath : string) : reactAnalysis :=
  Js.try_catch
    (ast <- babel_parse code ["jsx"; "typescript"; "decorators-legacy"] ;;
     let issues := [] in
     let recommendations := [] in
     st <- traverse ast react_visitor None (issues, recommendations) ;;
     Js.Ok (mkReactAnalysis (fst st) (snd st) None))
    (fun error => mkReactAnalysis [] [] (Some (Js.exn_message error))).

Definition specifier_local (s : node) : string :=
  match s with
  | ImportDefaultSpecifier l | ImportNamespaceSpecifier l
  | ImportSpecifier l => l
  | _ => ""
  end.

Definition isImportDefaultSpecifier (s : node) : bool :=
  match s with ImportDefaultSpecifier _ => true | _ => false end.

Definition isImportNamespaceSpecifier (s : node) : bool :=
  match s with ImportNamespaceSpecifier _ => true | _ => false end.

(** The callback of [analyzeBundleImpact]; its state is the pair of the
    arrays [imports] and [heavyImports]. *)
Definition bundle_visitor
  : visitor (R := instance)
            (S := list importInfo * list heavyImport) :=
  [("ImportDeclaration",
    fun this path st =>
      let '(imports, heavyImports) := st in
      match p_node path with
      | ImportDeclaration specifiers source =>
          let imports :=
            (imports ++
             [mkImportInfo source (map specifier_local specifiers)
                (existsb isImportDefaultSpecifier specifiers)
                (existsb isImportNamespaceSpecifier specifiers)])%list in
          heavy <- method this (fun self => isHeavyLibrary self source) ;;
          if heavy : bool then
            size <- method this (fun self => getLibrarySize self source) ;;
            alt <- method this
                     (fun self => suggestAlternative self source) ;;
            Js.Ok (imports,
                   (heavyImports ++
                    [mkHeavyImport source size alt])%list)
          else Js.Ok (imports, heavyImports)
      | _ => Js.Ok st
      end)].

Definition analyzeBundleImpact (code filePath : string) : bundleImpact :=
  let imports := [] in
  let heavyImports := [] in
  Js.try_catch
    (ast <- babel_parse code ["typescript"; "jsx"] ;;
     st <- traverse ast bundle_visitor None (imports, heavyImports) ;;
     Js.Ok (mkBundleImpact (fst st) (Some (snd st)) None))
    (fun error => mkBundleImpact [] (Some []) (Some (Js.exn_message error))).

(** The three properties of the visitor literal of [detectBottlenecks],
    in source order; the second and the third have the same name. *)
Definition nested_loop_callback : handler (R := instance) :=
  fun this path bottlenecks =>
    b <- method this (fun self => hasNestedLoop self path) ;;
    if b : bool then
      Js.Ok (bottlenecks ++
             [mkFinding "nested-loop" "high" (line (p_node path))
                "Nested loops detected - O(n²) complexity"
                "Consider using Map/Set for lookups or optimize algorithm"])%list
    else Js.Ok bottlenecks.

Definition array_chain_callback : handler (R := instance) :=
  fun this path bottlenecks =>
    b <- method this (fun self => isArrayMethodChain self path) ;;
    if b : bool then
      chainLength <- method this (fun self => getChainLength self path) ;;
      if 3 <? chainLength then
        Js.Ok (bottlenecks ++
               [mkFinding "array-chain" "medium" (line (p_node path))
                  ("Long array method chain (" ++
                   Js.number_to_string chainLength ++ " methods)")
                  "Consider combining operations or using for-loop for better performance"])%list
      else Js.Ok bottlenecks
    else Js.Ok bottlenecks.

Definition dom_in_loop_callback : handler (R := instance) :=
  fun this path bottlenecks =>
    dom <- method this (fun self => isDOMManipulation self path) ;;
    inLoop <- (if dom : bool
               then method this (fun self => isInLoop self path)
               else Js.Ok false) ;;
    if inLoop : bool then
      Js.Ok (bottlenecks ++
             [mkFinding "dom-in-loop" "high" (line (p_node path))
                "DOM manipulation inside loop"
                "Batch DOM updates outside the loop"])%list
    else Js.Ok bottlenecks.

Definition bottleneck_visitor
  : visitor (R := instance) (S := list finding) :=
  [("ForStatement", nested_loop_callback);
   ("CallExpression", array_chain_callback);
   ("CallExpression", dom_in_loop_callback)].

(** [traverse(ast, { ... })] is called with two arguments: no [state] is
    passed, so the callbacks run with [this] undefined ([None]). *)
Definition detectBottlenecks (code filePath : string) : list finding :=
  let bottlenecks := [] in
  Js.try_catch
    (ast <- babel_parse code ["typescript"; "jsx"] ;;
     traverse ast bottleneck_visitor None bottlenecks)
    (fun error => []).

(** The two properties of the visitor literal of [detectMemoryLeaks],
    both named [CallExpression]. *)
Definition event_listener_callback : handler (R := instance) :=
  fun this path leaks =>
    b <- method this (fun self => isEventListener self (p_node path)) ;;
    if b : bool then
      hasCleanup <- method this (fun self => hasEventCleanup self path) ;;
      if negb hasCleanup then
        Js.Ok (leaks ++
               [mkFinding "event-listener" "medium" (line (p_node path))
                  "Event listener without cleanup"
                  "Add removeEventListener in cleanup function"])%list
      else Js.Ok leaks
    else Js.Ok leaks.

Definition timer_callback : handler (R := instance) :=
  fun this path leaks =>
    b <- method this (fun self => isTimer self (p_node path)) ;;
    if b : bool then
      hasCleanup <- method this (fun self => hasTimerCleanup self path) ;;
      if negb hasCleanup then
        Js.Ok (leaks ++
               [mkFinding "timer" "medium" (line (p_node path))
                  "Timer without cleanup"
                  "Store timer ID and clear in cleanup"])%list
      else Js.Ok leaks
    else Js.Ok leaks.

Definition leak_visitor : visitor (R := instance) (S := list finding) :=
  [("CallExpression", event_listener_callback);
   ("CallExpression", timer_callback)].

Definition detectMemoryLeaks (code filePath : string) : list finding :=
  let leaks := [] in
  Js.try_catch
    (ast <- babel_parse code ["typescript"; "jsx"] ;;
     traverse ast leak_visitor None leaks)
    (fun error => []).

(** [analyzeCode(code, filePath)]; the [timestamp] property is left
    out. *)
Definition analyzeCode (code filePath : string) : results :=
  let ext := extname filePath in
  let react :=
    if Js.array_includes [".jsx"; ".tsx"] ext || Js.includes code "React"
    then Some (analyzeReactComponent code filePath)
    else None in
  let bundleImpact := analyzeBundleImpact code filePath in
  let bottlenecks := detectBottlenecks code filePath in
  let memoryLeaks := detectMemoryLeaks code filePath in
  let results :=
    mkResults filePath ext (mkPerformance react (Some bottlenecks))
      bundleImpact memoryLeaks [] None in
  mkResults filePath ext (mkPerformance react (Some bottlenecks))
    bundleImpact memoryLeaks []
    (Some (ScoreModel.calculatePerformanceScore results)).

End Analyses.

End AdvancedCodeAnalyzer.

(** ** [class UltimatePerformanceAnalyzer] *)

Module UltimatePerformanceAnalyzer.

Record thresholds : Type := mkThresholds {
  t_fileSize : Z;
  t_functions : Z;
  t_loops : Z;
  t_lines : Z;
  t_performanceScore : Z;
  t_bundleSize : Z
}.

Record analysisOptions : Type := mkAnalysisOptions {
  o_react : bool;
  o_vue : bool;
  o_angular : bool;
  o_bundleImpact : bool;
  o_memoryLeaks : bool;
  o_performance : bool;
  o_accessibility : bool
}.

Record config : Type := mkConfig {
  c_exclude : list string;
  c_thresholds : thresholds;
  c_analysis : analysisOptions;
  c_outputFormat : string;
  c_logLevel : string;
  c_autofix : bool
}.

(** [ConfigManager.defaultConfig] *)
Definition defaultConfig : config :=
  mkConfig
    ["node_modules"; "dist"; "build"; ".git"; "coverage"; ".nyc_output";
     "*.min.js"]
    (mkThresholds 100000 20 10 1000 80 500000)
    (mkAnalysisOptions true true false true true true false)
    "console" "info" false.

(** [getTraditionalAnalysis] *)
Record traditional : Type := mkTraditional {
  lines : Z;
  chars : Z;
  functions : Z;
  loops : Z;
  tr_imports : Z;
  complexity : Z;
  todos : Z;
  duplicatedCode : Z
}.

Record suggestion : Type := mkSuggestion {
  s_type : string;
  s_category : string;
  s_severity : string;
  s_message : string;
  s_impact : string;
  s_line : option nat;
  s_suggestion : option string;
  s_autofix : bool
}.

(** The object built by [analyzeFile]; the display properties [file],
    [sizeFormatted], [type] and [timestamp] are left out. *)
Record analysis : Type := mkAnalysis {
  fullPath : string;
  size : Z;
  advanced : option results;
  traditionalAnalysis : option traditional;
  suggestions : list suggestion;
  a_performanceScore : Z
}.

Record issueCount : Type := mkIssueCount {
  high : Z;
  medium : Z;
  low : Z
}.

(** The mutable fields of the instance. *)
Record state : Type := mkState {
  st_results : list analysis;
  totalScore : Z;
  st_issueCount : issueCount
}.

Definition initial : state := mkState [] 0 (mkIssueCount 0 0 0).

(** The sum of the scores of a list of reports. *)
Definition scores (l : list analysis) : Z :=
  fold_right (fun a acc => a_performanceScore a + acc) 0 l.

(** What [fs] answers for a path. *)
Record filesystem : Type := mkFilesystem {
  existsSync : string -> bool;
  stat_size : string -> Z;
  readFileSync : string -> Js.outcome string
}.

(** *** Text helpers *)

Definition is_space (c : ascii) : bool :=
  existsb (Nat.eqb (nat_of_ascii c)) [9; 10; 11; 12; 13; 32; 160]%nat.

(** [content.split('\n')] (the text is cut at every line feed). *)
Fixpoint split_lines (s : string) : list string :=
  match s with
  | EmptyString => [EmptyString]
  | String c s' =>
      if Ascii.eqb c "010" then EmptyString :: split_lines s'
      else match split_lines s' with
           | [] => [String c EmptyString]
           | l :: ls => String c l :: ls
           end
  end.

Fixpoint trim_start (s : string) : string :=
  match s with
  | String c s' => if is_space c then trim_start s' else s
  | EmptyString => EmptyString
  end.

Fixpoint reverse (s : string) : string :=
  match s with
  | EmptyString => EmptyString
  | String c s' => reverse s' ++ String c EmptyString
  end.

(** [String.prototype.trim] *)
Definition trim (s : string) : string :=
  reverse (trim_start (reverse (trim_start s))).

(** [s.replace(/\s+/g, ' ')]: every run of white space becomes one
    blank. *)
Fixpoint collapse_spaces (in_run : bool) (s : string) : string :=
  match s with
  | EmptyString => EmptyString
  | String c s' =>
      if is_space c then
        if in_run then collapse_spaces true s'
        else String " " (collapse_spaces true s')
      else String c (collapse_spaces false s')
  end.

Definition str_length (s : string) : Z := Z.of_nat (String.length s).

(** [String.prototype.toLowerCase] on the letters A to Z. *)
Definition lower (c : ascii) : ascii :=
  if AdvancedCodeAnalyzer.is_upper c
  then ascii_of_nat (nat_of_ascii c + 32) else c.

Fixpoint toLowerCase (s : string) : string :=
  match s with
  | EmptyString => EmptyString
  | String c s' => String (lower c) (toLowerCase s')
  end.

(** *** The methods *)

Section Methods.
Variable babel_parse : string -> list string -> Js.outcome Babel.node.

(** [path.extname] and [path.basename] of Node.js. *)
Variable extname : string -> string.
Variable basename : string -> string.

(** [(content.match(re) || []).length] for a regular expression literal
    [re] with the [g] flag, given by its source text. *)
Variable match_count : string -> string -> Z.

(** [formatSize(bytes)], a display string computed in floating point. *)
Variable formatSize : Z -> string.

Variable fs : filesystem.
Variable cfg : config.

Definition shouldExclude (filePath : string) : bool :=
  existsb
    (fun pattern =>
       Js.includes filePath pattern ||
       Js.startsWith (basename filePath) "." ||
       Js.includes filePath "test" ||
       Js.includes filePath "spec")
    (c_exclude cfg).

Definition isBinaryFile (ext : string) : bool :=
  Js.array_includes
    [".jpg"; ".jpeg"; ".png"; ".gif"; ".pdf"; ".zip"; ".tar"; ".gz"]
    (toLowerCase ext).

Definition complexityKeywords : list string :=
  ["/if\s*\(/g"; "/else/g"; "/for\s*\(/g"; "/while\s*\(/g";
   "/switch\s*\(/g"; "/case\s+/g"; "/catch\s*\(/g"; "/\?\s*:/g"].

Definition calculateBasicComplexity (content : string) : Z :=
  fold_left (fun total regex => total + match_count regex content)
    complexityKeywords 1.

(** The [forEach] of [detectDuplicatedCode]: [seen] holds the normalized
    lines met so far, [duplicates] counts the pushes. *)
Fixpoint duplicated_loop (lines seen : list string) (duplicates : Z) : Z :=
  match lines with
  | [] => duplicates
  | line :: rest =>
      let normalized := collapse_spaces false (trim line) in
      if Js.array_includes seen normalized
      then duplicated_loop rest seen (duplicates + 1)
      else duplicated_loop rest (normalized :: seen) duplicates
  end.

Definition detectDuplicatedCode (content : string) : Z :=
  let lines :=
    filter (fun line => 10 <? str_length (trim line))
      (split_lines content) in
  duplicated_loop lines [] 0.

Definition getTraditionalAnalysis (content filePath : string)
  : option traditional :=
  if (content =? "")%string then None
  else Some
    (mkTraditional
       (Z.of_nat (length (split_lines content)))
       (str_length content)
       (match_count "/function\s+\w+|const\s+\w+\s*=\s*\(|=>\s*\{/g" content)
       (match_count "/for\s*\(|while\s*\(|forEach\(|map\(|filter\(/g" content)
       (match_count "/import\s+.*from|require\s*\(/g" content)
       (calculateBasicComplexity content)
       (match_count "/TODO|FIXME|XXX/gi" content)
       (detectDuplicatedCode content)).

Definition when {A} (b : bool) (x : A) : list A := if b then [x] else [].

Definition or_default (s d : string) : string :=
  if (s =? "")%string then d else s.

Definition traditional_suggestions (sz : Z) (trad : traditional)
  : list suggestion :=
  (when (t_fileSize (c_thresholds cfg) <? sz)
     (mkSuggestion "warning" "size" "high"
        ("Large file size (" ++ formatSize sz ++ ") - consider splitting")
        "Bundle size, loading time" None None false) ++
   when (t_functions (c_thresholds cfg) <? functions trad)
     (mkSuggestion "warning" "maintainability" "medium"
        ("High function count (" ++ Js.number_to_string (functions trad)
         ++ ") - consider modularization")
        "Code maintainability, testing complexity" None None false) ++
   when (15 <? complexity trad)
     (mkSuggestion "warning" "complexity" "high"
        ("High cyclomatic complexity (" ++
         Js.number_to_string (complexity trad) ++ ") - refactor needed")
        "Code maintainability, bug risk" None None false) ++
   when (5 <? duplicatedCode trad)
     (mkSuggestion "info" "duplication" "medium"
        ("Duplicated code detected (" ++
         Js.number_to_string (duplicatedCode trad) ++ " instances)")
        "Maintainability, bundle size" None None true) ++
   when (0 <? todos trad)
     (mkSuggestion "info" "maintenance" "low"
        (Js.number_to_string (todos trad) ++ " TODO/FIXME comments found")
        "Code completion status" None None false))%list.

Definition advanced_suggestions (adv : results) : list suggestion :=
  (map (fun bottleneck =>
          mkSuggestion "warning" "performance" (f_severity bottleneck)
            (f_message bottleneck) "Runtime performance"
            (f_line bottleneck) (Some (f_suggestion bottleneck)) false)
       (Js.or_else (bottlenecks (r_performance adv)) []) ++
   map (fun leak =>
          mkSuggestion "error" "memory" (f_severity leak)
            (f_message leak) "Memory usage, potential crashes"
            (f_line leak) (Some (f_suggestion leak)) false)
       (memoryLeaks adv) ++
   map (fun heavyImport =>
          mkSuggestion "warning" "bundle" "medium"
            ("Heavy dependency: " ++ library heavyImport ++ " (" ++
             estimatedSize heavyImport ++ ")")
            "Bundle size, loading time" None
            (Some (alternative heavyImport)) false)
       (Js.or_else (heavyImports (r_bundleImpact adv)) []) ++
   match react (r_performance adv) with
   | Some react =>
       map (fun issue =>
              mkSuggestion "warning" "react" "medium"
                (or_default issue "React performance issue detected")
                "Component performance, re-renders" None None false)
           (issues react) ++
       map (fun rec =>
              mkSuggestion "info" "react-optimization" "low"
                (or_default rec "React optimization opportunity")
                "Component performance" None None true)
           (recommendations react)
   | None => []
   end)%list.

Definition generateComprehensiveSuggestions
           (sz : Z) (adv : option results) (trad : option traditional)
  : list suggestion :=
  let suggestions :=
    (match trad with
     | Some trad => traditional_suggestions sz trad
     | None => []
     end ++
     match adv with
     | Some adv => advanced_suggestions adv
     | None => []
     end)%list in
  match suggestions with
  | [] =>
      [mkSuggestion "success" "quality" "info"
         "Code structure looks well optimized! 🎉"
         "No performance concerns detected" None None false]
  | _ => suggestions
  end.

Definition calculateOverallScore
           (sz : Z) (adv : option results) (trad : option traditional) : Z :=
  match adv with
  | Some {| performanceScore := Some score |} => score
  | _ =>
      let score := 100 in
      let score :=
        if t_fileSize (c_thresholds cfg) <? sz then score - 10 else score in
      let score :=
        match trad with
        | Some trad =>
            let score :=
              if 15 <? complexity trad then score - 20 else score in
            let score :=
              if t_functions (c_thresholds cfg) <? functions trad
              then score - 10 else score in
            if 5 <? duplicatedCode trad then score - 15 else score
        | None => score
        end in
      Js.clamp_0_100 score
  end.

Definition updateGlobalStats (st : state) (a : analysis) : state :=
  let count :=
    fold_left
      (fun ic suggestion =>
         if (s_severity suggestion =? "high")%string
         then mkIssueCount (high ic + 1) (medium ic) (low ic)
         else if (s_severity suggestion =? "medium")%string
         then mkIssueCount (high ic) (medium ic + 1) (low ic)
         else if (s_severity suggestion =? "low")%string
         then mkIssueCount (high ic) (medium ic) (low ic + 1)
         else ic)
      (suggestions a) (st_issueCount st) in
  mkState (st_results st) (totalScore st + a_performanceScore a) count.

Definition sourceExts : list string :=
  [".js"; ".ts"; ".jsx"; ".tsx"; ".vue"; ".svelte"].

(** [analyzeFile(filePath)]: the report, or [None] for [null], and the
    instance after the call. *)
Definition analyzeFile (st : state) (filePath : string)
  : Js.outcome (option analysis * state) :=
  if shouldExclude filePath then Js.Ok (None, st)
  else if negb (existsSync fs filePath) then Js.Ok (None, st)
  else
    let ext := extname filePath in
    let size := stat_size fs filePath in
    if (5000000 <? size) || isBinaryFile ext then Js.Ok (None, st)
    else
      let read : option (string * option results) :=
        if Js.array_includes sourceExts ext then
          Js.try_catch
            (content <- readFileSync fs filePath ;;
             Js.Ok
               (Some
                  (content,
                   if o_performance (c_analysis cfg)
                   then Some (AdvancedCodeAnalyzer.analyzeCode
                                babel_parse extname content filePath)
                   else None)))
            (fun error => None)
        else Some ("", None) in
      match read with
      | None => Js.Ok (None, st)
      | Some (content, advancedAnalysis) =>
          let trad := getTraditionalAnalysis content filePath in
          let a :=
            mkAnalysis filePath size advancedAnalysis trad
              (generateComprehensiveSuggestions size advancedAnalysis trad)
              (calculateOverallScore size advancedAnalysis trad) in
          Js.Ok (Some a, updateGlobalStats st a)
      end.

(** The loop of [analyzePattern] over the files found by [glob.sync]. *)
Fixpoint analyzePattern_loop (st : state) (files : list string)
         (results : list analysis)
  : Js.outcome (list analysis * state) :=
  match files with
  | [] => Js.Ok (results, st)
  | file :: rest =>
      r <- analyzeFile st file ;;
      match r with
      | (Some a, st') =>
          analyzePattern_loop
            (mkState (st_results st' ++ [a]) (totalScore st')
               (st_issueCount st'))
            rest (results ++ [a])
      | (None, st') => analyzePattern_loop st' rest results
      end
  end.

Variable glob_sync : string -> list string -> list string.

Definition analyzePattern (st : state) (pattern : string)
  : Js.outcome (list analysis * state) :=
  let files :=
    glob_sync pattern
      (map (fun ex => "**/" ++ ex ++ "/**") (c_exclude cfg)) in
  analyzePattern_loop st files [].

(** [generateUltimateSummary()]; [executionTime] and [timestamp] are
    left out. *)
Record summary : Type := mkSummary {
  totalFiles : Z;
  totalSize : string;
  averageScore : Z;
  grade : string;
  sm_issues : issueCount;
  estimatedBundleSize : string;
  topIssues : list suggestion
}.

Definition generateUltimateSummary (st : state) : summary :=
  let totalFiles := Z.of_nat (length (st_results st)) in
  let totalSize := fold_left (fun sum r => sum + size r) (st_results st) 0 in
  let averageScore :=
    if 0 <? totalFiles then Js.round_div (totalScore st) totalFiles
    else 0 in
  let grade :=
    if 90 <=? averageScore then "A+"
    else if 80 <=? averageScore then "A"
    else if 70 <=? averageScore then "B"
    else if 60 <=? averageScore then "C"
    else if 50 <=? averageScore then "D"
    else "F" in
  let topIssues :=
    firstn 5
      (flat_map
         (fun r =>
            filter (fun s => (s_severity s =? "high")%string)
              (suggestions r))
         (st_results st)) in
  let jsFiles :=
    filter
      (fun r =>
         Js.array_includes [".js"; ".ts"; ".jsx"; ".tsx"]
           (extname (fullPath r)))
      (st_results st) in
  let estimatedBundleSize :=
    fold_left (fun sum file => sum + size file) jsFiles 0 in
  mkSummary totalFiles (formatSize totalSize) averageScore grade
    (st_issueCount st) (formatSize estimatedBundleSize) topIssues.

End Methods.

End UltimatePerformanceAnalyzer.

(** ** Sample programs

    Source texts with the tree the parser builds for them, and a parser
    that knows exactly the texts of a table. *)

Module Samples.
Import Babel.

Definition parse_table (table : list (string * node))
  : string -> list string -> Js.outcome node :=
  fun code plugins =>
    match find (fun entry => (fst entry =? code)%string) table with
    | Some (_, ast) => Js.Ok ast
    | None => Js.Throw (Js.SyntaxError "Unexpected token")
    end.

Definition empty_statement : node := Other "EmptyStatement" [].

(** Three [for] statements, one inside the other, on lines 1, 2 and 3. *)
Definition triple_loop_code : string :=
  "for (;;)
  for (;;)
    for (;;) ;".

Definition inner_loop : node :=
  ForStatement (Some 3%nat) None None None empty_statement.

Definition middle_loop : node :=
  ForStatement (Some 2%nat) None None None inner_loop.

Definition outer_loop : node :=
  ForStatement (Some 1%nat) None None None middle_loop.

Definition triple_loop_ast : node := File (Program [outer_loop]).

(** The paths of the three loops in [triple_loop_ast]. *)
Definition outer_path : path :=
  mkPath outer_loop (Program [outer_loop]) outer_loop.

Definition middle_path : path := mkPath middle_loop outer_loop middle_loop.

Definition inner_path : path := mkPath inner_loop middle_loop inner_loop.

(** A [while] statement and a [do-while] statement in the body of a [for]
    statement. *)
Definition while_in_for : node :=
  ForStatement (Some 7%nat) None None None
    (WhileStatement (Identifier "busy") empty_statement).

Definition while_in_for_path : path :=
  mkPath while_in_for (Program [while_in_for]) while_in_for.

Definition do_in_for : node :=
  ForStatement (Some 9%nat) None None None
    (BlockStatement [DoWhileStatement empty_statement (Identifier "busy")]).

Definition do_in_for_path : path :=
  mkPath do_in_for (Program [do_in_for]) do_in_for.

(** A listener that is never removed. *)
Definition listener_code : string := "document.addEventListener('click', fn);".

Definition listener_call : node :=
  CallExpression (Some 1%nat)
    (MemberExpression (Identifier "document") (Identifier "addEventListener")
       false)
    [StringLiteral "click"; Identifier "fn"].

Definition listener_program : node :=
  Program [ExpressionStatement listener_call].

Definition listener_ast : node := File listener_program.

(** The path of [listener_call] in [listener_ast]. *)
Definition listener_path : path :=
  mkPath listener_call (ExpressionStatement listener_call) listener_program.

(** [object.method(arg)] *)
Definition call_method (object : node) (method : string) (arg : string)
  : node :=
  CallExpression (Some 1%nat)
    (MemberExpression object (Identifier method) false) [Identifier arg].

(** A chain of four array methods. *)
Definition array_chain_code : string := "a.map(f).filter(g).map(h).reduce(k);".

Definition array_chain_call : node :=
  call_method
    (call_method
       (call_method (call_method (Identifier "a") "map" "f") "filter" "g")
       "map" "h")
    "reduce" "k".

Definition array_chain_ast : node :=
  File (Program [ExpressionStatement array_chain_call]).

Definition array_chain_path : path :=
  mkPath array_chain_call (ExpressionStatement array_chain_call)
    (Program [ExpressionStatement array_chain_call]).

(** A chain of four methods, none of them an array method. *)
Definition builder_chain_code : string := "q.from(t).where(c).orderBy(k).limit(n);".

Definition builder_chain_call : node :=
  call_method
    (call_method
       (call_method (call_method (Identifier "q") "from" "t") "where" "c")
       "orderBy" "k")
    "limit" "n".

Definition builder_chain_ast : node :=
  File (Program [ExpressionStatement builder_chain_call]).

Definition builder_chain_path : path :=
  mkPath builder_chain_call (ExpressionStatement builder_chain_call)
    (Program [ExpressionStatement builder_chain_call]).

(** A DOM lookup in the body of a loop. *)
Definition dom_loop_code : string :=
  "for (;;) { document.getElementById('x'); }".

Definition dom_call : node :=
  CallExpression (Some 1%nat)
    (MemberExpression (Identifier "document") (Identifier "getElementById")
       false)
    [StringLiteral "x"].

Definition dom_loop_body : node := BlockStatement [ExpressionStatement dom_call].

Definition dom_loop : node :=
  ForStatement (Some 1%nat) None None None dom_loop_body.

Definition dom_loop_ast : node := File (Program [dom_loop]).

(** The path of [dom_call] in [dom_loop_ast]. *)
Definition dom_call_path : path :=
  mkPath dom_call (ExpressionStatement dom_call) dom_loop_body.

(** Imports. *)
Definition import_of (local source : string) : node :=
  File (Program [ImportDeclaration [ImportDefaultSpecifier local] source]).

Definition moment_code : string := "import moment from 'moment';".
Definition axios_code : string := "import axios from 'axios';".

(** A text that is no program. *)
Definition invalid_code : string := "function (".

Definition sample_parse : string -> list string -> Js.outcome node :=
  parse_table
    [(triple_loop_code, triple_loop_ast);
     (listener_code, listener_ast);
     (array_chain_code, array_chain_ast);
     (builder_chain_code, builder_chain_ast);
     (dom_loop_code, dom_loop_ast);
     (moment_code, import_of "moment" "moment");
     (axios_code, import_of "axios" "axios")].

(** A file system with one file, and the other collaborators of
    [analyzeFile]. *)
Definition one_file (content : string) : UltimatePerformanceAnalyzer.filesystem :=
  UltimatePerformanceAnalyzer.mkFilesystem
    (fun _ => true)
    (fun _ => UltimatePerformanceAnalyzer.str_length content)
    (fun _ => Js.Ok content).

Definition js_extname : string -> string := fun _ => ".js".

Definition app_basename : string -> string := fun _ => "app.js".

Definition no_match : string -> string -> Z := fun _ _ => 0.

Definition bytes_formatSize : Z -> string :=
  fun bytes => Js.number_to_string bytes ++ " B".

(** An analyzer that holds two reports, with the scores 80 and 75. *)
Definition report (score : Z) : UltimatePerformanceAnalyzer.analysis :=
  UltimatePerformanceAnalyzer.mkAnalysis "src/old.js" 10 None None [] score.

Definition two_reports : UltimatePerformanceAnalyzer.state :=
  UltimatePerformanceAnalyzer.mkState [report 80; report 75] 155
    (UltimatePerformanceAnalyzer.mkIssueCount 0 0 0).

End Samples.

(** ** The command-line action and the logger *)

Module Cli.
Import UltimatePerformanceAnalyzer.

(** The own properties of [const levels = { quiet: 0, info: 1, debug: 2 }]. *)
Definition levels : list (string * Z) :=
  [("quiet", 0); ("info", 1); ("debug", 2)].

Fixpoint own_property (table : list (string * Z)) (name : string)
  : option Z :=
  match table with
  | [] => None
  | (key, v) :: table' =>
      if (key =? name)%string then Some v else own_property table' name
  end.

(** The names every object literal inherits from [Object.prototype]; the
    value found under such a name is a function or an object. *)
Definition object_prototype_names : list string :=
  ["constructor"; "toString"; "toLocaleString"; "valueOf"; "hasOwnProperty";
   "isPrototypeOf"; "propertyIsEnumerable"; "__proto__"; "__defineGetter__";
   "__defineSetter__"; "__lookupGetter__"; "__lookupSetter__"].

(** [levels[name] || 1] as a number: 0 and [undefined] are falsy and give 1;
    an inherited member is truthy and is no number ([None]). *)
Definition level_or_1 (name : string) : option Z :=
  match own_property levels name with
  | Some v => if v =? 0 then Some 1 else Some v
  | None =>
      if Js.array_includes object_prototype_names name then None else Some 1
  end.

(** [messageLevel <= currentLevel]; a comparison with a value that is no
    number is false. *)
Definition level_le (messageLevel currentLevel : option Z) : bool :=
  match messageLevel, currentLevel with
  | Some m, Some c => m <=? c
  | _, _ => false
  end.

(** [log(level, message)]: the console after the call. *)
Definition log (cfg : config) (console : list string)
           (level message : string) : list string :=
  let currentLevel := level_or_1 (c_logLevel cfg) in
  let messageLevel := level_or_1 level in
  if level_le messageLevel currentLevel then (console ++ [message])%list
  else console.

(** The options of the command line that the action reads to choose and to
    judge the analysis. *)
Record options : Type := mkOptions {
  opt_about : bool;
  opt_memory : bool;
  opt_file : option string;
  opt_dir : option string;
  opt_glob : option string;
  opt_ci : bool
}.

(** An option that holds a non-empty string is truthy. *)
Definition given (o : option string) : option string :=
  match o with
  | Some s => if (s =? "")%string then None else Some s
  | None => None
  end.

(** What a run of the action leaves: the local [results], the summary when
    one is computed, and the exit code of the process. *)
Record run : Type := mkRun {
  run_results : list analysis;
  run_summary : option summary;
  exit_code : Z
}.

Section Action.
Variable babel_parse : string -> list string -> Js.outcome Babel.node.
Variable extname : string -> string.
Variable basename : string -> string.
Variable match_count : string -> string -> Z.
Variable formatSize : Z -> string.
Variable fs : filesystem.
Variable glob_sync : string -> list string -> list string.

(** [path.join] of Node.js. *)
Variable path_join : string -> string -> string.

(** The [try] block of the action: the analysis that the options select,
    run on a new analyzer. *)
Definition analyse (cfg : config) (opts : options)
  : Js.outcome (list analysis * state) :=
  match given (opt_file opts) with
  | Some file =>
      r <- analyzeFile babel_parse extname basename match_count formatSize
             fs cfg initial file ;;
      match r with
      | (Some a, st) => Js.Ok ([a], st)
      | (None, st) => Js.Ok ([], st)
      end
  | None =>
      let pattern :=
        match given (opt_dir opts) with
        | Some dir => path_join dir "**/*"
        | None =>
            match given (opt_glob opts) with
            | Some pattern => pattern
            | None => "**/*"
            end
        end in
      analyzePattern babel_parse extname basename match_count formatSize
        fs cfg glob_sync initial pattern
  end.

(** [program.action(async (options) => { ... })], after the options have
    been merged into the configuration [cfg]; what is printed is left out. *)
Definition action (cfg : config) (opts : options) : run :=
  if opt_about opts then mkRun [] None 0
  else if opt_memory opts then mkRun [] None 0
  else
    match analyse cfg opts with
    | Js.Throw error => mkRun [] None 1
    | Js.Ok (results, st) =>
        match results with
        | [] => mkRun [] None 0
        | _ =>
            let summary := generateUltimateSummary extname formatSize st in
            if opt_ci opts &&
               (averageScore summary <? t_performanceScore (c_thresholds cfg))
            then mkRun results (Some summary) 1
            else mkRun results (Some summary) 0
        end
    end.
End Action.

End Cli.

(** ** Measures used to state the properties *)

Module Measures.
Import Babel UltimatePerformanceAnalyzer.

(** [base.m1(args1).m2(args2)...]: the calls are applied from the left. *)
Fixpoint method_chain (base : node) (calls : list (string * list node))
  : node :=
  match calls with
  | [] => base
  | (m, args) :: rest =>
      method_chain
        (CallExpression None (MemberExpression base (Identifier m) false) args)
        rest
  end.

(** The node is a call expression. *)
Definition is_call (n : node) : bool :=
  match n with CallExpression _ _ _ => true | _ => false end.

(** The number of line feeds of a text. *)
Fixpoint line_feeds (s : string) : nat :=
  match s with
  | EmptyString => 0
  | String c s' => (if Ascii.eqb c "010" then 1 else 0) + line_feeds s'
  end.

(** The number of suggestions of one severity in a list of reports. *)
Definition count_suggestions (sev : string) (l : list analysis) : Z :=
  Z.of_nat
    (length
       (flat_map
          (fun a => filter (fun s => (s_severity s =? sev)%string)
                      (suggestions a))
          l)).

(** The normalized form under which [detectDuplicatedCode] compares lines,
    and the lines it compares. *)
Definition normalized (line : string) : string :=
  collapse_spaces false (trim line).

Definition long_lines (content : string) : list string :=
  filter (fun line => 10 <? str_length (trim line)) (split_lines content).

(** Three lines that differ in white space only. *)
Definition spaced_lines : string :=
  "const total = a + b;
const  total  =  a + b;
   const total = a + b;   ".

(** The string [y] is not [x]. *)
Definition differs (x y : string) : bool := negb (y =? x)%string.

(** A call whose callee is a member access to [removeEventListener]. *)
Definition is_remove_listener (q : path) : bool :=
  match p_node q with
  | CallExpression _ (MemberExpression _ (Identifier x) _) _ =>
      (x =? "removeEventListener")%string
  | _ => false
  end.

(** A call of [clearTimeout], [clearInterval] or [cancelAnimationFrame]. *)
Definition is_clear_timer (q : path) : bool :=
  match p_node q with
  | CallExpression _ (Identifier x) _ =>
      Js.array_includes AdvancedCodeAnalyzer.cleanupMethods x
  | _ => false
  end.

(** A file system in which every path exists and holds the same text, and
    a pattern matcher that finds the given files; a path joiner. *)
Definition files_found (files : list string)
  : string -> list string -> list string :=
  fun _ _ => files.

Definition slash_join (a b : string) : string := a ++ "/" ++ b.

(** The file gets a report from a new analyzer. *)
Definition reported_file
           (babel_parse : string -> list string -> Js.outcome node)
           (extname basename : string -> string)
           (match_count : string -> string -> Z) (formatSize : Z -> string)
           (fs : filesystem) (cfg : config) (filePath : string) : bool :=
  match analyzeFile babel_parse extname basename match_count formatSize fs
          cfg initial filePath with
  | Js.Ok (Some _, _) => true
  | _ => false
  end.

End Measures.

(** * Properties *)

(** ** The score model *)

Section ScoreFacts.
Import ScoreModel.

Lemma bottleneck_loop_total (l : list finding) (score : Z) :
  fold_left
    (fun score bottleneck =>
       if f_severity bottleneck =? "high" then score - 15
       else if f_severity bottleneck =? "medium" then score - 8
       else score - 3)%string l score
  = score - total bottleneck_penalty l.
Proof.
  revert score; induction l as [|f l IH]; intros score; simpl.
  - lia.
  - rewrite IH. unfold bottleneck_penalty.
    destruct (f_severity f =? "high")%string;
      [|destruct (f_severity f =? "medium")%string]; lia.
Qed.

Lemma leak_loop_total (l : list finding) (score : Z) :
  fold_left
    (fun score leak =>
       if f_severity leak =? "high" then score - 12
       else if f_severity leak =? "medium" then score - 6
       else score - 2)%string l score
  = score - total leak_penalty l.
Proof.
  revert score; induction l as [|f l IH]; intros score; simpl.
  - lia.
  - rewrite IH. unfold leak_penalty.
    destruct (f_severity f =? "high")%string;
      [|destruct (f_severity f =? "medium")%string]; lia.
Qed.

Lemma score_closed_form (r : results) :
  calculatePerformanceScore r =
  Js.clamp_0_100
    (100
     - total bottleneck_penalty (Js.or_else (bottlenecks (r_performance r)) [])
     - total leak_penalty (memoryLeaks r)
     - Z.of_nat (length (Js.or_else (heavyImports (r_bundleImpact r)) [])) * 5).
Proof.
  unfold calculatePerformanceScore.
  now rewrite bottleneck_loop_total, leak_loop_total.
Qed.

Lemma clamp_bounds (x : Z) : 0 <= Js.clamp_0_100 x <= 100.
Proof. unfold Js.clamp_0_100; lia. Qed.

Lemma count_severity_cons (sev : string) (f : finding) (l : list finding) :
  count_severity sev (f :: l) =
  (if (f_severity f =? sev)%string then 1 else 0) + count_severity sev l.
Proof.
  unfold count_severity; simpl.
  destruct (f_severity f =? sev)%string; simpl length; lia.
Qed.

Lemma graded_total (hi me lo : Z) (p : finding -> Z) (l : list finding) :
  (forall f, p f = if f_severity f =? "high" then hi
                   else if f_severity f =? "medium" then me else lo)%string ->
  graded l ->
  total p l = hi * count_severity "high" l + me * count_severity "medium" l
              + lo * count_severity "low" l.
Proof.
  intros Hp Hg; induction Hg as [|f l Hf _ IH].
  - unfold count_severity; simpl; lia.
  - rewrite !count_severity_cons. simpl total. rewrite IH, Hp.
    simpl in Hf.
    destruct Hf as [E|[E|[E|[]]]]; rewrite <- E;
      change ("high" =? "high")%string with true;
      change ("high" =? "medium")%string with false;
      change ("high" =? "low")%string with false;
      change ("medium" =? "high")%string with false;
      change ("medium" =? "medium")%string with true;
      change ("medium" =? "low")%string with false;
      change ("low" =? "high")%string with false;
      change ("low" =? "medium")%string with false;
      change ("low" =? "low")%string with true; cbv iota; ring.
Qed.

Lemma total_permutation (p : finding -> Z) (l l' : list finding) :
  Permutation l l' -> total p l = total p l'.
Proof.
  induction 1; simpl; lia.
Qed.
End ScoreFacts.

(** C1.  [calculatePerformanceScore] starts from 100, takes 15/8/3 off for
    each bottleneck of severity high/medium/low, 12/6/2 for each memory leak
    of severity high/medium/low and 5 for each heavy import, and clamps the
    result to the interval from 0 to 100: the score is an integer [s] with
    [0 <= s <= 100] for every input, and it is a function of the three
    lists alone. *)
Theorem score_model (r : results) :
  let bs := Js.or_else (bottlenecks (r_performance r)) [] in
  let ls := memoryLeaks r in
  let hs := Js.or_else (heavyImports (r_bundleImpact r)) [] in
  let s := ScoreModel.calculatePerformanceScore r in
  0 <= s <= 100 /\
  s = Js.clamp_0_100
        (100 - ScoreModel.total ScoreModel.bottleneck_penalty bs
             - ScoreModel.total ScoreModel.leak_penalty ls
             - 5 * Z.of_nat (length hs)) /\
  (ScoreModel.graded bs -> ScoreModel.graded ls ->
   s = Z.max 0
         (Z.min 100
            (100
             - (15 * ScoreModel.count_severity "high" bs
                + 8 * ScoreModel.count_severity "medium" bs
                + 3 * ScoreModel.count_severity "low" bs)
             - (12 * ScoreModel.count_severity "high" ls
                + 6 * ScoreModel.count_severity "medium" ls
                + 2 * ScoreModel.count_severity "low" ls)
             - 5 * Z.of_nat (length hs)))).
Proof.
  cbv zeta. rewrite score_closed_form. split; [apply clamp_bounds|].
  split; [f_equal; lia|].
  intros Hb Hl. unfold Js.clamp_0_100.
  rewrite (graded_total 15 8 3 ScoreModel.bottleneck_penalty _
             (fun _ => eq_refl) Hb).
  rewrite (graded_total 12 6 2 ScoreModel.leak_penalty _
             (fun _ => eq_refl) Hl).
  f_equal; f_equal; lia.
Qed.

(** One bottleneck of each severity, a high and a low leak and two heavy
    imports: 100 - 26 - 14 - 10 = 50. *)
Lemma score_model_witness :
  ScoreModel.calculatePerformanceScore
    (mkResults "a.js" ".js"
       (mkPerformance None
          (Some [mkFinding "nested-loop" "high" (Some 1%nat) "" "";
                 mkFinding "array-chain" "medium" (Some 2%nat) "" "";
                 mkFinding "other" "low" None "" ""]))
       (mkBundleImpact []
          (Some [mkHeavyImport "lodash" "70KB" ""; mkHeavyImport "moment" "67KB" ""])
          None)
       [mkFinding "event-listener" "high" None "" "";
        mkFinding "timer" "low" None "" ""]
       [] None) = 50.
Proof.
  match goal with
  | |- ScoreModel.calculatePerformanceScore ?r = _ =>
      destruct (score_model r) as (_ & _ & H)
  end.
  rewrite H.
  - reflexivity.
  - repeat (apply Forall_cons; [simpl; auto|]); apply Forall_nil.
  - repeat (apply Forall_cons; [simpl; auto|]); apply Forall_nil.
Defined.

(** C9.  The score does not depend on the order of the bottleneck list, of
    the leak list or of the heavy-import list. *)
Theorem score_reordering (r r' : results) :
  Permutation (Js.or_else (bottlenecks (r_performance r)) [])
              (Js.or_else (bottlenecks (r_performance r')) []) ->
  Permutation (memoryLeaks r) (memoryLeaks r') ->
  Permutation (Js.or_else (heavyImports (r_bundleImpact r)) [])
              (Js.or_else (heavyImports (r_bundleImpact r')) []) ->
  ScoreModel.calculatePerformanceScore r =
  ScoreModel.calculatePerformanceScore r'.
Proof.
  intros Hb Hl Hh. rewrite !score_closed_form.
  rewrite (total_permutation _ _ _ Hb), (total_permutation _ _ _ Hl).
  now rewrite (Permutation_length Hh).
Qed.

Lemma score_reordering_witness :
  ScoreModel.calculatePerformanceScore
    (mkResults "a.js" ".js"
       (mkPerformance None
          (Some [mkFinding "nested-loop" "high" None "" "";
                 mkFinding "array-chain" "medium" None "" ""]))
       (mkBundleImpact [] (Some []) None)
       [mkFinding "timer" "medium" None "" "";
        mkFinding "event-listener" "low" None "" ""]
       [] None)
  =
  ScoreModel.calculatePerformanceScore
    (mkResults "a.js" ".js"
       (mkPerformance None
          (Some [mkFinding "array-chain" "medium" None "" "";
                 mkFinding "nested-loop" "high" None "" ""]))
       (mkBundleImpact [] (Some []) None)
       [mkFinding "event-listener" "low" None "" "";
        mkFinding "timer" "medium" None "" ""]
       [] None).
Proof.
  apply score_reordering; simpl.
  - apply perm_swap.
  - apply perm_swap.
  - apply perm_nil.
Defined.

(** ** The traversal *)

Section TraversalFacts.
Import Babel AdvancedCodeAnalyzer.
Context {S : Type}.

Lemma handler_for_In (v : visitor (R := instance) (S := S)) (ty : string)
      (h : handler) :
  handler_for v ty = Some h -> exists key, In (key, h) v.
Proof.
  induction v as [|[key h0] v IH]; simpl; [discriminate|].
  destruct (handler_for v ty) as [later|] eqn:E.
  - intros [= <-]. destruct (IH eq_refl) as [k Hk]. exists k; now right.
  - destruct (Js.array_includes (split_pipe key) ty); [|discriminate].
    intros [= <-]. exists key; now left.
Qed.

(** Run with [this] undefined, a visitor whose callbacks need a receiver
    changes nothing: the traversal
    either meets no node with a callback or throws at the first one. *)
Lemma visit_all_unbound (v : visitor) (ps : list path) (s : S) :
  needs_receiver v ->
  visit_all v None ps s = Js.Ok s \/ exists e, visit_all v None ps s = Js.Throw e.
Proof.
  intros Hv; induction ps as [|p ps IH]; simpl; [now left|].
  destruct (handler_for v (node_type (p_node p))) as [h|] eqn:E; [|exact IH].
  destruct (handler_for_In _ _ _ E) as [key Hk].
  destruct (Hv key h Hk p s) as [He|[e He]]; rewrite He; simpl.
  - exact IH.
  - right; now exists e.
Qed.

(** A visitor with one callback that sets a flag when it meets a node that
    satisfies [test]. *)
Lemma visit_all_flag (key : string) (test : path -> bool) (state : option instance)
      (ps : list path) (flag : bool) :
  visit_all (S := bool)
    [(key, fun _ q flag => Js.Ok (if test q then true else flag))]
    state ps flag
  = Js.Ok (flag ||
           existsb (fun q => Js.array_includes (split_pipe key)
                               (node_type (p_node q)) && test q) ps).
Proof.
  revert flag; induction ps as [|p ps IH]; intros flag; simpl.
  - now rewrite orb_false_r.
  - destruct (Js.array_includes (split_pipe key) (node_type (p_node p))); simpl.
    + rewrite IH. destruct (test p), flag; reflexivity.
    + apply IH.
Qed.
End TraversalFacts.

Section DetectorFacts.
Import Babel AdvancedCodeAnalyzer.

(** [hasNestedLoop] holds of a path exactly when a loop lies below it. *)
Lemma hasNestedLoop_below (self : instance) (p : path) :
  hasNestedLoop self p =
  existsb is_loop (below (p_scope_block p) (p_parent p) (p_node p)).
Proof.
  unfold hasNestedLoop, path_traverse.
  rewrite (visit_all_flag "ForStatement|WhileStatement|DoWhileStatement"
             (fun _ => true)).
  cbv beta iota. rewrite orb_false_l.
  induction (below (p_scope_block p) (p_parent p) (p_node p)) as [|q l IH];
    [reflexivity|].
  cbn [existsb]. rewrite IH, andb_true_r. reflexivity.
Qed.

Lemma bottleneck_visitor_needs_receiver : needs_receiver bottleneck_visitor.
Proof.
  intros key h [E|[E|[E|[]]]] p s; injection E as _ <-;
    right; eexists; reflexivity.
Qed.

Lemma leak_visitor_needs_receiver : needs_receiver leak_visitor.
Proof.
  intros key h [E|[E|[]]] p s; injection E as _ <-;
    right; eexists; reflexivity.
Qed.

Lemma bundle_visitor_needs_receiver : needs_receiver bundle_visitor.
Proof.
  intros key h [E|[]] p [imports heavy]; injection E as _ <-.
  destruct (p_node p); try (now left). right; eexists; reflexivity.
Qed.

(** Whatever the text, [detectBottlenecks] returns the empty array: the
    callbacks are called with [this] undefined, and the [catch] turns the
    [TypeError] of the first one into []. *)
Lemma detectBottlenecks_empty parse (code filePath : string) :
  detectBottlenecks parse code filePath = [].
Proof.
  unfold detectBottlenecks, traverse.
  destruct (parse code _) as [ast|e]; simpl; [|reflexivity].
  destruct (visit_all_unbound bottleneck_visitor (below ast ast ast) []
              bottleneck_visitor_needs_receiver) as [-> | [e ->]]; reflexivity.
Qed.

Lemma detectMemoryLeaks_empty parse (code filePath : string) :
  detectMemoryLeaks parse code filePath = [].
Proof.
  unfold detectMemoryLeaks, traverse.
  destruct (parse code _) as [ast|e]; simpl; [|reflexivity].
  destruct (visit_all_unbound leak_visitor (below ast ast ast) []
              leak_visitor_needs_receiver) as [-> | [e ->]]; reflexivity.
Qed.

Lemma analyzeBundleImpact_no_heavy parse (code filePath : string) :
  heavyImports (analyzeBundleImpact parse code filePath) = Some [] /\
  imports (analyzeBundleImpact parse code filePath) = [].
Proof.
  unfold analyzeBundleImpact, traverse.
  destruct (parse code _) as [ast|e]; simpl; [|now split].
  destruct (visit_all_unbound bundle_visitor (below ast ast ast) ([], [])
              bundle_visitor_needs_receiver) as [-> | [e ->]]; now split.
Qed.

(** With the analyzer as receiver, the callback of [analyzeBundleImpact]
    records the import and, for a heavy library, one entry. *)
Lemma bundle_callback_bound (self : instance) (p : path)
      (specifiers : list node) (source : string)
      (st : list importInfo * list heavyImport) :
  p_node p = ImportDeclaration specifiers source ->
  visit_all bundle_visitor (Some self) [p] st =
  Js.Ok
    (fst st ++
       [mkImportInfo source (map specifier_local specifiers)
          (existsb isImportDefaultSpecifier specifiers)
          (existsb isImportNamespaceSpecifier specifiers)],
     if isHeavyLibrary self source
     then snd st ++ [mkHeavyImport source (getLibrarySize self source)
                       (suggestAlternative self source)]
     else snd st)%list.
Proof.
  intros E. destruct st as [imports heavy], p as [n parent scope].
  simpl in E; subst n; simpl.
  destruct (isHeavyLibrary self source); reflexivity.
Qed.

(** [first_entry] skips the libraries the path does not contain. *)
Lemma first_entry_none (table : list (string * string)) (source : string) :
  Forall (fun lib => Js.includes source lib = false) (map fst table) ->
  first_entry table source = None.
Proof.
  induction table as [|[lib v] table IH]; simpl; [reflexivity|].
  intros H; inversion H as [|? ? Hlib Hrest]; subst.
  rewrite Hlib. now apply IH.
Qed.

Lemma isHeavyLibrary_intro (self : instance) (source lib : string) :
  In lib heavyLibs -> Js.includes source lib = true ->
  isHeavyLibrary self source = true.
Proof.
  intros Hin Hlib. apply existsb_exists. now exists lib.
Qed.

Lemma isHeavyLibrary_unlisted (self : instance) (source : string) :
  Forall (fun lib => Js.includes source lib = false) heavyLibs ->
  isHeavyLibrary self source = false.
Proof.
  unfold isHeavyLibrary. induction 1 as [|lib l H _ IH]; simpl;
    [reflexivity|]. now rewrite H.
Qed.
End DetectorFacts.

(** ** The nested-loop rule *)

Section NestedLoop.
Import Babel AdvancedCodeAnalyzer.

Lemma nested_loop_callback_bound (self : instance) (p : path)
      (bs : list finding) :
  nested_loop_callback (Some self) p bs =
  if hasNestedLoop self p
  then Js.Ok (bs ++ [mkFinding "nested-loop" "high" (line (p_node p))
                       "Nested loops detected - O(n²) complexity"
                       "Consider using Map/Set for lookups or optimize algorithm"])%list
  else Js.Ok bs.
Proof. reflexivity. Qed.

Lemma hasNestedLoop_intro (self : instance) (p q : path) :
  In q (below (p_scope_block p) (p_parent p) (p_node p)) ->
  is_loop q = true -> hasNestedLoop self p = true.
Proof.
  intros Hin Hq. rewrite hasNestedLoop_below. apply existsb_exists.
  exists q; now split.
Qed.

Lemma loop_type_is_loop (q : path) :
  In (node_type (p_node q))
     ["ForStatement"; "WhileStatement"; "DoWhileStatement"] ->
  is_loop q = true.
Proof.
  intros H. unfold is_loop, Js.array_includes. apply existsb_exists.
  exists (node_type (p_node q)). split; [exact H|apply String.eqb_refl].
Qed.

Lemma is_loop_loop_type (q : path) :
  is_loop q = true ->
  In (node_type (p_node q))
     ["ForStatement"; "WhileStatement"; "DoWhileStatement"].
Proof.
  unfold is_loop, Js.array_includes. intros H.
  apply existsb_exists in H. destruct H as (ty & Hty & E).
  apply String.eqb_eq in E. now rewrite E.
Qed.

(** On a [for] statement the visitor of [detectBottlenecks] runs the
    nested-loop callback. *)
Lemma for_statement_dispatch (state : option instance) (p : path)
      (bs : list finding) :
  node_type (p_node p) = "ForStatement" ->
  visit_all bottleneck_visitor state [p] bs = nested_loop_callback state p bs.
Proof.
  intros E. simpl. rewrite E. simpl.
  now destruct (nested_loop_callback state p bs).
Qed.
End NestedLoop.

(** C2, as stated, fails.  For the three nested [for] statements of
    [triple_loop_code] the detector does not return exactly one nested-loop
    finding: it returns none, and its callbacks run with the analyzer as
    receiver return two. *)
Lemma triple_loop_not_one_finding :
  Samples.sample_parse Samples.triple_loop_code ["typescript"; "jsx"]
    = Js.Ok Samples.triple_loop_ast /\
  ~ (exists f,
        filter (fun f => (f_type f =? "nested-loop")%string)
          (AdvancedCodeAnalyzer.detectBottlenecks Samples.sample_parse
             Samples.triple_loop_code "loops.js") = [f]) /\
  ~ (exists f,
        Babel.traverse Samples.triple_loop_ast
          AdvancedCodeAnalyzer.bottleneck_visitor
          (Some AdvancedCodeAnalyzer.new) [] = Js.Ok [f]).
Proof.
  split; [reflexivity|]. split.
  - rewrite detectBottlenecks_empty. intros [f Hf]; discriminate.
  - intros [f Hf]. vm_compute in Hf. discriminate.
Qed.

(** C2, amended.  The nested-loop rule has no deduplication: with the
    analyzer as receiver, the visitor adds one nested-loop finding at high
    severity, with the line of the loop it is called on, for EVERY [for]
    statement that has a [for], [while] or [do-while] statement anywhere
    below it, and none for a [for] statement with no loop below it.  Of
    three nested [for] loops the outermost and the middle one both get a
    finding. *)
Theorem nested_loop_rule (self : AdvancedCodeAnalyzer.instance)
        (p : Babel.path) (bs : list finding) :
  Babel.node_type (Babel.p_node p) = "ForStatement" ->
  ((exists q,
       In q (Babel.below (Babel.p_scope_block p) (Babel.p_parent p)
               (Babel.p_node p)) /\
       In (Babel.node_type (Babel.p_node q))
          ["ForStatement"; "WhileStatement"; "DoWhileStatement"]) ->
   Babel.visit_all AdvancedCodeAnalyzer.bottleneck_visitor (Some self)
     [p] bs =
   Js.Ok (bs ++ [mkFinding "nested-loop" "high"
                   (Babel.line (Babel.p_node p))
                   "Nested loops detected - O(n²) complexity"
                   "Consider using Map/Set for lookups or optimize algorithm"])%list) /\
  ((forall q,
       In q (Babel.below (Babel.p_scope_block p) (Babel.p_parent p)
               (Babel.p_node p)) ->
       ~ In (Babel.node_type (Babel.p_node q))
            ["ForStatement"; "WhileStatement"; "DoWhileStatement"]) ->
   Babel.visit_all AdvancedCodeAnalyzer.bottleneck_visitor (Some self)
     [p] bs = Js.Ok bs) /\
  (forall middle inner : Babel.path,
      Babel.node_type (Babel.p_node middle) = "ForStatement" ->
      In middle (Babel.below (Babel.p_scope_block p) (Babel.p_parent p)
                   (Babel.p_node p)) ->
      In inner (Babel.below (Babel.p_scope_block middle)
                  (Babel.p_parent middle) (Babel.p_node middle)) ->
      In (Babel.node_type (Babel.p_node inner))
         ["ForStatement"; "WhileStatement"; "DoWhileStatement"] ->
      Babel.visit_all AdvancedCodeAnalyzer.bottleneck_visitor (Some self)
        [p] bs =
      Js.Ok (bs ++ [mkFinding "nested-loop" "high"
                      (Babel.line (Babel.p_node p))
                      "Nested loops detected - O(n²) complexity"
                      "Consider using Map/Set for lookups or optimize algorithm"])%list /\
      Babel.visit_all AdvancedCodeAnalyzer.bottleneck_visitor (Some self)
        [middle] bs =
      Js.Ok (bs ++ [mkFinding "nested-loop" "high"
                      (Babel.line (Babel.p_node middle))
                      "Nested loops detected - O(n²) complexity"
                      "Consider using Map/Set for lookups or optimize algorithm"])%list).
Proof.
  intros Tp.
  assert (Hfire :
            forall r q : Babel.path,
              Babel.node_type (Babel.p_node r) = "ForStatement" ->
              In q (Babel.below (Babel.p_scope_block r) (Babel.p_parent r)
                      (Babel.p_node r)) ->
              In (Babel.node_type (Babel.p_node q))
                 ["ForStatement"; "WhileStatement"; "DoWhileStatement"] ->
              Babel.visit_all AdvancedCodeAnalyzer.bottleneck_visitor
                (Some self) [r] bs =
              Js.Ok (bs ++ [mkFinding "nested-loop" "high"
                              (Babel.line (Babel.p_node r))
                              "Nested loops detected - O(n²) complexity"
                              "Consider using Map/Set for lookups or optimize algorithm"])%list).
  { intros r q Tr Hin Hq.
    rewrite (for_statement_dispatch _ _ _ Tr), nested_loop_callback_bound.
    rewrite (hasNestedLoop_intro self r q Hin); [reflexivity|].
    now apply loop_type_is_loop. }
  split; [|split].
  - intros (q & Hin & Hq). now apply (Hfire p q).
  - intros Hnone.
    rewrite (for_statement_dispatch _ _ _ Tp), nested_loop_callback_bound.
    rewrite hasNestedLoop_below.
    destruct (existsb _ _) eqn:E; [|reflexivity].
    apply existsb_exists in E. destruct E as (q & Hin & Hq).
    exfalso. apply (Hnone q Hin). now apply is_loop_loop_type.
  - intros middle inner Tm Hm Hi Li. split.
    + apply (Hfire p middle Tp Hm). rewrite Tm. now left.
    + now apply (Hfire middle inner).
Qed.

Lemma nested_loop_rule_witness :
  Babel.visit_all AdvancedCodeAnalyzer.bottleneck_visitor
    (Some AdvancedCodeAnalyzer.new) [Samples.outer_path] [] =
    Js.Ok [mkFinding "nested-loop" "high" (Some 1%nat)
             "Nested loops detected - O(n²) complexity"
             "Consider using Map/Set for lookups or optimize algorithm"] /\
  Babel.visit_all AdvancedCodeAnalyzer.bottleneck_visitor
    (Some AdvancedCodeAnalyzer.new) [Samples.middle_path] [] =
    Js.Ok [mkFinding "nested-loop" "high" (Some 2%nat)
             "Nested loops detected - O(n²) complexity"
             "Consider using Map/Set for lookups or optimize algorithm"] /\
  Babel.visit_all AdvancedCodeAnalyzer.bottleneck_visitor
    (Some AdvancedCodeAnalyzer.new) [Samples.inner_path] [] = Js.Ok [] /\
  Babel.visit_all AdvancedCodeAnalyzer.bottleneck_visitor
    (Some AdvancedCodeAnalyzer.new) [Samples.while_in_for_path] [] =
    Js.Ok [mkFinding "nested-loop" "high" (Some 7%nat)
             "Nested loops detected - O(n²) complexity"
             "Consider using Map/Set for lookups or optimize algorithm"] /\
  Babel.visit_all AdvancedCodeAnalyzer.bottleneck_visitor
    (Some AdvancedCodeAnalyzer.new) [Samples.do_in_for_path] [] =
    Js.Ok [mkFinding "nested-loop" "high" (Some 9%nat)
             "Nested loops detected - O(n²) complexity"
             "Consider using Map/Set for lookups or optimize algorithm"].
Proof.
  destruct (nested_loop_rule AdvancedCodeAnalyzer.new Samples.outer_path []
              eq_refl) as (_ & _ & Htriple).
  destruct (Htriple Samples.middle_path Samples.inner_path eq_refl)
    as [Ho Hm]; [simpl; auto|simpl; auto|simpl; auto|].
  destruct (nested_loop_rule AdvancedCodeAnalyzer.new Samples.inner_path []
              eq_refl) as (_ & Hnone & _).
  destruct (nested_loop_rule AdvancedCodeAnalyzer.new
              Samples.while_in_for_path [] eq_refl) as (Hwhile & _ & _).
  destruct (nested_loop_rule AdvancedCodeAnalyzer.new
              Samples.do_in_for_path [] eq_refl) as (Hdo & _ & _).
  split; [exact Ho|]. split; [exact Hm|]. split; [|split].
  - apply Hnone. intros q Hq. simpl in Hq.
    destruct Hq as [<-|[]]. simpl. intros [H|[H|[H|[]]]]; discriminate.
  - apply Hwhile.
    exists (Babel.mkPath
              (Babel.WhileStatement (Babel.Identifier "busy")
                 Samples.empty_statement)
              Samples.while_in_for
              (Babel.WhileStatement (Babel.Identifier "busy")
                 Samples.empty_statement)).
    split; [simpl; auto|simpl; auto].
  - apply Hdo.
    exists (Babel.mkPath
              (Babel.DoWhileStatement Samples.empty_statement
                 (Babel.Identifier "busy"))
              (Babel.BlockStatement
                 [Babel.DoWhileStatement Samples.empty_statement
                    (Babel.Identifier "busy")])
              (Babel.DoWhileStatement Samples.empty_statement
                 (Babel.Identifier "busy"))).
    split; [simpl; auto|simpl; auto].
Defined.

(** ** The leak rules *)

(** C3.  The listener of [listener_code] has no [removeEventListener] in
    its scope and the event-listener callback, given the analyzer as
    receiver, reports it at medium severity; yet [detectMemoryLeaks] returns
    no finding.  The visitor literal has two properties named
    [CallExpression], so the timer callback replaces the event-listener
    callback, and the callbacks are called with [this] undefined. *)
Theorem listener_leak_unreported :
  Samples.sample_parse Samples.listener_code ["typescript"; "jsx"]
    = Js.Ok Samples.listener_ast /\
  In Samples.listener_path
     (Babel.below Samples.listener_ast Samples.listener_ast
        Samples.listener_ast) /\
  AdvancedCodeAnalyzer.isEventListener AdvancedCodeAnalyzer.new
    Samples.listener_call = true /\
  AdvancedCodeAnalyzer.hasEventCleanup AdvancedCodeAnalyzer.new
    Samples.listener_path = false /\
  AdvancedCodeAnalyzer.event_listener_callback (Some AdvancedCodeAnalyzer.new)
    Samples.listener_path [] =
    Js.Ok [mkFinding "event-listener" "medium" (Some 1%nat)
             "Event listener without cleanup"
             "Add removeEventListener in cleanup function"] /\
  Babel.handler_for AdvancedCodeAnalyzer.leak_visitor "CallExpression"
    = Some AdvancedCodeAnalyzer.timer_callback /\
  Babel.traverse Samples.listener_ast AdvancedCodeAnalyzer.leak_visitor
    (Some AdvancedCodeAnalyzer.new) [] = Js.Ok [] /\
  AdvancedCodeAnalyzer.detectMemoryLeaks Samples.sample_parse
    Samples.listener_code "listener.js" = [].
Proof.
  repeat split; try reflexivity.
  simpl; auto.
Qed.

(** ** The array-chain and the DOM-in-loop rules *)

Section CallRules.
Import Babel AdvancedCodeAnalyzer.

Lemma array_chain_callback_bound (self : instance) (p : path)
      (bs : list finding) :
  array_chain_callback (Some self) p bs =
  if isArrayMethodChain self p && (3 <? getChainLength self p)
  then Js.Ok
         (bs ++ [mkFinding "array-chain" "medium" (line (p_node p))
                   ("Long array method chain (" ++
                    Js.number_to_string (getChainLength self p) ++ " methods)")
                   "Consider combining operations or using for-loop for better performance"])%list
  else Js.Ok bs.
Proof.
  unfold array_chain_callback, method; simpl.
  destruct (isArrayMethodChain self p); simpl; [|reflexivity].
  now destruct (3 <? getChainLength self p).
Qed.

(** [isInLoop] looks at the parent node of the call and no further. *)
Lemma isInLoop_parent_only (self : instance) (p : path) :
  isInLoop self p = Js.array_includes loopTypes (node_type (p_parent p)).
Proof.
  unfold isInLoop, parent_property.
  now destruct (Js.array_includes loopTypes (node_type (p_parent p))).
Qed.
End CallRules.

(** C4, as stated, fails.  The call chain of [builder_chain_code] has
    length 4, and no array-chain finding is reported for it: the rule only
    looks at calls of the array methods (and the detector reports nothing
    at all). *)
Lemma builder_chain_unreported :
  Samples.sample_parse Samples.builder_chain_code ["typescript"; "jsx"]
    = Js.Ok Samples.builder_chain_ast /\
  In Samples.builder_chain_path
     (Babel.below Samples.builder_chain_ast Samples.builder_chain_ast
        Samples.builder_chain_ast) /\
  AdvancedCodeAnalyzer.getChainLength AdvancedCodeAnalyzer.new
    Samples.builder_chain_path = 4 /\
  AdvancedCodeAnalyzer.array_chain_callback (Some AdvancedCodeAnalyzer.new)
    Samples.builder_chain_path [] = Js.Ok [] /\
  ~ (exists f,
        In f (AdvancedCodeAnalyzer.detectBottlenecks Samples.sample_parse
                Samples.builder_chain_code "query.js") /\
        f_type f = "array-chain").
Proof.
  repeat split; try reflexivity.
  - simpl; auto.
  - rewrite detectBottlenecks_empty. intros [f [[] _]].
Qed.

(** C5.  In [dom_loop_code] a call of [getElementById] lies in the body of
    a [for] statement, and [detectBottlenecks] reports nothing.  [isInLoop]
    reads [parent.parent] of a node, which is undefined, so it only sees a
    loop that is the parent of the call itself; and the callbacks are called
    with [this] undefined. *)
Theorem dom_in_loop_unreported :
  Samples.sample_parse Samples.dom_loop_code ["typescript"; "jsx"]
    = Js.Ok Samples.dom_loop_ast /\
  In Samples.dom_call_path
     (Babel.below Samples.dom_loop_ast Samples.dom_loop_ast
        Samples.dom_loop_ast) /\
  In Samples.dom_call_path
     (Babel.below Samples.dom_loop (Babel.Program [Samples.dom_loop])
        Samples.dom_loop) /\
  AdvancedCodeAnalyzer.isDOMManipulation AdvancedCodeAnalyzer.new
    Samples.dom_call_path = true /\
  AdvancedCodeAnalyzer.isInLoop AdvancedCodeAnalyzer.new
    Samples.dom_call_path = false /\
  Babel.handler_for AdvancedCodeAnalyzer.bottleneck_visitor "CallExpression"
    = Some AdvancedCodeAnalyzer.dom_in_loop_callback /\
  Babel.traverse Samples.dom_loop_ast AdvancedCodeAnalyzer.bottleneck_visitor
    (Some AdvancedCodeAnalyzer.new) [] = Js.Ok [] /\
  AdvancedCodeAnalyzer.detectBottlenecks Samples.sample_parse
    Samples.dom_loop_code "dom.js" = [].
Proof.
  repeat split; try reflexivity.
  - simpl; auto 6.
  - simpl; auto 6.
Qed.

(** ** The bundle-impact rule *)

(** C7, as stated, fails.  The import of [moment_code] names "moment" and
    [analyzeBundleImpact] reports no heavy import for it (its callback is
    called with [this] undefined); and for a path that contains "lodash" as
    well as "moment" the suggested alternative is the one of lodash, which
    names no date library. *)
Lemma moment_import_unreported :
  Samples.sample_parse Samples.moment_code ["typescript"; "jsx"]
    = Js.Ok (Samples.import_of "moment" "moment") /\
  Js.includes "moment" "moment" = true /\
  ~ (exists h,
        heavyImports
          (AdvancedCodeAnalyzer.analyzeBundleImpact Samples.sample_parse
             Samples.moment_code "dates.js") = Some [h]) /\
  Js.includes "lodash-moment" "moment" = true /\
  Js.includes
    (AdvancedCodeAnalyzer.suggestAlternative AdvancedCodeAnalyzer.new
       "lodash-moment") "date-fns" = false /\
  Js.includes
    (AdvancedCodeAnalyzer.suggestAlternative AdvancedCodeAnalyzer.new
       "lodash-moment") "dayjs" = false.
Proof.
  repeat split; try reflexivity.
  intros [h Hh].
  rewrite (proj1 (analyzeBundleImpact_no_heavy _ _ _)) in Hh. discriminate.
Qed.

(** C7, amended.  A source path that contains "moment" is classified as a
    heavy library; when it does not also contain "lodash", the suggested
    alternative is "Use date-fns or dayjs (2KB vs 67KB)" and the callback of
    the bundle-impact rule, given the analyzer as receiver, adds exactly one
    heavy-import entry with that alternative.  For a path that contains none
    of the eight names of the heavy-library list the callback adds no entry,
    and [analyzeBundleImpact] reports no heavy import of that path. *)
Theorem moment_import_rule (self : AdvancedCodeAnalyzer.instance)
        (source : string) :
  (Js.includes source "moment" = true ->
   AdvancedCodeAnalyzer.isHeavyLibrary self source = true /\
   (Js.includes source "lodash" = false ->
    AdvancedCodeAnalyzer.suggestAlternative self source
      = "Use date-fns or dayjs (2KB vs 67KB)" /\
    forall p specifiers st,
      Babel.p_node p = Babel.ImportDeclaration specifiers source ->
      exists imports',
        Babel.visit_all AdvancedCodeAnalyzer.bundle_visitor (Some self) [p] st
        = Js.Ok (imports',
                 snd st ++
                 [mkHeavyImport source
                    (AdvancedCodeAnalyzer.getLibrarySize self source)
                    "Use date-fns or dayjs (2KB vs 67KB)"])%list)) /\
  (Forall (fun lib => Js.includes source lib = false)
     AdvancedCodeAnalyzer.heavyLibs ->
   AdvancedCodeAnalyzer.isHeavyLibrary self source = false /\
   (forall p specifiers st,
      Babel.p_node p = Babel.ImportDeclaration specifiers source ->
      exists imports',
        Babel.visit_all AdvancedCodeAnalyzer.bundle_visitor (Some self) [p] st
        = Js.Ok (imports', snd st)) /\
   forall parse code filePath h,
     In h (Js.or_else
             (heavyImports
                (AdvancedCodeAnalyzer.analyzeBundleImpact parse code filePath))
             []) ->
     library h <> source).
Proof.
  split.
  - intros Hm.
    assert (Hh : AdvancedCodeAnalyzer.isHeavyLibrary self source = true)
      by (apply (isHeavyLibrary_intro self source "moment");
          [simpl; auto | exact Hm]).
    split; [exact Hh|]. intros Hl.
    assert (Ha : AdvancedCodeAnalyzer.suggestAlternative self source
                 = "Use date-fns or dayjs (2KB vs 67KB)").
    { unfold AdvancedCodeAnalyzer.suggestAlternative,
        AdvancedCodeAnalyzer.alternatives.
      cbn [AdvancedCodeAnalyzer.first_entry]. now rewrite Hl, Hm. }
    split; [exact Ha|]. intros p specifiers st Hp.
    rewrite (bundle_callback_bound self p specifiers source st Hp), Hh, Ha.
    eexists; reflexivity.
  - intros Hu.
    assert (Hh : AdvancedCodeAnalyzer.isHeavyLibrary self source = false)
      by now apply isHeavyLibrary_unlisted.
    split; [exact Hh|]. split.
    + intros p specifiers st Hp.
      rewrite (bundle_callback_bound self p specifiers source st Hp), Hh.
      eexists; reflexivity.
    + intros parse code filePath h.
      rewrite (proj1 (analyzeBundleImpact_no_heavy parse code filePath)).
      intros [].
Qed.

Lemma moment_import_rule_witness :
  AdvancedCodeAnalyzer.isHeavyLibrary AdvancedCodeAnalyzer.new "moment" = true /\
  AdvancedCodeAnalyzer.suggestAlternative AdvancedCodeAnalyzer.new "moment"
    = "Use date-fns or dayjs (2KB vs 67KB)" /\
  AdvancedCodeAnalyzer.isHeavyLibrary AdvancedCodeAnalyzer.new "./utils"
    = false.
Proof.
  destruct (moment_import_rule AdvancedCodeAnalyzer.new "moment") as [Hm _].
  destruct (moment_import_rule AdvancedCodeAnalyzer.new "./utils") as [_ Hu].
  destruct (Hm eq_refl) as [H1 H2]. destruct (H2 eq_refl) as [H3 _].
  split; [exact H1|]. split; [exact H3|].
  apply Hu. repeat (apply Forall_cons; [reflexivity|]). apply Forall_nil.
Defined.

(** C10, as stated, fails.  The path "jquery-axios" contains "axios" and
    also a name of the size table, so its size is "87KB", not "Unknown";
    and for the import of [axios_code] no heavy import is reported at all. *)
Lemma axios_size_not_always_unknown :
  Js.includes "jquery-axios" "axios" = true /\
  AdvancedCodeAnalyzer.getLibrarySize AdvancedCodeAnalyzer.new "jquery-axios"
    = "87KB" /\
  AdvancedCodeAnalyzer.suggestAlternative AdvancedCodeAnalyzer.new
    "jquery-axios" = "Use vanilla JavaScript or modern alternatives" /\
  ~ (forall source,
        Js.includes source "axios" = true ->
        AdvancedCodeAnalyzer.getLibrarySize AdvancedCodeAnalyzer.new source
          = "Unknown") /\
  ~ (exists h,
        heavyImports
          (AdvancedCodeAnalyzer.analyzeBundleImpact Samples.sample_parse
             Samples.axios_code "http.js") = Some [h]).
Proof.
  repeat split; try reflexivity.
  - intros H. specialize (H "jquery-axios" eq_refl). discriminate.
  - intros [h Hh].
    rewrite (proj1 (analyzeBundleImpact_no_heavy _ _ _)) in Hh. discriminate.
Qed.

(** C10, amended.  A source path that contains "axios" or
    "react-router-dom" is classified as a heavy library; when it contains
    none of the six names of the size and alternative tables, its size is
    "Unknown", its alternative is "Consider lighter alternatives", and the
    callback of the bundle-impact rule, given the analyzer as receiver, adds
    one heavy-import entry with these two texts.  In the score model such an
    entry costs 5 points. *)
Theorem unlisted_heavy_library (self : AdvancedCodeAnalyzer.instance)
        (source : string) :
  Js.includes source "axios" = true \/
  Js.includes source "react-router-dom" = true ->
  AdvancedCodeAnalyzer.isHeavyLibrary self source = true /\
  (Forall (fun lib => Js.includes source lib = false)
     (map fst AdvancedCodeAnalyzer.sizes) ->
   AdvancedCodeAnalyzer.getLibrarySize self source = "Unknown" /\
   AdvancedCodeAnalyzer.suggestAlternative self source
     = "Consider lighter alternatives" /\
   (forall p specifiers st,
      Babel.p_node p = Babel.ImportDeclaration specifiers source ->
      exists imports',
        Babel.visit_all AdvancedCodeAnalyzer.bundle_visitor (Some self) [p] st
        = Js.Ok (imports',
                 snd st ++
                 [mkHeavyImport source "Unknown"
                    "Consider lighter alternatives"])%list) /\
   forall fp ft react imports,
     ScoreModel.calculatePerformanceScore
       (mkResults fp ft (mkPerformance react (Some []))
          (mkBundleImpact imports
             (Some [mkHeavyImport source "Unknown"
                      "Consider lighter alternatives"]) None)
          [] [] None) = 95).
Proof.
  intros Hs.
  assert (Hh : AdvancedCodeAnalyzer.isHeavyLibrary self source = true).
  { destruct Hs as [Ha|Hr].
    - apply (isHeavyLibrary_intro self source "axios"); [simpl; auto|exact Ha].
    - apply (isHeavyLibrary_intro self source "react-router-dom");
        [simpl; auto 10|exact Hr]. }
  split; [exact Hh|]. intros Hu.
  assert (Hsz : AdvancedCodeAnalyzer.getLibrarySize self source = "Unknown")
    by (unfold AdvancedCodeAnalyzer.getLibrarySize;
        now rewrite first_entry_none).
  assert (Hal : AdvancedCodeAnalyzer.suggestAlternative self source
                = "Consider lighter alternatives")
    by (unfold AdvancedCodeAnalyzer.suggestAlternative;
        now rewrite first_entry_none).
  split; [exact Hsz|]. split; [exact Hal|]. split.
  - intros p specifiers st Hp.
    rewrite (bundle_callback_bound self p specifiers source st Hp), Hh, Hsz, Hal.
    eexists; reflexivity.
  - reflexivity.
Qed.

Lemma unlisted_heavy_library_witness :
  AdvancedCodeAnalyzer.isHeavyLibrary AdvancedCodeAnalyzer.new "axios" = true /\
  AdvancedCodeAnalyzer.getLibrarySize AdvancedCodeAnalyzer.new "axios"
    = "Unknown" /\
  AdvancedCodeAnalyzer.suggestAlternative AdvancedCodeAnalyzer.new "axios"
    = "Consider lighter alternatives".
Proof.
  destruct (unlisted_heavy_library AdvancedCodeAnalyzer.new "axios")
    as [H1 H2].
  - left; reflexivity.
  - destruct H2 as (H3 & H4 & _).
    + repeat (apply Forall_cons; [reflexivity|]). apply Forall_nil.
    + split; [exact H1|]. split; [exact H3|exact H4].
Defined.

(** ** The per-file report and the project summary *)

Section ProjectFacts.
Import UltimatePerformanceAnalyzer.
Variable babel_parse : string -> list string -> Js.outcome Babel.node.
Variables extname basename : string -> string.
Variable match_count : string -> string -> Z.
Variable formatSize : Z -> string.
Variable fs : filesystem.
Variable cfg : config.

(** [analyzeFile] never throws; a report adds its score to [totalScore]
    and leaves [results] alone. *)
Lemma analyzeFile_effect (st : state) (filePath : string) :
  analyzeFile babel_parse extname basename match_count formatSize fs cfg
    st filePath = Js.Ok (None, st) \/
  exists a,
    analyzeFile babel_parse extname basename match_count formatSize fs cfg
      st filePath = Js.Ok (Some a, updateGlobalStats st a).
Proof.
  unfold analyzeFile.
  destruct (shouldExclude _ _ _); [now left|].
  destruct (negb _); [now left|].
  destruct (_ || _); [now left|].
  match goal with
  | |- context [match ?r with Some _ => _ | None => _ end] => destruct r as [[content adv]|]
  end; [|now left].
  right; eexists; reflexivity.
Qed.

Lemma scores_app (l l' : list analysis) :
  scores (l ++ l') = scores l + scores l'.
Proof. induction l as [|a l IH]; simpl; [reflexivity|]. rewrite IH; lia. Qed.

(** The loop of [analyzePattern] completes and keeps [totalScore] equal to
    the sum of the scores of [results]. *)
Lemma analyzePattern_loop_scores (files : list string) :
  forall (st : state) (acc : list analysis),
    totalScore st = scores (st_results st) ->
    exists res st',
      analyzePattern_loop babel_parse extname basename match_count formatSize
        fs cfg st files acc = Js.Ok (res, st') /\
      totalScore st' = scores (st_results st').
Proof.
  induction files as [|file files IH]; intros st acc Hst; simpl.
  - now exists acc, st.
  - destruct (analyzeFile_effect st file) as [-> | [a ->]]; simpl.
    + now apply IH.
    + apply IH. simpl. rewrite scores_app, Hst. simpl. lia.
Qed.

(** The grade of the summary as a function of its average score. *)
Lemma summary_grade (st : state) :
  let sm := generateUltimateSummary extname formatSize st in
  let n := Z.of_nat (length (st_results st)) in
  averageScore sm = (if 0 <? n then Js.round_div (totalScore st) n else 0) /\
  grade sm =
    (if 90 <=? averageScore sm then "A+"
     else if 80 <=? averageScore sm then "A"
     else if 70 <=? averageScore sm then "B"
     else if 60 <=? averageScore sm then "C"
     else if 50 <=? averageScore sm then "D"
     else "F").
Proof. split; reflexivity. Qed.
End ProjectFacts.

(** C6.  After [analyzePattern] has processed the files, the summary's
    average score is the sum of the per-file scores divided by the number of
    reports and rounded ([Math.round]), and the grade follows the bands
    average >= 90: A+, >= 80: A, >= 70: B, >= 60: C, >= 50: D, otherwise F;
    in particular 85 gives A, 55 gives D and 40 gives F. *)
Theorem project_grade
        (babel_parse : string -> list string -> Js.outcome Babel.node)
        (extname basename : string -> string)
        (match_count : string -> string -> Z) (formatSize : Z -> string)
        (fs : UltimatePerformanceAnalyzer.filesystem)
        (cfg : UltimatePerformanceAnalyzer.config)
        (st : UltimatePerformanceAnalyzer.state) (files : list string) :
  UltimatePerformanceAnalyzer.totalScore st =
  UltimatePerformanceAnalyzer.scores (UltimatePerformanceAnalyzer.st_results st) ->
  exists res st',
    UltimatePerformanceAnalyzer.analyzePattern_loop babel_parse extname
      basename match_count formatSize fs cfg st files [] = Js.Ok (res, st') /\
    let reports := UltimatePerformanceAnalyzer.st_results st' in
    let n := Z.of_nat (length reports) in
    let sm :=
      UltimatePerformanceAnalyzer.generateUltimateSummary extname formatSize
        st' in
    let avg := UltimatePerformanceAnalyzer.averageScore sm in
    let grade := UltimatePerformanceAnalyzer.grade sm in
    (0 < n ->
     avg = Js.round_div (UltimatePerformanceAnalyzer.scores reports) n /\
     2 * n * avg <= 2 * UltimatePerformanceAnalyzer.scores reports + n
       < 2 * n * (avg + 1)) /\
    (n = 0 -> avg = 0) /\
    (90 <= avg -> grade = "A+") /\
    (80 <= avg < 90 -> grade = "A") /\
    (70 <= avg < 80 -> grade = "B") /\
    (60 <= avg < 70 -> grade = "C") /\
    (50 <= avg < 60 -> grade = "D") /\
    (avg < 50 -> grade = "F") /\
    (avg = 85 -> grade = "A") /\
    (avg = 55 -> grade = "D") /\
    (avg = 40 -> grade = "F").
Proof.
  intros Hst.
  destruct (analyzePattern_loop_scores babel_parse extname basename
              match_count formatSize fs cfg files st [] Hst)
    as (res & st' & Hrun & Hst').
  exists res, st'. split; [exact Hrun|]. cbv zeta.
  destruct (summary_grade extname formatSize st') as [Havg Hgrade].
  cbv zeta in Havg, Hgrade. rewrite Hgrade.
  set (avg := UltimatePerformanceAnalyzer.averageScore _) in *.
  set (n := Z.of_nat _) in *.
  assert (Hpos : 0 < n ->
                 avg = Js.round_div
                         (UltimatePerformanceAnalyzer.scores
                            (UltimatePerformanceAnalyzer.st_results st')) n).
  { intros Hn. rewrite Havg, <- Hst'.
    destruct (0 <? n) eqn:E; [reflexivity|]. apply Z.ltb_ge in E; lia. }
  split.
  { intros Hn. split; [now apply Hpos|]. rewrite (Hpos Hn).
    unfold Js.round_div.
    set (x := 2 * UltimatePerformanceAnalyzer.scores _ + n).
    pose proof (Z.mul_div_le x (2 * n)).
    pose proof (Z.mul_succ_div_gt x (2 * n)). lia. }
  split.
  { intros Hn. rewrite Havg. now rewrite Hn. }
  assert (Hge : forall k, k <= avg -> (k <=? avg) = true)
    by (intros; apply Z.leb_le; lia).
  assert (Hlt : forall k, avg < k -> (k <=? avg) = false)
    by (intros; apply Z.leb_gt; lia).
  split; [intros H; now rewrite Hge by lia|].
  split; [intros H; now rewrite Hlt, Hge by lia|].
  split; [intros H; now rewrite !Hlt, Hge by lia|].
  split; [intros H; now rewrite !Hlt, Hge by lia|].
  split; [intros H; now rewrite !Hlt, Hge by lia|].
  split; [intros H; now rewrite !Hlt by lia|].
  split; [intros ->; reflexivity|].
  split; intros ->; reflexivity.
Qed.

(** Two reports with the scores 80 and 75 and a third file that scores 100:
    the mean is 85 and the grade is A. *)
Lemma project_grade_witness :
  exists res st',
    UltimatePerformanceAnalyzer.analyzePattern_loop Samples.sample_parse
      Samples.js_extname Samples.app_basename Samples.no_match
      Samples.bytes_formatSize (Samples.one_file Samples.listener_code)
      UltimatePerformanceAnalyzer.defaultConfig Samples.two_reports
      ["src/app.js"] [] = Js.Ok (res, st') /\
    map UltimatePerformanceAnalyzer.a_performanceScore
      (UltimatePerformanceAnalyzer.st_results st') = [80; 75; 100] /\
    UltimatePerformanceAnalyzer.averageScore
      (UltimatePerformanceAnalyzer.generateUltimateSummary Samples.js_extname
         Samples.bytes_formatSize st') = 85 /\
    UltimatePerformanceAnalyzer.grade
      (UltimatePerformanceAnalyzer.generateUltimateSummary Samples.js_extname
         Samples.bytes_formatSize st') = "A".
Proof.
  destruct (project_grade Samples.sample_parse Samples.js_extname
              Samples.app_basename Samples.no_match Samples.bytes_formatSize
              (Samples.one_file Samples.listener_code)
              UltimatePerformanceAnalyzer.defaultConfig Samples.two_reports
              ["src/app.js"] eq_refl)
    as (res & st' & Hrun & H).
  exists res, st'. split; [exact Hrun|].
  vm_compute in Hrun. injection Hrun as <- <-.
  split; [reflexivity|]. split; [reflexivity|].
  cbv zeta in H. destruct H as (_ & _ & _ & HA & _).
  apply HA. vm_compute. split; [discriminate|reflexivity].
Defined.

(** ** Texts the parser rejects *)

Section ParseFailure.
Import Babel AdvancedCodeAnalyzer UltimatePerformanceAnalyzer.
Variable babel_parse : string -> list string -> Js.outcome node.
Variables extname basename : string -> string.

(** The detectors report nothing, so the score of [analyzeCode] is 100. *)
Lemma analyzeCode_score (code filePath : string) :
  performanceScore (analyzeCode babel_parse extname code filePath) = Some 100.
Proof.
  unfold analyzeCode. cbn [performanceScore]. f_equal.
  rewrite score_closed_form. cbn [r_performance bottlenecks memoryLeaks
                                   r_bundleImpact Js.or_else].
  rewrite detectBottlenecks_empty, detectMemoryLeaks_empty.
  now rewrite (proj1 (analyzeBundleImpact_no_heavy babel_parse code filePath)).
Qed.

Lemma analyzeBundleImpact_invalid (code filePath : string) (e : Js.exn) :
  babel_parse code ["typescript"; "jsx"] = Js.Throw e ->
  analyzeBundleImpact babel_parse code filePath =
  mkBundleImpact [] (Some []) (Some (Js.exn_message e)).
Proof. intros H. unfold analyzeBundleImpact. now rewrite H. Qed.

Lemma source_ext_not_binary (ext : string) :
  Js.array_includes sourceExts ext = true -> isBinaryFile ext = false.
Proof.
  intros H. apply existsb_exists in H. destruct H as (x & Hin & Hx).
  apply String.eqb_eq in Hx. subst x. simpl in Hin.
  destruct Hin as [<-|[<-|[<-|[<-|[<-|[<-|[]]]]]]]; reflexivity.
Qed.
End ParseFailure.

(** C8, as stated, fails.  For the text [invalid_code], which the parser
    rejects, the report of [analyzeFile] has its traditional metrics, but
    its advanced analysis is not absent: it is a results object with a
    score of 100. *)
Lemma invalid_source_advanced_present :
  (forall plugins,
      Samples.sample_parse Samples.invalid_code plugins
      = Js.Throw (Js.SyntaxError "Unexpected token")) /\
  exists a st',
    UltimatePerformanceAnalyzer.analyzeFile Samples.sample_parse
      Samples.js_extname Samples.app_basename Samples.no_match
      Samples.bytes_formatSize (Samples.one_file Samples.invalid_code)
      UltimatePerformanceAnalyzer.defaultConfig
      UltimatePerformanceAnalyzer.initial "src/app.js" = Js.Ok (Some a, st') /\
    UltimatePerformanceAnalyzer.traditionalAnalysis a <> None /\
    UltimatePerformanceAnalyzer.advanced a <> None /\
    UltimatePerformanceAnalyzer.a_performanceScore a = 100.
Proof.
  split; [reflexivity|]. eexists; eexists.
  split; [vm_compute; reflexivity|].
  split; [discriminate|]. split; [discriminate|reflexivity].
Qed.

(** C8, amended.  For every non-empty text that the parser rejects, read
    from a script file with the performance analysis switched on,
    [analyzeFile] completes with a report: the traditional metrics are
    computed from the raw text; the advanced analysis is PRESENT, with empty
    bottleneck, leak, import and heavy-import lists, the parser's message in
    [bundleImpact.error] and the score 100, which is also the score of the
    file. *)
Theorem invalid_source_report
        (babel_parse : string -> list string -> Js.outcome Babel.node)
        (extname basename : string -> string)
        (match_count : string -> string -> Z) (formatSize : Z -> string)
        (fs : UltimatePerformanceAnalyzer.filesystem)
        (cfg : UltimatePerformanceAnalyzer.config)
        (st : UltimatePerformanceAnalyzer.state)
        (filePath content : string) (e : Js.exn) :
  UltimatePerformanceAnalyzer.shouldExclude basename cfg filePath = false ->
  UltimatePerformanceAnalyzer.existsSync fs filePath = true ->
  UltimatePerformanceAnalyzer.stat_size fs filePath <= 5000000 ->
  Js.array_includes UltimatePerformanceAnalyzer.sourceExts (extname filePath)
    = true ->
  UltimatePerformanceAnalyzer.readFileSync fs filePath = Js.Ok content ->
  UltimatePerformanceAnalyzer.o_performance
    (UltimatePerformanceAnalyzer.c_analysis cfg) = true ->
  content <> "" ->
  (forall plugins, babel_parse content plugins = Js.Throw e) ->
  exists a r,
    UltimatePerformanceAnalyzer.analyzeFile babel_parse extname basename
      match_count formatSize fs cfg st filePath
    = Js.Ok (Some a,
             UltimatePerformanceAnalyzer.updateGlobalStats st a) /\
    UltimatePerformanceAnalyzer.traditionalAnalysis a =
      Some
        (UltimatePerformanceAnalyzer.mkTraditional
           (Z.of_nat (length (UltimatePerformanceAnalyzer.split_lines content)))
           (UltimatePerformanceAnalyzer.str_length content)
           (match_count "/function\s+\w+|const\s+\w+\s*=\s*\(|=>\s*\{/g" content)
           (match_count "/for\s*\(|while\s*\(|forEach\(|map\(|filter\(/g" content)
           (match_count "/import\s+.*from|require\s*\(/g" content)
           (UltimatePerformanceAnalyzer.calculateBasicComplexity match_count
              content)
           (match_count "/TODO|FIXME|XXX/gi" content)
           (UltimatePerformanceAnalyzer.detectDuplicatedCode content)) /\
    UltimatePerformanceAnalyzer.advanced a = Some r /\
    bottlenecks (r_performance r) = Some [] /\
    memoryLeaks r = [] /\
    r_bundleImpact r = mkBundleImpact [] (Some []) (Some (Js.exn_message e)) /\
    performanceScore r = Some 100 /\
    UltimatePerformanceAnalyzer.a_performanceScore a = 100.
Proof.
  intros Hex Hfile Hsize Hext Hread Hperf Hne Hparse.
  unfold UltimatePerformanceAnalyzer.analyzeFile.
  rewrite Hex, Hfile, Hext, Hread, Hperf, (source_ext_not_binary _ Hext).
  assert ((5000000 <? UltimatePerformanceAnalyzer.stat_size fs filePath) = false)
    as -> by (apply Z.ltb_ge; lia).
  cbn [negb orb Js.bind Js.try_catch].
  eexists; eexists. split; [reflexivity|].
  cbn [UltimatePerformanceAnalyzer.traditionalAnalysis
         UltimatePerformanceAnalyzer.advanced
         UltimatePerformanceAnalyzer.a_performanceScore].
  split.
  { unfold UltimatePerformanceAnalyzer.getTraditionalAnalysis.
    destruct (content =? "")%string eqn:E; [|reflexivity].
    apply String.eqb_eq in E. contradiction. }
  split; [reflexivity|].
  unfold UltimatePerformanceAnalyzer.calculateOverallScore.
  rewrite analyzeCode_score.
  unfold AdvancedCodeAnalyzer.analyzeCode.
  cbn [r_performance bottlenecks memoryLeaks r_bundleImpact performanceScore].
  rewrite detectBottlenecks_empty, detectMemoryLeaks_empty.
  rewrite (analyzeBundleImpact_invalid babel_parse content filePath e
             (Hparse _)).
  repeat split.
Qed.

Lemma invalid_source_report_witness :
  exists a r,
    UltimatePerformanceAnalyzer.analyzeFile Samples.sample_parse
      Samples.js_extname Samples.app_basename Samples.no_match
      Samples.bytes_formatSize (Samples.one_file Samples.invalid_code)
      UltimatePerformanceAnalyzer.defaultConfig
      UltimatePerformanceAnalyzer.initial "src/app.js"
    = Js.Ok (Some a,
             UltimatePerformanceAnalyzer.updateGlobalStats
               UltimatePerformanceAnalyzer.initial a) /\
    UltimatePerformanceAnalyzer.advanced a = Some r /\
    r_bundleImpact r = mkBundleImpact [] (Some []) (Some "Unexpected token") /\
    performanceScore r = Some 100.
Proof.
  destruct (invalid_source_report Samples.sample_parse Samples.js_extname
              Samples.app_basename Samples.no_match Samples.bytes_formatSize
              (Samples.one_file Samples.invalid_code)
              UltimatePerformanceAnalyzer.defaultConfig
              UltimatePerformanceAnalyzer.initial "src/app.js"
              Samples.invalid_code (Js.SyntaxError "Unexpected token"))
    as (a & r & Hrun & _ & Hadv & _ & _ & Hbundle & Hscore & _).
  - reflexivity.
  - reflexivity.
  - vm_compute; discriminate.
  - reflexivity.
  - reflexivity.
  - reflexivity.
  - discriminate.
  - reflexivity.
  - exists a, r. repeat split; assumption.
Defined.

(** * Further properties *)

(** ** The analyses of [AdvancedCodeAnalyzer] *)

Section AnalysisFacts.
Import Babel AdvancedCodeAnalyzer Measures.

Lemma react_visitor_needs_receiver : needs_receiver react_visitor.
Proof.
  intros key h [E|[E|[E|[]]]] p s; injection E as _ <-;
    right; eexists; reflexivity.
Qed.

(** A visitor with one callback that behaves as a flag setter. *)
Lemma visit_all_flag_ext (key : string) (h : handler (R := instance))
      (test : path -> bool) (state : option instance) :
  (forall st q flag, h st q flag = Js.Ok (if test q then true else flag)) ->
  forall (ps : list path) (flag : bool),
    visit_all [(key, h)] state ps flag
    = Js.Ok (flag ||
             existsb (fun q => Js.array_includes (split_pipe key)
                                 (node_type (p_node q)) && test q) ps).
Proof.
  intros Hh ps; induction ps as [|p ps IH]; intros flag; simpl.
  - now rewrite orb_false_r.
  - destruct (Js.array_includes (split_pipe key) (node_type (p_node p))); simpl.
    + rewrite Hh; simpl. rewrite IH. destruct (test p), flag; reflexivity.
    + apply IH.
Qed.

(** With [this] undefined, a traversal whose callbacks all throw completes
    exactly when no node on its way has a callback. *)
Lemma visit_all_throwing {S : Type} (v : visitor (R := instance) (S := S))
      (ps : list path) (s : S) :
  (forall key h, In (key, h) v -> forall p s, exists e, h None p s = Js.Throw e) ->
  visit_all v None ps s = Js.Ok s <->
  Forall (fun p => handler_for v (node_type (p_node p)) = None) ps.
Proof.
  intros Hv; induction ps as [|p ps IH]; simpl.
  - split; [constructor|reflexivity].
  - destruct (handler_for v (node_type (p_node p))) as [h|] eqn:E.
    + destruct (handler_for_In _ _ _ E) as [key Hk].
      destruct (Hv key h Hk p s) as [e He]. rewrite He; simpl.
      split; [discriminate|]. intros H; inversion H; congruence.
    + rewrite IH. split; [now constructor|]. intros H; now inversion H.
Qed.

Lemma react_visitor_handler (ty : string) :
  handler_for react_visitor ty = None <->
  ~ In ty ["FunctionDeclaration"; "CallExpression"; "JSXElement"].
Proof.
  unfold react_visitor. cbn [handler_for].
  change (split_pipe "FunctionDeclaration") with ["FunctionDeclaration"].
  change (split_pipe "CallExpression") with ["CallExpression"].
  change (split_pipe "JSXElement") with ["JSXElement"].
  unfold Js.array_includes. cbn [existsb]. rewrite !orb_false_r.
  destruct (String.eqb_spec ty "JSXElement") as [->|N1].
  { split; [discriminate|]. intros H; exfalso; apply H; simpl; auto. }
  destruct (String.eqb_spec ty "CallExpression") as [->|N2].
  { split; [discriminate|]. intros H; exfalso; apply H; simpl; auto. }
  destruct (String.eqb_spec ty "FunctionDeclaration") as [->|N3].
  { split; [discriminate|]. intros H; exfalso; apply H; simpl; auto. }
  split; [|reflexivity].
  intros _ [E|[E|[E|[]]]]; congruence.
Qed.

Lemma existsb_call_test (test : path -> bool) (ps : list path) :
  (forall q, test q = true -> node_type (p_node q) = "CallExpression") ->
  existsb (fun q => Js.array_includes (split_pipe "CallExpression")
                      (node_type (p_node q)) && test q) ps
  = existsb test ps.
Proof.
  intros Ht; induction ps as [|q ps IH]; [reflexivity|].
  cbn [existsb]. rewrite IH. f_equal. destruct (test q) eqn:E.
  - rewrite (Ht q E). reflexivity.
  - apply andb_false_r.
Qed.

(** One turn of the loop of [getChainLength]. *)
Lemma getChainLength_loop_step (k : Z) (l : option nat) (o p : node)
      (c : bool) (args : list node) :
  getChainLength_loop k (CallExpression l (MemberExpression o p c) args)
  = if is_call o then getChainLength_loop (k + 1) o else k + 1.
Proof. destruct o; reflexivity. Qed.

Lemma getChainLength_loop_acc :
  forall (n : node) (k : Z),
    getChainLength_loop k n = k + getChainLength_loop 0 n.
Proof.
  fix IH 1. intros n k.
  destruct n as [| | | | | | | | | | | | | |l callee args| | | |];
    try (simpl; lia).
  destruct callee as [| | | | | | | | | | | | | | |o p c| | |];
    try (simpl; lia).
  rewrite !getChainLength_loop_step.
  destruct (is_call o); [|lia].
  rewrite (IH o (k + 1)), (IH o (0 + 1)). lia.
Qed.
End AnalysisFacts.

(** X1.  Whatever the parser, the text and the path, the result of
    [analyzeCode] has no bottleneck, no memory leak, no import and no heavy
    import, and its score is 100: every visitor callback starts by calling
    a method of [this], which is undefined, and each analysis catches the
    error. *)
Theorem advanced_analysis_reports_nothing
        (babel_parse : string -> list string -> Js.outcome Babel.node)
        (extname : string -> string) (code filePath : string) :
  let r := AdvancedCodeAnalyzer.analyzeCode babel_parse extname code filePath in
  bottlenecks (r_performance r) = Some [] /\
  memoryLeaks r = [] /\
  imports (r_bundleImpact r) = [] /\
  heavyImports (r_bundleImpact r) = Some [] /\
  performanceScore r = Some 100.
Proof.
  cbv zeta. rewrite analyzeCode_score.
  unfold AdvancedCodeAnalyzer.analyzeCode.
  cbn [r_performance bottlenecks memoryLeaks r_bundleImpact].
  rewrite detectBottlenecks_empty, detectMemoryLeaks_empty.
  destruct (analyzeBundleImpact_no_heavy babel_parse code filePath)
    as [-> ->].
  repeat split.
Qed.

(** X2.  [analyzeReactComponent] never reports an issue or a
    recommendation.  It returns without an error exactly when the text
    parses and its tree has no function declaration, no call and no JSX
    element; for every other text it records an error. *)
Theorem react_analysis_reports_nothing
        (babel_parse : string -> list string -> Js.outcome Babel.node)
        (code filePath : string) :
  let r := AdvancedCodeAnalyzer.analyzeReactComponent babel_parse code
             filePath in
  issues r = [] /\ recommendations r = [] /\
  (ra_error r = None <->
   exists ast,
     babel_parse code ["jsx"; "typescript"; "decorators-legacy"] = Js.Ok ast /\
     forall q, In q (Babel.below ast ast ast) ->
               ~ In (Babel.node_type (Babel.p_node q))
                    ["FunctionDeclaration"; "CallExpression"; "JSXElement"]).
Proof.
  cbv zeta. unfold AdvancedCodeAnalyzer.analyzeReactComponent.
  assert (Hthrow :
            forall key h, In (key, h) AdvancedCodeAnalyzer.react_visitor ->
            forall p s, exists e, h None p s = Js.Throw e).
  { intros key h [E|[E|[E|[]]]] p s; injection E as _ <-;
      eexists; reflexivity. }
  destruct (babel_parse code _) as [ast|e]; simpl.
  - unfold Babel.traverse.
    pose proof (visit_all_throwing AdvancedCodeAnalyzer.react_visitor
                  (Babel.below ast ast ast) (@nil string, @nil string) Hthrow)
      as Hiff.
    destruct (visit_all_unbound AdvancedCodeAnalyzer.react_visitor
                (Babel.below ast ast ast) ([], [])
                react_visitor_needs_receiver) as [H | [e H]];
      rewrite H; simpl.
    + repeat split; auto. intros _. exists ast. split; [reflexivity|].
      intros q Hq. apply react_visitor_handler.
      apply (proj1 (Forall_forall _ _) (proj1 Hiff H) q Hq).
    + repeat split; try discriminate.
      intros (ast' & [= <-] & H'). exfalso.
      assert (Hok : Babel.visit_all AdvancedCodeAnalyzer.react_visitor None
                      (Babel.below ast ast ast) ([], []) = Js.Ok ([], [])).
      { apply Hiff. apply Forall_forall. intros q Hq.
        apply react_visitor_handler. now apply H'. }
      rewrite H in Hok. discriminate.
  - repeat split; try discriminate. intros (ast & H & _). discriminate.
Qed.

(** X3.  [hasNestedLoop] holds of a path exactly when a [for], [while] or
    [do-while] statement lies somewhere below its node (in a nested block
    or function as well); the node itself does not count. *)
Theorem hasNestedLoop_iff (self : AdvancedCodeAnalyzer.instance)
        (p : Babel.path) :
  AdvancedCodeAnalyzer.hasNestedLoop self p = true <->
  exists q,
    In q (Babel.below (Babel.p_scope_block p) (Babel.p_parent p)
            (Babel.p_node p)) /\
    In (Babel.node_type (Babel.p_node q))
       ["ForStatement"; "WhileStatement"; "DoWhileStatement"].
Proof.
  rewrite hasNestedLoop_below, existsb_exists.
  split; intros (q & Hin & Hq); exists q; (split; [exact Hin|]).
  - unfold AdvancedCodeAnalyzer.is_loop, Js.array_includes in Hq.
    apply existsb_exists in Hq. destruct Hq as (ty & Hty & E).
    apply String.eqb_eq in E. now rewrite E.
  - unfold AdvancedCodeAnalyzer.is_loop, Js.array_includes.
    apply existsb_exists. exists (Babel.node_type (Babel.p_node q)).
    split; [exact Hq|apply String.eqb_refl].
Qed.

(** X4.  The cleanup searches look at the whole block of the scope of the
    call and at nothing else: [hasEventCleanup] holds exactly when some call
    below that block has a member callee named [removeEventListener], and
    [hasTimerCleanup] exactly when some call below it has the callee
    [clearTimeout], [clearInterval] or [cancelAnimationFrame]; neither looks
    at the arguments or at the receiver of the call. *)
Theorem cleanup_search (self : AdvancedCodeAnalyzer.instance)
        (p : Babel.path) :
  let block := Babel.p_scope_block p in
  (AdvancedCodeAnalyzer.hasEventCleanup self p = true <->
   exists q, In q (Babel.below block block block) /\
             Measures.is_remove_listener q = true) /\
  (AdvancedCodeAnalyzer.hasTimerCleanup self p = true <->
   exists q, In q (Babel.below block block block) /\
             Measures.is_clear_timer q = true).
Proof.
  cbv zeta. split.
  - unfold AdvancedCodeAnalyzer.hasEventCleanup, Babel.scope_traverse.
    rewrite (visit_all_flag_ext "CallExpression" _
               Measures.is_remove_listener).
    + rewrite orb_false_l, existsb_call_test.
      * apply existsb_exists.
      * intros q. unfold Measures.is_remove_listener.
        destruct (Babel.p_node q); try discriminate. reflexivity.
    + intros st q flag. unfold Measures.is_remove_listener.
      destruct (Babel.p_node q) as [| | | | | | | | | | | | | |l c args| | | |];
        try reflexivity.
      destruct c as [| | | | | | | | | | | | | | |o pr cm| | |]; try reflexivity.
      destruct pr as [| | | | | | | | | | | | | | | |x| |]; try reflexivity.
      simpl. now destruct (x =? "removeEventListener")%string.
  - unfold AdvancedCodeAnalyzer.hasTimerCleanup, Babel.scope_traverse.
    rewrite (visit_all_flag_ext "CallExpression" _ Measures.is_clear_timer).
    + rewrite orb_false_l, existsb_call_test.
      * apply existsb_exists.
      * intros q. unfold Measures.is_clear_timer.
        destruct (Babel.p_node q); try discriminate. reflexivity.
    + intros st q flag. unfold Measures.is_clear_timer.
      destruct (Babel.p_node q) as [| | | | | | | | | | | | | |l c args| | | |];
        try reflexivity.
      destruct c as [| | | | | | | | | | | | | | | |x| |]; try reflexivity.
      cbn [Babel.callee].
      now destruct (Js.array_includes AdvancedCodeAnalyzer.cleanupMethods x).
Qed.



Section VisitorFacts.
Import Babel AdvancedCodeAnalyzer.

(** The visitor of [detectMemoryLeaks] dispatches as if it had the timer
    callback alone, the visitor of [detectBottlenecks] as if it had no
    array-chain callback. *)
Lemma leak_visitor_dispatch (ty : string) :
  handler_for leak_visitor ty =
  handler_for [("CallExpression", timer_callback)] ty.
Proof.
  unfold leak_visitor. cbn [handler_for].
  now destruct (Js.array_includes (split_pipe "CallExpression") ty).
Qed.

Lemma bottleneck_visitor_dispatch (ty : string) :
  handler_for bottleneck_visitor ty =
  handler_for [("ForStatement", nested_loop_callback);
               ("CallExpression", dom_in_loop_callback)] ty.
Proof.
  unfold bottleneck_visitor. cbn [handler_for].
  now destruct (Js.array_includes (split_pipe "CallExpression") ty).
Qed.

(** A traversal whose callbacks append at most one finding of a kind [P]
    keeps the findings it starts with and appends findings of that kind. *)
Lemma visit_all_appends (P : finding -> Prop)
      (v v' : visitor (R := instance) (S := list finding))
      (state : option instance) :
  (forall ty, handler_for v ty = handler_for v' ty) ->
  (forall key h, In (key, h) v' ->
   forall p s s1, h state p s = Js.Ok s1 ->
                  s1 = s \/ exists f, s1 = (s ++ [f])%list /\ P f) ->
  forall ps s s',
    visit_all v state ps s = Js.Ok s' ->
    exists added, s' = (s ++ added)%list /\ Forall P added.
Proof.
  intros Hd Hh ps; induction ps as [|p ps IH]; intros s s'; simpl.
  - intros [= <-]. exists []. split; [now rewrite app_nil_r|constructor].
  - rewrite Hd.
    destruct (handler_for v' (node_type (p_node p))) as [h|] eqn:E;
      [|apply IH].
    destruct (handler_for_In _ _ _ E) as [key Hk].
    destruct (h state p s) as [s1|e] eqn:E1; simpl; [|discriminate].
    intros Hrest. destruct (IH _ _ Hrest) as (added & -> & Hadded).
    destruct (Hh key h Hk p s s1 E1) as [-> | (f & -> & Hf)].
    + now exists added.
    + exists (f :: added). split; [now rewrite <- app_assoc|now constructor].
Qed.

Lemma timer_callback_appends (state : option instance) (p : path)
      (s s1 : list finding) :
  timer_callback state p s = Js.Ok s1 ->
  s1 = s \/ exists f, s1 = (s ++ [f])%list /\ f_type f = "timer".
Proof.
  destruct state as [self|]; [|discriminate].
  unfold timer_callback, method; simpl.
  destruct (isTimer self (p_node p)); simpl; [|intros [= <-]; now left].
  destruct (hasTimerCleanup self p); simpl; intros [= <-];
    [now left|right; eexists; split; reflexivity].
Qed.

Lemma nested_loop_callback_appends (state : option instance) (p : path)
      (s s1 : list finding) :
  nested_loop_callback state p s = Js.Ok s1 ->
  s1 = s \/ exists f, s1 = (s ++ [f])%list /\ f_type f = "nested-loop".
Proof.
  destruct state as [self|]; [|discriminate].
  rewrite nested_loop_callback_bound.
  destruct (hasNestedLoop self p); intros [= <-];
    [right; eexists; split; reflexivity|now left].
Qed.

Lemma dom_in_loop_callback_appends (state : option instance) (p : path)
      (s s1 : list finding) :
  dom_in_loop_callback state p s = Js.Ok s1 ->
  s1 = s \/ exists f, s1 = (s ++ [f])%list /\ f_type f = "dom-in-loop".
Proof.
  destruct state as [self|]; [|discriminate].
  unfold dom_in_loop_callback, method; simpl.
  destruct (isDOMManipulation self p); simpl; [|intros [= <-]; now left].
  destruct (isInLoop self p); simpl; intros [= <-];
    [right; eexists; split; reflexivity|now left].
Qed.
End VisitorFacts.

(** X6.  Whatever [this] the callbacks are given, a traversal with the
    visitor of [detectMemoryLeaks] only appends findings of type "timer",
    never one of type "event-listener", and a traversal with the visitor of
    [detectBottlenecks] only appends findings of type "nested-loop" or
    "dom-in-loop", never one of type "array-chain": in both visitor
    literals the second [CallExpression] property replaces the first. *)
Theorem overwritten_callbacks_never_run
        (state : option AdvancedCodeAnalyzer.instance)
        (ps : list Babel.path) (s s' : list finding) :
  (Babel.visit_all AdvancedCodeAnalyzer.leak_visitor state ps s = Js.Ok s' ->
   exists added,
     s' = (s ++ added)%list /\
     Forall (fun f => f_type f = "timer") added) /\
  (Babel.visit_all AdvancedCodeAnalyzer.bottleneck_visitor state ps s
   = Js.Ok s' ->
   exists added,
     s' = (s ++ added)%list /\
     Forall (fun f => f_type f = "nested-loop" \/ f_type f = "dom-in-loop")
       added).
Proof.
  split.
  - apply (visit_all_appends _ _ _ state leak_visitor_dispatch).
    intros key h [E|[]] p s0 s1; injection E as _ <-.
    apply timer_callback_appends.
  - apply (visit_all_appends _ _ _ state bottleneck_visitor_dispatch).
    intros key h [E|[E|[]]] p s0 s1 H; injection E as _ <-.
    + destruct (nested_loop_callback_appends state p s0 s1 H)
        as [-> | (f & -> & Hf)]; [now left|right; exists f; auto].
    + destruct (dom_in_loop_callback_appends state p s0 s1 H)
        as [-> | (f & -> & Hf)]; [now left|right; exists f; auto].
Qed.

Lemma overwritten_callbacks_never_run_witness :
  exists added,
    [mkFinding "nested-loop" "high" (Some 1%nat)
       "Nested loops detected - O(n²) complexity"
       "Consider using Map/Set for lookups or optimize algorithm";
     mkFinding "nested-loop" "high" (Some 2%nat)
       "Nested loops detected - O(n²) complexity"
       "Consider using Map/Set for lookups or optimize algorithm"]
    = ([] ++ added)%list /\
    Forall (fun f => f_type f = "nested-loop" \/ f_type f = "dom-in-loop")
      added.
Proof.
  apply (proj2 (overwritten_callbacks_never_run
                  (Some AdvancedCodeAnalyzer.new)
                  (Babel.below Samples.triple_loop_ast Samples.triple_loop_ast
                     Samples.triple_loop_ast) [] _)).
  reflexivity.
Defined.

Section TableFacts.
Import AdvancedCodeAnalyzer.

Lemma first_entry_some (table : list (string * string))
      (source v : string) :
  first_entry table source = Some v ->
  exists lib, In (lib, v) table /\ Js.includes source lib = true.
Proof.
  induction table as [|[lib w] table IH]; simpl; [discriminate|].
  destruct (Js.includes source lib) eqn:E.
  - intros [= <-]. exists lib. split; [now left|exact E].
  - intros H. destruct (IH H) as (lib' & Hin & Hl). exists lib'.
    split; [now right|exact Hl].
Qed.

Lemma first_entry_none_iff (table : list (string * string))
      (source : string) :
  first_entry table source = None <->
  Forall (fun lib => Js.includes source lib = false) (map fst table).
Proof.
  split; [|apply first_entry_none].
  induction table as [|[lib w] table IH]; simpl; [constructor|].
  destruct (Js.includes source lib) eqn:E; [discriminate|].
  intros H. constructor; [exact E|now apply IH].
Qed.
End TableFacts.

(** X7.  The size table and the alternative table have the same library
    names, and each of these names is on the heavy-library list: a source
    path has the size "Unknown" exactly when its alternative is the generic
    "Consider lighter alternatives", and a path with a known size or a
    specific alternative is always classified as a heavy library. *)
Theorem size_and_alternative_tables_agree
        (self : AdvancedCodeAnalyzer.instance) (source : string) :
  (AdvancedCodeAnalyzer.getLibrarySize self source = "Unknown" <->
   AdvancedCodeAnalyzer.suggestAlternative self source
   = "Consider lighter alternatives") /\
  (AdvancedCodeAnalyzer.getLibrarySize self source <> "Unknown" ->
   AdvancedCodeAnalyzer.isHeavyLibrary self source = true) /\
  (AdvancedCodeAnalyzer.isHeavyLibrary self source = false ->
   AdvancedCodeAnalyzer.getLibrarySize self source = "Unknown" /\
   AdvancedCodeAnalyzer.suggestAlternative self source
   = "Consider lighter alternatives").
Proof.
  unfold AdvancedCodeAnalyzer.getLibrarySize,
    AdvancedCodeAnalyzer.suggestAlternative.
  pose proof (first_entry_none_iff AdvancedCodeAnalyzer.sizes source) as Hs.
  pose proof (first_entry_none_iff AdvancedCodeAnalyzer.alternatives source)
    as Ha.
  change (map fst AdvancedCodeAnalyzer.alternatives)
    with (map fst AdvancedCodeAnalyzer.sizes) in Ha.
  assert (Hsize :
            forall v, AdvancedCodeAnalyzer.first_entry
                        AdvancedCodeAnalyzer.sizes source = Some v ->
                      v <> "Unknown" /\
                      AdvancedCodeAnalyzer.isHeavyLibrary self source = true).
  { intros v Hv. destruct (first_entry_some _ _ _ Hv) as (lib & Hin & Hl).
    split.
    - simpl in Hin.
      destruct Hin as [E|[E|[E|[E|[E|[E|[]]]]]]]; injection E as _ <-;
        discriminate.
    - apply (isHeavyLibrary_intro self source lib); [|exact Hl].
      simpl in Hin. simpl.
      destruct Hin as [E|[E|[E|[E|[E|[E|[]]]]]]]; injection E as <- _;
        auto 10. }
  assert (Halt :
            forall v, AdvancedCodeAnalyzer.first_entry
                        AdvancedCodeAnalyzer.alternatives source = Some v ->
                      v <> "Consider lighter alternatives").
  { intros v Hv. destruct (first_entry_some _ _ _ Hv) as (lib & Hin & _).
    simpl in Hin.
    destruct Hin as [E|[E|[E|[E|[E|[E|[]]]]]]]; injection E as _ <-;
      discriminate. }
  destruct (AdvancedCodeAnalyzer.first_entry AdvancedCodeAnalyzer.sizes source)
    as [v|] eqn:Es;
    destruct (AdvancedCodeAnalyzer.first_entry
                AdvancedCodeAnalyzer.alternatives source) as [w|] eqn:Ea.
  - destruct (Hsize v eq_refl) as [Hv Hh]. specialize (Halt w eq_refl).
    split; [split; intros; contradiction|]. split; [auto|].
    intros Hf; congruence.
  - exfalso. assert (H : @None string = None) by reflexivity.
    apply Ha in H. apply Hs in H. discriminate.
  - exfalso. assert (H : @None string = None) by reflexivity.
    apply Hs in H. apply Ha in H. discriminate.
  - split; [split; reflexivity|]. split; [intros H; contradiction|].
    intros _; split; reflexivity.
Qed.

Lemma size_and_alternative_tables_agree_witness :
  AdvancedCodeAnalyzer.isHeavyLibrary AdvancedCodeAnalyzer.new
    "bootstrap/dist/css" = true /\
  AdvancedCodeAnalyzer.getLibrarySize AdvancedCodeAnalyzer.new "./local"
    = "Unknown".
Proof.
  destruct (size_and_alternative_tables_agree AdvancedCodeAnalyzer.new
              "bootstrap/dist/css") as (_ & H1 & _).
  destruct (size_and_alternative_tables_agree AdvancedCodeAnalyzer.new
              "./local") as (_ & _ & H2).
  split; [apply H1; discriminate|apply H2; reflexivity].
Defined.

(** ** More on the score model *)

(** X8.  A file without findings scores 100, and one more finding never
    raises the score: an additional bottleneck lowers it by at most 15, an
    additional memory leak by at most 12 and an additional heavy import by
    at most 5 (by less only where the score is clamped at 0). *)
Theorem score_monotone
        (fp ft : string) (re : option reactAnalysis) (bs ls : list finding)
        (ims : list importInfo) (hs : list heavyImport) (err : option string)
        (recs : list string) (sc : option Z)
        (b l : finding) (h : heavyImport) :
  let score bs ls hs :=
    ScoreModel.calculatePerformanceScore
      (mkResults fp ft (mkPerformance re (Some bs))
         (mkBundleImpact ims (Some hs) err) ls recs sc) in
  score [] [] [] = 100 /\
  score (b :: bs) ls hs <= score bs ls hs <= score (b :: bs) ls hs + 15 /\
  score bs (l :: ls) hs <= score bs ls hs <= score bs (l :: ls) hs + 12 /\
  score bs ls (h :: hs) <= score bs ls hs <= score bs ls (h :: hs) + 5.
Proof.
  cbv beta zeta. rewrite !score_closed_form.
  cbn [r_performance bottlenecks memoryLeaks r_bundleImpact heavyImports
         Js.or_else ScoreModel.total fold_right length].
  unfold Js.clamp_0_100.
  assert (Hb : 3 <= ScoreModel.bottleneck_penalty b <= 15)
    by (unfold ScoreModel.bottleneck_penalty;
        destruct (f_severity b =? "high")%string;
        [|destruct (f_severity b =? "medium")%string]; lia).
  assert (Hl : 2 <= ScoreModel.leak_penalty l <= 12)
    by (unfold ScoreModel.leak_penalty;
        destruct (f_severity l =? "high")%string;
        [|destruct (f_severity l =? "medium")%string]; lia).
  fold (ScoreModel.total ScoreModel.bottleneck_penalty bs).
  fold (ScoreModel.total ScoreModel.leak_penalty ls).
  repeat split; lia.
Qed.

(** ** The report of one file *)

Section ReportFacts.
Import UltimatePerformanceAnalyzer.
Variable babel_parse : string -> list string -> Js.outcome Babel.node.
Variables extname basename : string -> string.
Variable match_count : string -> string -> Z.
Variable formatSize : Z -> string.
Variable fs : filesystem.
Variable cfg : config.

Lemma overall_score_of_advanced (sz x : Z) (r : results)
      (trad : option traditional) :
  performanceScore r = Some x ->
  calculateOverallScore cfg sz (Some r) trad = x.
Proof. destruct r; simpl. now intros ->. Qed.

Lemma overall_score_fallback (sz : Z) (trad : option traditional) :
  45 <= calculateOverallScore cfg sz None trad <= 100 /\
  (trad = None -> calculateOverallScore cfg sz None trad
                  = if t_fileSize (c_thresholds cfg) <? sz then 90 else 100).
Proof.
  unfold calculateOverallScore, Js.clamp_0_100. split.
  - destruct (t_fileSize (c_thresholds cfg) <? sz), trad as [t|];
      try destruct (15 <? complexity t);
      try destruct (t_functions (c_thresholds cfg) <? functions t);
      try destruct (5 <? duplicatedCode t); lia.
  - intros ->. now destruct (t_fileSize (c_thresholds cfg) <? sz).
Qed.

(** The report of a file is the same whatever the analyzer has counted so
    far. *)
Lemma analyzeFile_report (filePath : string) :
  exists report : option analysis,
    forall st,
      analyzeFile babel_parse extname basename match_count formatSize fs cfg
        st filePath
      = Js.Ok (report,
               match report with
               | Some a => updateGlobalStats st a
               | None => st
               end).
Proof.
  unfold analyzeFile.
  destruct (shouldExclude _ _ _); [now exists None|].
  destruct (negb _); [now exists None|].
  destruct (_ || _); [now exists None|].
  match goal with
  | |- context [match ?r with Some _ => _ | None => _ end] =>
      destruct r as [[content adv]|]
  end; [|now exists None].
  eexists (Some _). intros st. reflexivity.
Qed.

Lemma suggestions_of_parts_typed (sz : Z) (adv : option results)
      (trad : option traditional) :
  Forall (fun s => s_type s <> "success")
    (match trad with
     | Some trad => traditional_suggestions formatSize cfg sz trad
     | None => []
     end ++
     match adv with
     | Some adv => advanced_suggestions adv
     | None => []
     end).
Proof.
  apply Forall_app. split.
  - destruct trad as [t|]; [|constructor].
    unfold traditional_suggestions, when.
    repeat (apply Forall_app; split);
      match goal with
      | |- Forall _ (if ?c then _ else _) =>
          destruct c; repeat constructor; discriminate
      end.
  - destruct adv as [r|]; [|constructor].
    unfold advanced_suggestions.
    repeat (apply Forall_app; split);
      try (apply Forall_forall; intros s Hs; apply in_map_iff in Hs;
           destruct Hs as (x & <- & _); discriminate).
    destruct (react (r_performance r)); [|constructor].
    apply Forall_app; split;
      apply Forall_forall; intros s Hs; apply in_map_iff in Hs;
      destruct Hs as (x & <- & _); discriminate.
Qed.
End ReportFacts.

(** X9.  Every report of [analyzeFile] has a score between 45 and 100.
    A report with an advanced analysis scores exactly 100, whatever the
    file contains; a report with neither analysis (a file that is no script)
    scores 90 when the file is larger than the size threshold and 100
    otherwise. *)
Theorem report_score_range
        (babel_parse : string -> list string -> Js.outcome Babel.node)
        (extname basename : string -> string)
        (match_count : string -> string -> Z) (formatSize : Z -> string)
        (fs : UltimatePerformanceAnalyzer.filesystem)
        (cfg : UltimatePerformanceAnalyzer.config)
        (st st' : UltimatePerformanceAnalyzer.state) (filePath : string)
        (a : UltimatePerformanceAnalyzer.analysis) :
  UltimatePerformanceAnalyzer.analyzeFile babel_parse extname basename
    match_count formatSize fs cfg st filePath = Js.Ok (Some a, st') ->
  45 <= UltimatePerformanceAnalyzer.a_performanceScore a <= 100 /\
  (UltimatePerformanceAnalyzer.advanced a <> None ->
   UltimatePerformanceAnalyzer.a_performanceScore a = 100) /\
  (UltimatePerformanceAnalyzer.advanced a = None ->
   UltimatePerformanceAnalyzer.traditionalAnalysis a = None ->
   UltimatePerformanceAnalyzer.a_performanceScore a =
   if UltimatePerformanceAnalyzer.t_fileSize
        (UltimatePerformanceAnalyzer.c_thresholds cfg)
      <? UltimatePerformanceAnalyzer.size a
   then 90 else 100).
Proof.
  unfold UltimatePerformanceAnalyzer.analyzeFile.
  destruct (UltimatePerformanceAnalyzer.shouldExclude _ _ _); [discriminate|].
  destruct (negb _); [discriminate|].
  destruct (_ || _); [discriminate|].
  match goal with
  | |- context [match ?r with Some _ => _ | None => _ end] =>
      destruct r as [[content adv]|] eqn:Eread
  end; [|discriminate].
  intros [= <- _].
  cbn [UltimatePerformanceAnalyzer.a_performanceScore
         UltimatePerformanceAnalyzer.advanced
         UltimatePerformanceAnalyzer.traditionalAnalysis
         UltimatePerformanceAnalyzer.size].
  destruct adv as [r|].
  - assert (Hr : performanceScore r = Some 100).
    { destruct (Js.array_includes _ _); [|discriminate].
      destruct (UltimatePerformanceAnalyzer.readFileSync fs filePath);
        [|discriminate].
      simpl in Eread.
      destruct (UltimatePerformanceAnalyzer.o_performance _); [|discriminate].
      injection Eread as _ <-. apply analyzeCode_score. }
    rewrite (overall_score_of_advanced cfg _ 100 r _ Hr).
    split; [lia|]. split; [reflexivity|]. intros H; discriminate.
  - destruct (overall_score_fallback cfg
                (UltimatePerformanceAnalyzer.stat_size fs filePath)
                (UltimatePerformanceAnalyzer.getTraditionalAnalysis
                   match_count content filePath)) as [Hb Hn].
    split; [exact Hb|]. split; [intros H; contradiction|].
    intros _ Ht. now apply Hn.
Qed.

Lemma report_score_range_witness :
  exists a st',
    UltimatePerformanceAnalyzer.analyzeFile Samples.sample_parse
      Samples.js_extname Samples.app_basename Samples.no_match
      Samples.bytes_formatSize (Samples.one_file Samples.dom_loop_code)
      UltimatePerformanceAnalyzer.defaultConfig
      UltimatePerformanceAnalyzer.initial "src/app.js" = Js.Ok (Some a, st') /\
    UltimatePerformanceAnalyzer.a_performanceScore a = 100.
Proof.
  assert (H : exists a st',
             UltimatePerformanceAnalyzer.analyzeFile Samples.sample_parse
               Samples.js_extname Samples.app_basename Samples.no_match
               Samples.bytes_formatSize
               (Samples.one_file Samples.dom_loop_code)
               UltimatePerformanceAnalyzer.defaultConfig
               UltimatePerformanceAnalyzer.initial "src/app.js"
             = Js.Ok (Some a, st'))
    by (eexists; eexists; vm_compute; reflexivity).
  destruct H as (a & st' & H). exists a, st'. split; [exact H|].
  destruct (report_score_range _ _ _ _ _ _ _ _ _ _ _ H) as (_ & H100 & _).
  apply H100. vm_compute in H. injection H as <- _. discriminate.
Defined.

(** X10.  The list of suggestions of a report is never empty: it is either
    the single entry of type "success" and severity "info", or a list of
    warnings, errors and infos that contains no "success" entry. *)
Theorem suggestions_never_empty
        (formatSize : Z -> string) (cfg : UltimatePerformanceAnalyzer.config)
        (sz : Z) (adv : option results)
        (trad : option UltimatePerformanceAnalyzer.traditional) :
  let l :=
    UltimatePerformanceAnalyzer.generateComprehensiveSuggestions formatSize
      cfg sz adv trad in
  l <> [] /\
  (l = [UltimatePerformanceAnalyzer.mkSuggestion "success" "quality" "info"
          "Code structure looks well optimized! 🎉"
          "No performance concerns detected" None None false]
   \/ Forall (fun s => UltimatePerformanceAnalyzer.s_type s <> "success") l).
Proof.
  cbv zeta.
  unfold UltimatePerformanceAnalyzer.generateComprehensiveSuggestions.
  pose proof (suggestions_of_parts_typed formatSize cfg sz adv trad) as H.
  destruct (_ ++ _)%list as [|s l]; [split; [discriminate|now left]|].
  split; [discriminate|now right].
Qed.

(** ** The run over the files of a pattern *)

Section RunFacts.
Import UltimatePerformanceAnalyzer Measures.
Variable babel_parse : string -> list string -> Js.outcome Babel.node.
Variables extname basename : string -> string.
Variable match_count : string -> string -> Z.
Variable formatSize : Z -> string.
Variable fs : filesystem.
Variable cfg : config.

Lemma count_suggestions_app (sev : string) (l l' : list analysis) :
  count_suggestions sev (l ++ l')
  = count_suggestions sev l + count_suggestions sev l'.
Proof.
  unfold count_suggestions. rewrite flat_map_app, length_app. lia.
Qed.

(** The counters after [updateGlobalStats]. *)
Lemma updateGlobalStats_counts (st : state) (a : analysis) :
  let st' := updateGlobalStats st a in
  st_results st' = st_results st /\
  totalScore st' = totalScore st + a_performanceScore a /\
  high (st_issueCount st') =
    high (st_issueCount st) + count_suggestions "high" [a] /\
  medium (st_issueCount st') =
    medium (st_issueCount st) + count_suggestions "medium" [a] /\
  low (st_issueCount st') =
    low (st_issueCount st) + count_suggestions "low" [a].
Proof.
  cbv zeta. unfold updateGlobalStats, count_suggestions.
  cbn [st_results totalScore st_issueCount flat_map].
  rewrite !app_nil_r. split; [reflexivity|]. split; [reflexivity|].
  generalize (st_issueCount st) as ic.
  induction (suggestions a) as [|s l IH]; intros ic.
  - simpl. lia.
  - cbn [fold_left filter].
    destruct (String.eqb_spec (s_severity s) "high") as [E|_].
    { rewrite E.
      change ("high" =? "medium")%string with false.
      change ("high" =? "low")%string with false.
      specialize (IH (mkIssueCount (high ic + 1) (medium ic) (low ic))).
      cbn [high medium low length] in *.
      rewrite Nat2Z.inj_succ. lia. }
    destruct (String.eqb_spec (s_severity s) "medium") as [E|_].
    { rewrite E.
      change ("medium" =? "low")%string with false.
      specialize (IH (mkIssueCount (high ic) (medium ic + 1) (low ic))).
      cbn [high medium low length] in *.
      rewrite Nat2Z.inj_succ. lia. }
    destruct (String.eqb_spec (s_severity s) "low") as [E|_].
    { specialize (IH (mkIssueCount (high ic) (medium ic) (low ic + 1))).
      cbn [high medium low length] in *.
      rewrite Nat2Z.inj_succ. lia. }
    apply IH.
Qed.
(** A report carries the path it was made for. *)
Lemma analyzeFile_fullPath (st st' : state) (filePath : string)
      (a : analysis) :
  analyzeFile babel_parse extname basename match_count formatSize fs cfg
    st filePath = Js.Ok (Some a, st') ->
  fullPath a = filePath /\ size a = stat_size fs filePath.
Proof.
  unfold analyzeFile.
  destruct (shouldExclude _ _ _); [discriminate|].
  destruct (negb _); [discriminate|].
  destruct (_ || _); [discriminate|].
  match goal with
  | |- context [match ?r with Some _ => _ | None => _ end] =>
      destruct r as [[content adv]|]
  end; [|discriminate].
  intros [= <- _]. now split.
Qed.

(** The loop of [analyzePattern]: what it appends and what it counts. *)
Lemma analyzePattern_loop_accounts (files : list string) :
  forall (st : state) (acc : list analysis),
  exists new st',
    analyzePattern_loop babel_parse extname basename match_count formatSize
      fs cfg st files acc = Js.Ok ((acc ++ new)%list, st') /\
    st_results st' = (st_results st ++ new)%list /\
    totalScore st' = totalScore st + scores new /\
    high (st_issueCount st') =
      high (st_issueCount st) + count_suggestions "high" new /\
    medium (st_issueCount st') =
      medium (st_issueCount st) + count_suggestions "medium" new /\
    low (st_issueCount st') =
      low (st_issueCount st) + count_suggestions "low" new /\
    map fullPath new
    = filter (reported_file babel_parse extname basename match_count
                formatSize fs cfg) files.
Proof.
  induction files as [|file files IH]; intros st acc.
  - exists [], st. rewrite !app_nil_r. unfold count_suggestions. simpl.
    repeat split; lia.
  - cbn [analyzePattern_loop filter]. unfold reported_file at 1.
    destruct (analyzeFile_report babel_parse extname basename match_count
                formatSize fs cfg file) as [report Hreport].
    rewrite (Hreport st), (Hreport initial). cbn [Js.bind].
    destruct report as [a|].
    + destruct (analyzeFile_fullPath _ _ _ _ (Hreport st)) as [Hpath _].
      destruct (updateGlobalStats_counts st a) as (R & T & H & M & L).
      cbv zeta in R, T, H, M, L.
      match goal with
      | |- context [analyzePattern_loop _ _ _ _ _ _ _ ?s files ?ac] =>
          destruct (IH s ac) as (new & st' & Hrun & HR & HT & HH & HM & HL & HP)
      end.
      cbn [st_results totalScore st_issueCount] in HR, HT, HH, HM, HL.
      exists (a :: new), st'.
      rewrite Hrun, <- app_assoc. split; [reflexivity|].
      rewrite HR, R, <- app_assoc. split; [reflexivity|].
      change (a :: new) with ([a] ++ new)%list.
      rewrite !count_suggestions_app, scores_app.
      cbn [scores fold_right map app]. rewrite HP, Hpath.
      repeat split; lia.
    + destruct (IH st acc) as (new & st' & Hrun & HR & HT & HH & HM & HL & HP).
      exists new, st'. repeat split; assumption.
Qed.
End RunFacts.

(** X11.  After [analyzePattern] has run on a new analyzer, the three issue
    counters are the numbers of suggestions of severity high, medium and low
    over all reports, and [totalScore] is the sum of their scores;
    suggestions of any other severity (the "info" of a clean file) are not
    counted. *)
Theorem issue_histogram
        (babel_parse : string -> list string -> Js.outcome Babel.node)
        (extname basename : string -> string)
        (match_count : string -> string -> Z) (formatSize : Z -> string)
        (fs : UltimatePerformanceAnalyzer.filesystem)
        (cfg : UltimatePerformanceAnalyzer.config) (files : list string) :
  exists res st',
    UltimatePerformanceAnalyzer.analyzePattern_loop babel_parse extname
      basename match_count formatSize fs cfg
      UltimatePerformanceAnalyzer.initial files [] = Js.Ok (res, st') /\
    UltimatePerformanceAnalyzer.st_results st' = res /\
    UltimatePerformanceAnalyzer.totalScore st'
      = UltimatePerformanceAnalyzer.scores res /\
    UltimatePerformanceAnalyzer.high
      (UltimatePerformanceAnalyzer.st_issueCount st')
      = Measures.count_suggestions "high" res /\
    UltimatePerformanceAnalyzer.medium
      (UltimatePerformanceAnalyzer.st_issueCount st')
      = Measures.count_suggestions "medium" res /\
    UltimatePerformanceAnalyzer.low
      (UltimatePerformanceAnalyzer.st_issueCount st')
      = Measures.count_suggestions "low" res.
Proof.
  destruct (analyzePattern_loop_accounts babel_parse extname basename
              match_count formatSize fs cfg files
              UltimatePerformanceAnalyzer.initial [])
    as (new & st' & Hrun & HR & HT & HH & HM & HL & _).
  exists new, st'. simpl in *. repeat split; try assumption; lia.
Qed.

(** X12.  [analyzePattern] returns one report for each file that
    [analyzeFile] accepts, in the order of the files (the paths of the
    reports are the accepted paths, in order), and the reports it returns
    are the reports the analyzer keeps for the summary. *)
Theorem pattern_run_reports
        (babel_parse : string -> list string -> Js.outcome Babel.node)
        (extname basename : string -> string)
        (match_count : string -> string -> Z) (formatSize : Z -> string)
        (fs : UltimatePerformanceAnalyzer.filesystem)
        (cfg : UltimatePerformanceAnalyzer.config)
        (glob_sync : string -> list string -> list string)
        (pattern : string) :
  exists res st',
    UltimatePerformanceAnalyzer.analyzePattern babel_parse extname basename
      match_count formatSize fs cfg glob_sync
      UltimatePerformanceAnalyzer.initial pattern = Js.Ok (res, st') /\
    UltimatePerformanceAnalyzer.st_results st' = res /\
    map UltimatePerformanceAnalyzer.fullPath res
    = filter (Measures.reported_file babel_parse extname basename match_count
                formatSize fs cfg)
        (glob_sync pattern
           (map (fun ex => "**/" ++ ex ++ "/**")
              (UltimatePerformanceAnalyzer.c_exclude cfg))) /\
    (length res <=
     length (glob_sync pattern
               (map (fun ex => "**/" ++ ex ++ "/**")
                  (UltimatePerformanceAnalyzer.c_exclude cfg))))%nat.
Proof.
  unfold UltimatePerformanceAnalyzer.analyzePattern.
  destruct (analyzePattern_loop_accounts babel_parse extname basename
              match_count formatSize fs cfg
              (glob_sync pattern
                 (map (fun ex => "**/" ++ ex ++ "/**")
                    (UltimatePerformanceAnalyzer.c_exclude cfg)))
              UltimatePerformanceAnalyzer.initial [])
    as (new & st' & Hrun & HR & _ & _ & _ & _ & HP).
  exists new, st'. simpl in Hrun, HR.
  split; [exact Hrun|]. split; [exact HR|]. split; [exact HP|].
  rewrite <- (length_map UltimatePerformanceAnalyzer.fullPath), HP.
  apply filter_length_le.
Qed.

(** X13.  The report of a file does not depend on the files analyzed
    before it: analyzing two files in either order gives the same two
    reports, the same [totalScore] and the same issue counters. *)
Theorem file_reports_independent
        (babel_parse : string -> list string -> Js.outcome Babel.node)
        (extname basename : string -> string)
        (match_count : string -> string -> Z) (formatSize : Z -> string)
        (fs : UltimatePerformanceAnalyzer.filesystem)
        (cfg : UltimatePerformanceAnalyzer.config)
        (st : UltimatePerformanceAnalyzer.state) (f g : string) :
  exists rf rg s1 s2 t1 t2,
    UltimatePerformanceAnalyzer.analyzeFile babel_parse extname basename
      match_count formatSize fs cfg st f = Js.Ok (rf, s1) /\
    UltimatePerformanceAnalyzer.analyzeFile babel_parse extname basename
      match_count formatSize fs cfg s1 g = Js.Ok (rg, s2) /\
    UltimatePerformanceAnalyzer.analyzeFile babel_parse extname basename
      match_count formatSize fs cfg st g = Js.Ok (rg, t1) /\
    UltimatePerformanceAnalyzer.analyzeFile babel_parse extname basename
      match_count formatSize fs cfg t1 f = Js.Ok (rf, t2) /\
    UltimatePerformanceAnalyzer.totalScore s2
      = UltimatePerformanceAnalyzer.totalScore t2 /\
    UltimatePerformanceAnalyzer.st_issueCount s2
      = UltimatePerformanceAnalyzer.st_issueCount t2.
Proof.
  destruct (analyzeFile_report babel_parse extname basename match_count
              formatSize fs cfg f) as [rf Hf].
  destruct (analyzeFile_report babel_parse extname basename match_count
              formatSize fs cfg g) as [rg Hg].
  do 6 eexists.
  split; [apply Hf|]. split; [apply Hg|]. split; [apply Hg|].
  split; [apply Hf|].
  assert (Heq : forall x y : UltimatePerformanceAnalyzer.issueCount,
             UltimatePerformanceAnalyzer.high x
               = UltimatePerformanceAnalyzer.high y ->
             UltimatePerformanceAnalyzer.medium x
               = UltimatePerformanceAnalyzer.medium y ->
             UltimatePerformanceAnalyzer.low x
               = UltimatePerformanceAnalyzer.low y -> x = y)
    by (intros [] []; simpl; congruence).
  destruct rf as [a|], rg as [b|]; try (split; reflexivity).
  pose proof (updateGlobalStats_counts st a) as Ha.
  pose proof (updateGlobalStats_counts
                (UltimatePerformanceAnalyzer.updateGlobalStats st a) b) as Hab.
  pose proof (updateGlobalStats_counts st b) as Hb.
  pose proof (updateGlobalStats_counts
                (UltimatePerformanceAnalyzer.updateGlobalStats st b) a) as Hba.
  cbv zeta in Ha, Hab, Hb, Hba.
  split; [lia|]. apply Heq; lia.
Qed.

(** X14.  [shouldExclude] holds of a path exactly when it contains one of
    the exclude patterns, or when the exclude list is not empty and the path
    contains "test" or "spec" or its base name starts with a dot.  With an
    empty exclude list nothing is excluded. *)
Theorem shouldExclude_iff
        (basename : string -> string)
        (cfg : UltimatePerformanceAnalyzer.config) (filePath : string) :
  UltimatePerformanceAnalyzer.shouldExclude basename cfg filePath = true <->
  (exists pattern,
      In pattern (UltimatePerformanceAnalyzer.c_exclude cfg) /\
      Js.includes filePath pattern = true) \/
  (UltimatePerformanceAnalyzer.c_exclude cfg <> [] /\
   (Js.startsWith (basename filePath) "." = true \/
    Js.includes filePath "test" = true \/
    Js.includes filePath "spec" = true)).
Proof.
  unfold UltimatePerformanceAnalyzer.shouldExclude.
  rewrite existsb_exists. split.
  - intros (pattern & Hin & H).
    apply orb_true_iff in H. destruct H as [H|H];
      [apply orb_true_iff in H; destruct H as [H|H]|].
    + apply orb_true_iff in H. destruct H as [H|H].
      * left. now exists pattern.
      * right. split; [intros E; now rewrite E in Hin|now left].
    + right. split; [intros E; now rewrite E in Hin|right; now left].
    + right. split; [intros E; now rewrite E in Hin|right; now right].
  - intros [(pattern & Hin & H) | [Hne H]].
    + exists pattern. split; [exact Hin|]. now rewrite H.
    + destruct (UltimatePerformanceAnalyzer.c_exclude cfg) as [|pattern l];
        [contradiction|].
      exists pattern. split; [now left|].
      destruct H as [H|[H|H]]; rewrite H;
        repeat rewrite orb_true_r; reflexivity.
Qed.

(** X15.  [analyzeFile] only reports on a file that is not excluded,
    exists, is at most 5000000 bytes long and has no binary extension, and
    the report carries the path and the size of the file; a script file that
    cannot be read gets no report and changes nothing. *)
Theorem report_guards
        (babel_parse : string -> list string -> Js.outcome Babel.node)
        (extname basename : string -> string)
        (match_count : string -> string -> Z) (formatSize : Z -> string)
        (fs : UltimatePerformanceAnalyzer.filesystem)
        (cfg : UltimatePerformanceAnalyzer.config)
        (st : UltimatePerformanceAnalyzer.state) (filePath : string) :
  (forall a st',
      UltimatePerformanceAnalyzer.analyzeFile babel_parse extname basename
        match_count formatSize fs cfg st filePath = Js.Ok (Some a, st') ->
      UltimatePerformanceAnalyzer.shouldExclude basename cfg filePath = false /\
      UltimatePerformanceAnalyzer.existsSync fs filePath = true /\
      UltimatePerformanceAnalyzer.stat_size fs filePath <= 5000000 /\
      UltimatePerformanceAnalyzer.isBinaryFile (extname filePath) = false /\
      UltimatePerformanceAnalyzer.fullPath a = filePath /\
      UltimatePerformanceAnalyzer.size a
        = UltimatePerformanceAnalyzer.stat_size fs filePath /\
      st' = UltimatePerformanceAnalyzer.updateGlobalStats st a) /\
  (forall e,
      Js.array_includes UltimatePerformanceAnalyzer.sourceExts
        (extname filePath) = true ->
      UltimatePerformanceAnalyzer.readFileSync fs filePath = Js.Throw e ->
      UltimatePerformanceAnalyzer.analyzeFile babel_parse extname basename
        match_count formatSize fs cfg st filePath = Js.Ok (None, st)).
Proof.
  split.
  - intros a st' H.
    destruct (analyzeFile_fullPath _ _ _ _ _ _ _ _ _ _ _ H) as [Hp Hs].
    revert H. unfold UltimatePerformanceAnalyzer.analyzeFile.
    destruct (UltimatePerformanceAnalyzer.shouldExclude _ _ _);
      [discriminate|].
    destruct (UltimatePerformanceAnalyzer.existsSync fs filePath);
      [|discriminate]. cbn [negb].
    destruct (5000000 <? _) eqn:Esize; [discriminate|].
    destruct (UltimatePerformanceAnalyzer.isBinaryFile _); [discriminate|].
    cbn [orb].
    match goal with
    | |- context [match ?r with Some _ => _ | None => _ end] =>
        destruct r as [[content adv]|]
    end; [|discriminate].
    intros [= <- <-]. apply Z.ltb_ge in Esize. repeat split; auto.
  - intros e Hext Hread.
    unfold UltimatePerformanceAnalyzer.analyzeFile.
    rewrite Hext, Hread.
    destruct (UltimatePerformanceAnalyzer.shouldExclude _ _ _);
      [reflexivity|].
    destruct (negb _); [reflexivity|].
    destruct (_ || _); reflexivity.
Qed.

Lemma report_guards_witness :
  UltimatePerformanceAnalyzer.analyzeFile Samples.sample_parse
    Samples.js_extname Samples.app_basename Samples.no_match
    Samples.bytes_formatSize
    (UltimatePerformanceAnalyzer.mkFilesystem (fun _ => true) (fun _ => 10)
       (fun _ => Js.Throw (Js.TypeError "EACCES")))
    UltimatePerformanceAnalyzer.defaultConfig
    Samples.two_reports "src/app.js" = Js.Ok (None, Samples.two_reports).
Proof.
  apply (proj2 (report_guards Samples.sample_parse Samples.js_extname
                  Samples.app_basename Samples.no_match
                  Samples.bytes_formatSize _
                  UltimatePerformanceAnalyzer.defaultConfig
                  Samples.two_reports "src/app.js")
           (Js.TypeError "EACCES")); reflexivity.
Defined.

(** ** The summary *)

Section SummaryFacts.
Import UltimatePerformanceAnalyzer.

Lemma scores_between (lo hi : Z) (l : list analysis) :
  Forall (fun a => lo <= a_performanceScore a <= hi) l ->
  Z.of_nat (length l) * lo <= scores l <= Z.of_nat (length l) * hi.
Proof.
  induction 1 as [|a l Ha _ IH]; [simpl; lia|].
  cbn [scores fold_right length]. fold (scores l).
  rewrite Nat2Z.inj_succ. nia.
Qed.

Lemma round_div_between (lo hi p n : Z) :
  0 < n -> n * lo <= p <= n * hi -> lo <= Js.round_div p n <= hi.
Proof.
  intros Hn Hp. unfold Js.round_div. split.
  - apply Z.div_le_lower_bound; nia.
  - apply Z.lt_succ_r. apply Z.div_lt_upper_bound; nia.
Qed.

Lemma summary_of_no_report (extname : string -> string)
      (formatSize : Z -> string) (st : state) :
  st_results st = [] ->
  let sm := generateUltimateSummary extname formatSize st in
  totalFiles sm = 0 /\ averageScore sm = 0 /\ grade sm = "F".
Proof.
  intros E. cbv zeta. unfold generateUltimateSummary. rewrite E.
  repeat split.
Qed.
End SummaryFacts.

(** X16.  When [totalScore] is the sum of the scores of the reports, the
    average score of the summary lies between the smallest and the largest
    score of a report; without a report the average is 0 and the grade
    is F. *)
Theorem average_between_extremes
        (extname : string -> string) (formatSize : Z -> string)
        (st : UltimatePerformanceAnalyzer.state) (lo hi : Z) :
  let sm :=
    UltimatePerformanceAnalyzer.generateUltimateSummary extname formatSize
      st in
  (UltimatePerformanceAnalyzer.st_results st = [] ->
   UltimatePerformanceAnalyzer.totalFiles sm = 0 /\
   UltimatePerformanceAnalyzer.averageScore sm = 0 /\
   UltimatePerformanceAnalyzer.grade sm = "F") /\
  (UltimatePerformanceAnalyzer.st_results st <> [] ->
   UltimatePerformanceAnalyzer.totalScore st
   = UltimatePerformanceAnalyzer.scores
       (UltimatePerformanceAnalyzer.st_results st) ->
   Forall (fun a => lo <= UltimatePerformanceAnalyzer.a_performanceScore a
                    <= hi)
     (UltimatePerformanceAnalyzer.st_results st) ->
   lo <= UltimatePerformanceAnalyzer.averageScore sm <= hi).
Proof.
  cbv zeta. split.
  - apply summary_of_no_report.
  - intros Hne Htotal Hall.
    destruct (summary_grade extname formatSize st) as [Havg _].
    cbv zeta in Havg. rewrite Havg.
    assert (Hn : 0 < Z.of_nat
                       (length (UltimatePerformanceAnalyzer.st_results st)))
      by (destruct (UltimatePerformanceAnalyzer.st_results st);
          [contradiction|simpl length; lia]).
    apply Z.ltb_lt in Hn as Hb. rewrite Hb, Htotal.
    apply round_div_between; [exact Hn|]. now apply scores_between.
Qed.

Lemma average_between_extremes_witness :
  75 <= UltimatePerformanceAnalyzer.averageScore
          (UltimatePerformanceAnalyzer.generateUltimateSummary
             Samples.js_extname Samples.bytes_formatSize Samples.two_reports)
     <= 80.
Proof.
  apply (proj2 (average_between_extremes Samples.js_extname
                  Samples.bytes_formatSize Samples.two_reports 75 80)).
  - discriminate.
  - reflexivity.
  - repeat constructor; simpl; lia.
Defined.

(** X17.  The top issues of the summary are the first five suggestions of
    severity high in the order of the reports: at most five entries, each
    of severity high and taken from a report, and all of them when there
    are no more than five. *)
Theorem summary_top_issues
        (extname : string -> string) (formatSize : Z -> string)
        (st : UltimatePerformanceAnalyzer.state) :
  let top :=
    UltimatePerformanceAnalyzer.topIssues
      (UltimatePerformanceAnalyzer.generateUltimateSummary extname formatSize
         st) in
  let all_high :=
    flat_map
      (fun a =>
         filter (fun s => (UltimatePerformanceAnalyzer.s_severity s =? "high")%string)
           (UltimatePerformanceAnalyzer.suggestions a))
      (UltimatePerformanceAnalyzer.st_results st) in
  (length top <= 5)%nat /\
  (exists rest, all_high = (top ++ rest)%list) /\
  ((length all_high <= 5)%nat -> top = all_high) /\
  Forall
    (fun s =>
       UltimatePerformanceAnalyzer.s_severity s = "high" /\
       exists a, In a (UltimatePerformanceAnalyzer.st_results st) /\
                 In s (UltimatePerformanceAnalyzer.suggestions a))
    top.
Proof.
  cbv zeta. unfold UltimatePerformanceAnalyzer.generateUltimateSummary.
  cbn [UltimatePerformanceAnalyzer.topIssues].
  set (all_high := flat_map _ _).
  split; [apply firstn_le_length|].
  split; [exists (skipn 5 all_high); symmetry; apply firstn_skipn|].
  split; [intros H; now apply firstn_all2|].
  apply Forall_forall. intros s Hs.
  assert (Hin : In s all_high)
    by (rewrite <- (firstn_skipn 5 all_high); apply in_or_app; now left).
  apply in_flat_map in Hin. destruct Hin as (a & Ha & Hf).
  apply filter_In in Hf. destruct Hf as [Hf Hsev].
  apply String.eqb_eq in Hsev. split; [exact Hsev|]. now exists a.
Qed.

(** ** The command-line action *)

Section ActionFacts.
Import UltimatePerformanceAnalyzer Cli.
Variable babel_parse : string -> list string -> Js.outcome Babel.node.
Variables extname basename : string -> string.
Variable match_count : string -> string -> Z.
Variable formatSize : Z -> string.
Variable fs : filesystem.
Variable glob_sync : string -> list string -> list string.
Variable path_join : string -> string -> string.
Variable cfg : config.

(** The analysis of a single file leaves the reports of the analyzer
    empty. *)
Lemma analyse_file (opts : options) (file : string) :
  given (opt_file opts) = Some file ->
  exists results st,
    analyse babel_parse extname basename match_count formatSize fs glob_sync
      path_join cfg opts = Js.Ok (results, st) /\
    st_results st = [] /\
    (results = [] \/
     exists a, results = [a] /\ st = updateGlobalStats initial a).
Proof.
  intros Hfile. unfold analyse. rewrite Hfile.
  destruct (analyzeFile_report babel_parse extname basename match_count
              formatSize fs cfg file) as [report Hreport].
  rewrite Hreport. cbn [Js.bind].
  destruct report as [a|]; do 2 eexists;
    (split; [reflexivity|split; [reflexivity|]]).
  - right. now exists a.
  - now left.
Qed.

(** The analysis of a pattern keeps the reports it returns. *)
Lemma analyse_pattern (opts : options) :
  given (opt_file opts) = None ->
  exists results st,
    analyse babel_parse extname basename match_count formatSize fs glob_sync
      path_join cfg opts = Js.Ok (results, st) /\
    st_results st = results /\ totalScore st = scores results.
Proof.
  intros Hfile. unfold analyse. rewrite Hfile. unfold analyzePattern.
  match goal with
  | |- context [analyzePattern_loop _ _ _ _ _ _ _ _ ?files _] =>
      destruct (analyzePattern_loop_accounts babel_parse extname basename
                  match_count formatSize fs cfg files initial [])
        as (new & st & Hrun & HR & HT & _)
  end.
  exists new, st. simpl in Hrun, HR, HT. repeat split; assumption.
Qed.
End ActionFacts.

(** X18.  When the action analyses a single file ([--file]), the report is
    not kept by the analyzer, so the summary counts no file: its average is
    0 and its grade is F whatever the file scores, and with [--ci] the
    process exits with code 1 exactly when the score threshold is
    positive. *)
Theorem file_mode_summary
        (babel_parse : string -> list string -> Js.outcome Babel.node)
        (extname basename : string -> string)
        (match_count : string -> string -> Z) (formatSize : Z -> string)
        (fs : UltimatePerformanceAnalyzer.filesystem)
        (glob_sync : string -> list string -> list string)
        (path_join : string -> string -> string)
        (cfg : UltimatePerformanceAnalyzer.config)
        (opts : Cli.options) (file : string) :
  Cli.opt_about opts = false -> Cli.opt_memory opts = false ->
  Cli.given (Cli.opt_file opts) = Some file ->
  let r :=
    Cli.action babel_parse extname basename match_count formatSize fs
      glob_sync path_join cfg opts in
  (Cli.run_results r = [] /\ Cli.run_summary r = None /\ Cli.exit_code r = 0)
  \/
  exists a sm,
    Cli.run_results r = [a] /\ Cli.run_summary r = Some sm /\
    UltimatePerformanceAnalyzer.totalFiles sm = 0 /\
    UltimatePerformanceAnalyzer.averageScore sm = 0 /\
    UltimatePerformanceAnalyzer.grade sm = "F" /\
    (Cli.exit_code r = 1 <->
     Cli.opt_ci opts = true /\
     0 < UltimatePerformanceAnalyzer.t_performanceScore
           (UltimatePerformanceAnalyzer.c_thresholds cfg)) /\
    (Cli.exit_code r = 0 \/ Cli.exit_code r = 1).
Proof.
  intros Habout Hmemory Hfile. cbv zeta. unfold Cli.action.
  rewrite Habout, Hmemory.
  destruct (analyse_file babel_parse extname basename match_count formatSize
              fs glob_sync path_join cfg opts file Hfile)
    as (results & st & -> & Hres & [-> | (a & -> & Hst)]).
  - left. repeat split.
  - right.
    destruct (summary_of_no_report extname formatSize st Hres)
      as (Hn & Havg & Hgrade). cbv zeta in Havg.
    rewrite Havg.
    destruct (Cli.opt_ci opts); cbn [andb].
    + destruct (0 <? _) eqn:E; exists a; eexists;
        (split; [reflexivity|split; [reflexivity|]]);
        (split; [exact Hn|split; [exact Havg|split; [exact Hgrade|]]]);
        cbn [Cli.exit_code].
      * apply Z.ltb_lt in E. split; [split; auto|now right].
      * apply Z.ltb_ge in E. split; [split; [discriminate|]|now left].
        intros [_ H]; lia.
    + exists a; eexists; (split; [reflexivity|split; [reflexivity|]]);
        (split; [exact Hn|split; [exact Havg|split; [exact Hgrade|]]]);
        cbn [Cli.exit_code].
      split; [split; [discriminate|]|now left]. intros [H _]; discriminate.
Qed.

Lemma file_mode_summary_witness :
  exists a sm,
    Cli.run_results
      (Cli.action Samples.sample_parse Samples.js_extname Samples.app_basename
         Samples.no_match Samples.bytes_formatSize
         (Samples.one_file Samples.listener_code) (Measures.files_found [])
         Measures.slash_join UltimatePerformanceAnalyzer.defaultConfig
         (Cli.mkOptions false false (Some "src/app.js") None None true))
    = [a] /\
    UltimatePerformanceAnalyzer.a_performanceScore a = 100 /\
    Cli.run_summary
      (Cli.action Samples.sample_parse Samples.js_extname Samples.app_basename
         Samples.no_match Samples.bytes_formatSize
         (Samples.one_file Samples.listener_code) (Measures.files_found [])
         Measures.slash_join UltimatePerformanceAnalyzer.defaultConfig
         (Cli.mkOptions false false (Some "src/app.js") None None true))
    = Some sm /\
    UltimatePerformanceAnalyzer.grade sm = "F".
Proof.
  destruct (file_mode_summary Samples.sample_parse Samples.js_extname
              Samples.app_basename Samples.no_match Samples.bytes_formatSize
              (Samples.one_file Samples.listener_code)
              (Measures.files_found []) Measures.slash_join
              UltimatePerformanceAnalyzer.defaultConfig
              (Cli.mkOptions false false (Some "src/app.js") None None true)
              "src/app.js" eq_refl eq_refl eq_refl)
    as [(H & _) | (a & sm & Hr & Hs & _ & _ & Hg & _)].
  - vm_compute in H. discriminate.
  - exists a, sm. split; [exact Hr|]. split.
    + vm_compute in Hr. injection Hr as <-. reflexivity.
    + split; [exact Hs|exact Hg].
Defined.

(** X19.  The action ends with exit code 1 only in CI mode, when a summary
    was computed and its average is below the score threshold; the analysis
    itself never fails.  A run that finds no file to report ends with code 0
    even in CI mode, and for a pattern the average that is compared is the
    rounded mean of the scores of the reports. *)
Theorem ci_exit_code
        (babel_parse : string -> list string -> Js.outcome Babel.node)
        (extname basename : string -> string)
        (match_count : string -> string -> Z) (formatSize : Z -> string)
        (fs : UltimatePerformanceAnalyzer.filesystem)
        (glob_sync : string -> list string -> list string)
        (path_join : string -> string -> string)
        (cfg : UltimatePerformanceAnalyzer.config) (opts : Cli.options) :
  let r :=
    Cli.action babel_parse extname basename match_count formatSize fs
      glob_sync path_join cfg opts in
  (Cli.exit_code r = 0 \/ Cli.exit_code r = 1) /\
  (Cli.exit_code r = 1 <->
   Cli.opt_ci opts = true /\
   exists sm,
     Cli.run_summary r = Some sm /\
     UltimatePerformanceAnalyzer.averageScore sm
     < UltimatePerformanceAnalyzer.t_performanceScore
         (UltimatePerformanceAnalyzer.c_thresholds cfg)) /\
  (Cli.run_results r = [] ->
   Cli.run_summary r = None /\ Cli.exit_code r = 0) /\
  (Cli.given (Cli.opt_file opts) = None ->
   forall sm,
     Cli.run_summary r = Some sm ->
     UltimatePerformanceAnalyzer.averageScore sm
     = Js.round_div (UltimatePerformanceAnalyzer.scores (Cli.run_results r))
         (Z.of_nat (length (Cli.run_results r)))).
Proof.
  cbv zeta. unfold Cli.action.
  assert (Hnone :
            let r := Cli.mkRun [] None 0 in
            (Cli.exit_code r = 0 \/ Cli.exit_code r = 1) /\
            (Cli.exit_code r = 1 <->
             Cli.opt_ci opts = true /\
             exists sm,
               Cli.run_summary r = Some sm /\
               UltimatePerformanceAnalyzer.averageScore sm
               < UltimatePerformanceAnalyzer.t_performanceScore
                   (UltimatePerformanceAnalyzer.c_thresholds cfg)) /\
            (Cli.run_results r = [] ->
             Cli.run_summary r = None /\ Cli.exit_code r = 0) /\
            (Cli.given (Cli.opt_file opts) = None ->
             forall sm,
               Cli.run_summary r = Some sm ->
               UltimatePerformanceAnalyzer.averageScore sm
               = Js.round_div
                   (UltimatePerformanceAnalyzer.scores (Cli.run_results r))
                   (Z.of_nat (length (Cli.run_results r))))).
  { cbv zeta. cbn [Cli.exit_code Cli.run_summary Cli.run_results].
    split; [now left|]. split.
    - split; [discriminate|]. intros (_ & sm & H & _). discriminate.
    - split; [now split|]. intros _ sm H. discriminate. }
  cbv zeta in Hnone.
  destruct (Cli.opt_about opts); [exact Hnone|].
  destruct (Cli.opt_memory opts); [exact Hnone|].
  assert (Hrun :
            exists results st,
              Cli.analyse babel_parse extname basename match_count formatSize
                fs glob_sync path_join cfg opts = Js.Ok (results, st) /\
              (Cli.given (Cli.opt_file opts) = None ->
               UltimatePerformanceAnalyzer.st_results st = results /\
               UltimatePerformanceAnalyzer.totalScore st
               = UltimatePerformanceAnalyzer.scores results)).
  { destruct (Cli.given (Cli.opt_file opts)) as [file|] eqn:Efile.
    - destruct (analyse_file babel_parse extname basename match_count
                  formatSize fs glob_sync path_join cfg opts file Efile)
        as (results & st & H & _).
      exists results, st. split; [exact H|]. discriminate.
    - destruct (analyse_pattern babel_parse extname basename match_count
                  formatSize fs glob_sync path_join cfg opts Efile)
        as (results & st & H & HR & HT).
      exists results, st. split; [exact H|]. now intros _. }
  destruct Hrun as (results & st & -> & Hpattern).
  destruct results as [|a results]; [exact Hnone|].
  set (sm := UltimatePerformanceAnalyzer.generateUltimateSummary _ _ st).
  assert (Havg :
            Cli.given (Cli.opt_file opts) = None ->
            UltimatePerformanceAnalyzer.averageScore sm
            = Js.round_div
                (UltimatePerformanceAnalyzer.scores (a :: results))
                (Z.of_nat (length (a :: results)))).
  { intros Hf. destruct (Hpattern Hf) as [HR HT].
    destruct (summary_grade extname formatSize st) as [H _].
    cbv zeta in H. fold sm in H. rewrite H, HR, HT.
    assert ((0 <? Z.of_nat (length (a :: results))) = true) as ->
      by (apply Z.ltb_lt; simpl length; lia).
    reflexivity. }
  destruct (Cli.opt_ci opts); cbn [andb].
  - destruct (_ <? _) eqn:E;
      cbn [Cli.exit_code Cli.run_summary Cli.run_results].
    + apply Z.ltb_lt in E. split; [now right|]. split.
      * split; [|reflexivity]. intros _. split; [reflexivity|].
        exists sm. now split.
      * split; [discriminate|]. intros Hf sm' [= <-]. now apply Havg.
    + apply Z.ltb_ge in E. split; [now left|]. split.
      * split; [discriminate|]. intros (_ & sm' & [= <-] & H). lia.
      * split; [discriminate|]. intros Hf sm' [= <-]. now apply Havg.
  - cbn [Cli.exit_code Cli.run_summary Cli.run_results].
    split; [now left|]. split.
    + split; [discriminate|]. intros [H _]; discriminate.
    + split; [discriminate|]. intros Hf sm' [= <-]. now apply Havg.
Qed.

Lemma ci_exit_code_witness :
  Cli.exit_code
    (Cli.action Samples.sample_parse Samples.js_extname Samples.app_basename
       Samples.no_match Samples.bytes_formatSize
       (Samples.one_file Samples.listener_code)
       (Measures.files_found ["src/test/app.js"])
       Measures.slash_join UltimatePerformanceAnalyzer.defaultConfig
       (Cli.mkOptions false false None (Some "src") None true)) = 0.
Proof.
  apply (proj2 (proj1 (proj2 (proj2
           (ci_exit_code Samples.sample_parse Samples.js_extname
              Samples.app_basename Samples.no_match Samples.bytes_formatSize
              (Samples.one_file Samples.listener_code)
              (Measures.files_found ["src/test/app.js"])
              Measures.slash_join UltimatePerformanceAnalyzer.defaultConfig
              (Cli.mkOptions false false None (Some "src") None true))))
           eq_refl)).
Defined.

(** X20.  [log] prints a message of level "debug" exactly when the
    configured log level is "debug".  A message of level "info" or "quiet"
    is printed under every configured level that is not the name of an
    inherited object member, also under "quiet": [levels.quiet] is 0, which
    [||] replaces by 1.  A call never removes or reorders what was
    printed. *)
Theorem log_levels (cfg : UltimatePerformanceAnalyzer.config)
        (console : list string) (level message : string) :
  (Cli.log cfg console "debug" message = (console ++ [message])%list <->
   UltimatePerformanceAnalyzer.c_logLevel cfg = "debug") /\
  (In level ["quiet"; "info"] ->
   Js.array_includes Cli.object_prototype_names
     (UltimatePerformanceAnalyzer.c_logLevel cfg) = false ->
   Cli.log cfg console level message = (console ++ [message])%list) /\
  (Cli.log cfg console level message = console \/
   Cli.log cfg console level message = (console ++ [message])%list).
Proof.
  assert (Hneq : (console ++ [message])%list <> console).
  { intros H. apply (f_equal (@length string)) in H.
    rewrite length_app in H. simpl in H. lia. }
  unfold Cli.log. split; [|split].
  - change (Cli.level_or_1 "debug") with (Some 2).
    unfold Cli.level_or_1, Cli.levels. cbn [Cli.own_property].
    destruct (String.eqb_spec "quiet"
                (UltimatePerformanceAnalyzer.c_logLevel cfg)) as [<-|N1].
    { cbn. split; [intros H; symmetry in H; contradiction|discriminate]. }
    destruct (String.eqb_spec "info"
                (UltimatePerformanceAnalyzer.c_logLevel cfg)) as [<-|N2].
    { cbn. split; [intros H; symmetry in H; contradiction|discriminate]. }
    destruct (String.eqb_spec "debug"
                (UltimatePerformanceAnalyzer.c_logLevel cfg)) as [<-|N3].
    { cbn. split; reflexivity. }
    destruct (Js.array_includes _ _); cbn;
      (split; [intros H; symmetry in H; contradiction|]);
      intros H; now contradiction N3.
  - intros Hlevel Hproto.
    assert (Hm : Cli.level_or_1 level = Some 1)
      by (destruct Hlevel as [<-|[<-|[]]]; reflexivity).
    rewrite Hm. unfold Cli.level_or_1, Cli.levels. cbn [Cli.own_property].
    rewrite Hproto.
    destruct ("quiet" =? _)%string; [reflexivity|].
    destruct ("info" =? _)%string; [reflexivity|].
    destruct ("debug" =? _)%string; reflexivity.
  - destruct (Cli.level_le _ _); [now right|now left].
Qed.

Lemma log_levels_witness :
  Cli.log
    (UltimatePerformanceAnalyzer.mkConfig []
       (UltimatePerformanceAnalyzer.mkThresholds 0 0 0 0 0 0)
       (UltimatePerformanceAnalyzer.mkAnalysisOptions true true true true true
          true true)
       "console" "quiet" false)
    ["start"] "info" "Found 3 files" = ["start"; "Found 3 files"].
Proof.
  apply (proj1 (proj2 (log_levels _ ["start"] "info" "Found 3 files"))).
  - simpl; auto.
  - reflexivity.
Defined.

(** ** The traditional metrics *)

Section TextFacts.
Import UltimatePerformanceAnalyzer Measures.

Lemma split_lines_nonempty (s : string) : split_lines s <> [].
Proof.
  destruct s as [|c s]; simpl; [discriminate|].
  destruct (Ascii.eqb c "010"); [discriminate|].
  destruct (split_lines s); discriminate.
Qed.

Lemma split_lines_length (s : string) :
  length (split_lines s) = S (line_feeds s).
Proof.
  induction s as [|c s IH]; simpl; [reflexivity|].
  destruct (Ascii.eqb c "010"); simpl; [now rewrite IH|].
  destruct (split_lines s); simpl in *; lia.
Qed.

(** Joining the lines with line feeds gives the text back. *)
Lemma split_lines_join (s : string) :
  String.concat (String "010" EmptyString) (split_lines s) = s.
Proof.
  induction s as [|c s IH]; [reflexivity|].
  pose proof (split_lines_nonempty s) as Hne.
  cbn [split_lines].
  destruct (split_lines s) as [|l ls]; [contradiction|].
  destruct (Ascii.eqb_spec c "010") as [->|_].
  - change (String "010" (String.concat (String "010" EmptyString) (l :: ls))
            = String "010" s).
    now rewrite IH.
  - destruct ls as [|l' ls].
    + change (l = s) in IH. now rewrite IH.
    + change (String c (String.concat (String "010" EmptyString)
                          (l :: l' :: ls)) = String c s).
      now rewrite IH.
Qed.

Lemma line_feeds_le (s : string) : (line_feeds s <= String.length s)%nat.
Proof.
  induction s as [|c s IH]; simpl; [lia|].
  destruct (Ascii.eqb c "010"); lia.
Qed.

Lemma filter_filter {A} (f g : A -> bool) (l : list A) :
  filter f (filter g l) = filter (fun x => g x && f x) l.
Proof.
  induction l as [|x l IH]; simpl; [reflexivity|].
  destruct (g x); simpl; [destruct (f x)|]; now rewrite ?IH.
Qed.

Lemma filter_all {A} (f : A -> bool) (l : list A) :
  (forall x, In x l -> f x = true) -> filter f l = l.
Proof.
  induction l as [|x l IH]; intros H; simpl; [reflexivity|].
  rewrite (H x) by now left. f_equal. apply IH. intros y Hy. apply H.
  now right.
Qed.

Lemma in_filter_differs (x y : string) (l : list string) :
  y <> x -> (In y (filter (differs x) l) <-> In y l).
Proof.
  intros Hne. rewrite filter_In. unfold differs. split; [tauto|].
  intros H. split; [exact H|]. apply negb_true_iff. now apply String.eqb_neq.
Qed.

(** Removing the occurrences of one member leaves one distinct member
    less. *)
Lemma nodup_remove_member (x : string) (l : list string) :
  In x l ->
  length (nodup string_dec l)
  = S (length (nodup string_dec (filter (differs x) l))).
Proof.
  induction l as [|y l IH]; intros Hin; [contradiction|].
  cbn [nodup filter]. unfold differs at 1.
  destruct (String.eqb_spec y x) as [->|Hne]; cbn [negb].
  - destruct (in_dec string_dec x l) as [Hx|Hx]; [now apply IH|].
    rewrite filter_all; [reflexivity|].
    intros z Hz. unfold differs. apply negb_true_iff, String.eqb_neq.
    intros ->. contradiction.
  - destruct Hin as [->|Hin]; [contradiction|]. cbn [nodup].
    destruct (in_dec string_dec y l) as [Hy|Hy];
      destruct (in_dec string_dec y (filter (differs x) l)) as [Hy'|Hy'].
    + now apply IH.
    + exfalso. apply Hy'. now apply in_filter_differs.
    + exfalso. apply Hy. now apply (in_filter_differs x y l).
    + cbn [length]. now rewrite IH.
Qed.

Lemma nodup_cons_length (x : string) (l : list string) :
  length (nodup string_dec (x :: l))
  = S (length (nodup string_dec (filter (differs x) l))).
Proof.
  cbn [nodup]. destruct (in_dec string_dec x l) as [Hx|Hx].
  - now apply nodup_remove_member.
  - rewrite filter_all; [reflexivity|].
    intros z Hz. unfold differs. apply negb_true_iff, String.eqb_neq.
    intros ->. contradiction.
Qed.

(** The loop of [detectDuplicatedCode] counts the lines whose normalized
    form was seen before. *)
Lemma duplicated_loop_count (lines : list string) :
  forall (seen : list string) (d : Z),
    duplicated_loop lines seen d
    = d + Z.of_nat (length lines)
      - Z.of_nat
          (length
             (nodup string_dec
                (filter (fun x => negb (Js.array_includes seen x))
                   (map normalized lines)))).
Proof.
  induction lines as [|line lines IH]; intros seen d.
  - simpl. lia.
  - cbn [duplicated_loop map filter]. fold (normalized line).
    destruct (Js.array_includes seen (normalized line)) eqn:E; cbn [negb].
    + rewrite IH. cbn [length]. lia.
    + rewrite IH, nodup_cons_length, filter_filter. cbn [length].
      assert (Hf : filter
                     (fun x => negb (Js.array_includes
                                       (normalized line :: seen) x))
                     (map normalized lines)
                   = filter
                       (fun x => negb (Js.array_includes seen x)
                                 && differs (normalized line) x)
                       (map normalized lines)).
      { apply filter_ext. intros x. unfold Js.array_includes, differs.
        cbn [existsb]. rewrite negb_orb. apply andb_comm. }
      rewrite Hf. lia.
Qed.
End TextFacts.

(** X21.  [getTraditionalAnalysis] returns no metrics for the empty text
    and metrics for every other text: the line count is the number of line
    feeds plus one (a final line feed counts one more, empty, line), the
    character count is the length of the text, and the lines the count is
    taken over, joined by line feeds, are the text. *)
Theorem traditional_line_count
        (match_count : string -> string -> Z) (content filePath : string) :
  UltimatePerformanceAnalyzer.getTraditionalAnalysis match_count "" filePath
    = None /\
  (content <> "" ->
   exists t,
     UltimatePerformanceAnalyzer.getTraditionalAnalysis match_count content
       filePath = Some t /\
     UltimatePerformanceAnalyzer.lines t
       = Z.of_nat (Measures.line_feeds content) + 1 /\
     UltimatePerformanceAnalyzer.chars t = Z.of_nat (String.length content) /\
     1 <= UltimatePerformanceAnalyzer.lines t
       <= UltimatePerformanceAnalyzer.chars t + 1 /\
     String.concat (String "010" EmptyString)
       (UltimatePerformanceAnalyzer.split_lines content) = content).
Proof.
  split; [reflexivity|]. intros Hne.
  unfold UltimatePerformanceAnalyzer.getTraditionalAnalysis.
  destruct (String.eqb_spec content "") as [E|_]; [contradiction|].
  eexists. split; [reflexivity|].
  cbn [UltimatePerformanceAnalyzer.lines UltimatePerformanceAnalyzer.chars].
  rewrite split_lines_length. unfold UltimatePerformanceAnalyzer.str_length.
  pose proof (line_feeds_le content).
  split; [lia|]. split; [reflexivity|]. split; [lia|].
  apply split_lines_join.
Qed.

Lemma traditional_line_count_witness :
  exists t,
    UltimatePerformanceAnalyzer.getTraditionalAnalysis Samples.no_match
      Samples.triple_loop_code "loops.js" = Some t /\
    UltimatePerformanceAnalyzer.lines t = 3.
Proof.
  destruct (proj2 (traditional_line_count Samples.no_match
                     Samples.triple_loop_code "loops.js"))
    as (t & Ht & Hl & _).
  - discriminate.
  - exists t. split; [exact Ht|]. rewrite Hl. reflexivity.
Defined.

(** X22.  [detectDuplicatedCode] counts, among the lines that are longer
    than 10 characters after trimming, those whose form with trimmed ends
    and collapsed white space occurred on an earlier such line: the count
    is the number of these lines minus the number of their distinct
    normalized forms.  It is never negative, and smaller than the number of
    lines compared. *)
Theorem duplicated_lines_count (content : string) :
  let compared := Measures.long_lines content in
  let distinct :=
    nodup string_dec (map Measures.normalized compared) in
  UltimatePerformanceAnalyzer.detectDuplicatedCode content
  = Z.of_nat (length compared) - Z.of_nat (length distinct) /\
  0 <= UltimatePerformanceAnalyzer.detectDuplicatedCode content /\
  (compared = [] ->
   UltimatePerformanceAnalyzer.detectDuplicatedCode content = 0) /\
  (compared <> [] ->
   UltimatePerformanceAnalyzer.detectDuplicatedCode content
   < Z.of_nat (length compared)).
Proof.
  cbv zeta. unfold UltimatePerformanceAnalyzer.detectDuplicatedCode.
  fold (Measures.long_lines content).
  rewrite duplicated_loop_count.
  rewrite (filter_all (fun x => negb (Js.array_includes [] x)))
    by reflexivity.
  set (l := map Measures.normalized (Measures.long_lines content)).
  assert (Hle : (length (nodup string_dec l)
                 <= length (Measures.long_lines content))%nat).
  { replace (length (Measures.long_lines content)) with (length l)
      by (subst l; apply length_map).
    apply NoDup_incl_length; [apply NoDup_nodup|].
    intros x Hx. now apply nodup_In in Hx. }
  split; [lia|]. split; [lia|]. split.
  - intros E. subst l. rewrite E. reflexivity.
  - intros Hne.
    assert (Hpos : (1 <= length (nodup string_dec l))%nat).
    { subst l. destruct (Measures.long_lines content) as [|x xs];
        [contradiction|].
      assert (Hin : In (Measures.normalized x)
                      (nodup string_dec
                         (map Measures.normalized (x :: xs))))
        by (apply nodup_In; now left).
      destruct (nodup string_dec (map Measures.normalized (x :: xs)));
        [contradiction|simpl; lia]. }
    lia.
Qed.

Lemma duplicated_lines_count_witness :
  UltimatePerformanceAnalyzer.detectDuplicatedCode Measures.spaced_lines = 2 /\
  UltimatePerformanceAnalyzer.detectDuplicatedCode Measures.spaced_lines
  < Z.of_nat (length (Measures.long_lines Measures.spaced_lines)).
Proof.
  destruct (duplicated_lines_count Measures.spaced_lines)
    as (Hcount & _ & _ & Hlt).
  split; [rewrite Hcount; reflexivity|].
  apply Hlt. vm_compute. discriminate.
Defined.

(** ** The DOM-in-loop callback and the import callback *)

Section MoreCallbacks.
Import Babel AdvancedCodeAnalyzer.

Lemma array_includes_In (l : list string) (x : string) :
  Js.array_includes l x = true <-> In x l.
Proof.
  unfold Js.array_includes. rewrite existsb_exists. split.
  - intros (y & Hy & E). apply String.eqb_eq in E. now subst.
  - intros H. exists x. split; [exact H|apply String.eqb_refl].
Qed.

Lemma dom_in_loop_callback_bound (self : instance) (p : path)
      (bs : list finding) :
  dom_in_loop_callback (Some self) p bs =
  if isDOMManipulation self p && isInLoop self p
  then Js.Ok (bs ++ [mkFinding "dom-in-loop" "high" (line (p_node p))
                       "DOM manipulation inside loop"
                       "Batch DOM updates outside the loop"])%list
  else Js.Ok bs.
Proof.
  unfold dom_in_loop_callback, method; simpl.
  destruct (isDOMManipulation self p); simpl; [|reflexivity].
  now destruct (isInLoop self p).
Qed.

(** With [this] undefined, the traversal of [analyzeBundleImpact] completes
    exactly when it meets no import declaration. *)
Lemma bundle_traversal_completes (ps : list path)
      (st : list importInfo * list heavyImport) :
  visit_all bundle_visitor None ps st = Js.Ok st <->
  Forall (fun q => forall specifiers source,
              p_node q <> ImportDeclaration specifiers source) ps.
Proof.
  induction ps as [|q ps IH].
  - split; [constructor|reflexivity].
  - assert (Hskip :
              (forall specifiers source,
                  p_node q <> ImportDeclaration specifiers source) ->
              visit_all bundle_visitor None (q :: ps) st
              = visit_all bundle_visitor None ps st).
    { intros Hq. destruct q as [n par sc], st as [imports heavy].
      cbn [p_node] in Hq.
      destruct n; try reflexivity.
      - now contradiction (Hq specifiers source).
      - simpl. now destruct (type =? "ImportDeclaration")%string. }
    split.
    + intros H. constructor.
      * intros sp src Hq. destruct q as [n par sc], st as [imports heavy].
        cbn [p_node] in Hq. subst n. discriminate H.
      * apply IH. rewrite <- Hskip; [exact H|].
        intros sp src Hq. destruct q as [n par sc], st as [imports heavy].
        cbn [p_node] in Hq. subst n. discriminate H.
    + intros H. inversion H as [|? ? Hq Hps]; subst.
      rewrite (Hskip Hq). now apply IH.
Qed.
End MoreCallbacks.

(** X23.  The DOM-in-loop callback, given the analyzer as receiver, adds a
    finding exactly for a call of a DOM method whose PARENT node is a [for],
    [while] or [do-while] statement (the call is the test, the update or the
    unbraced body expression of the loop); for a call deeper inside the
    loop, or outside a loop, it adds nothing. *)
Theorem dom_in_loop_rule (self : AdvancedCodeAnalyzer.instance)
        (p : Babel.path) (bs : list finding) :
  (AdvancedCodeAnalyzer.isDOMManipulation self p = true ->
   In (Babel.node_type (Babel.p_parent p))
      ["ForStatement"; "WhileStatement"; "DoWhileStatement"] ->
   AdvancedCodeAnalyzer.dom_in_loop_callback (Some self) p bs =
   Js.Ok (bs ++ [mkFinding "dom-in-loop" "high"
                   (Babel.line (Babel.p_node p))
                   "DOM manipulation inside loop"
                   "Batch DOM updates outside the loop"])%list) /\
  (AdvancedCodeAnalyzer.isDOMManipulation self p = false \/
   ~ In (Babel.node_type (Babel.p_parent p))
        ["ForStatement"; "WhileStatement"; "DoWhileStatement"] ->
   AdvancedCodeAnalyzer.dom_in_loop_callback (Some self) p bs = Js.Ok bs).
Proof.
  rewrite dom_in_loop_callback_bound, isInLoop_parent_only.
  split.
  - intros -> Hin.
    apply (array_includes_In AdvancedCodeAnalyzer.loopTypes) in Hin.
    now rewrite Hin.
  - intros [-> | Hn]; [reflexivity|].
    destruct (Js.array_includes AdvancedCodeAnalyzer.loopTypes _) eqn:E.
    + apply array_includes_In in E. contradiction.
    + now rewrite andb_false_r.
Qed.

Lemma dom_in_loop_rule_witness :
  AdvancedCodeAnalyzer.dom_in_loop_callback (Some AdvancedCodeAnalyzer.new)
    (Babel.mkPath Samples.dom_call
       (Babel.WhileStatement Samples.dom_call Samples.empty_statement)
       (Babel.WhileStatement Samples.dom_call Samples.empty_statement))
    [] =
  Js.Ok [mkFinding "dom-in-loop" "high" (Some 1%nat)
           "DOM manipulation inside loop"
           "Batch DOM updates outside the loop"].
Proof.
  apply (proj1 (dom_in_loop_rule AdvancedCodeAnalyzer.new
                  (Babel.mkPath Samples.dom_call
                     (Babel.WhileStatement Samples.dom_call
                        Samples.empty_statement)
                     (Babel.WhileStatement Samples.dom_call
                        Samples.empty_statement)) [])).
  - reflexivity.
  - simpl; auto.
Defined.

(** X24.  [analyzeBundleImpact] returns without an error exactly when the
    text parses and its tree has no import declaration, and then its import
    list is empty as well: for a text with an import the callback fails on
    [this], and the [catch] returns empty lists and the error message. *)
Theorem bundle_analysis_error
        (babel_parse : string -> list string -> Js.outcome Babel.node)
        (code filePath : string) :
  let r := AdvancedCodeAnalyzer.analyzeBundleImpact babel_parse code filePath in
  imports r = [] /\ heavyImports r = Some [] /\
  (bi_error r = None <->
   exists ast,
     babel_parse code ["typescript"; "jsx"] = Js.Ok ast /\
     forall q specifiers source,
       In q (Babel.below ast ast ast) ->
       Babel.p_node q <> Babel.ImportDeclaration specifiers source).
Proof.
  cbv zeta.
  destruct (analyzeBundleImpact_no_heavy babel_parse code filePath)
    as [Hh Hi].
  split; [exact Hi|]. split; [exact Hh|].
  unfold AdvancedCodeAnalyzer.analyzeBundleImpact, Babel.traverse.
  destruct (babel_parse code _) as [ast|e]; simpl.
  - pose proof (bundle_traversal_completes (Babel.below ast ast ast) ([], []))
      as Hiff.
    destruct (visit_all_unbound AdvancedCodeAnalyzer.bundle_visitor
                (Babel.below ast ast ast) ([], [])
                bundle_visitor_needs_receiver) as [H | [e H]];
      rewrite H; simpl.
    + split; [|reflexivity]. intros _. exists ast. split; [reflexivity|].
      intros q sp src Hq.
      apply (proj1 (Forall_forall _ _) (proj1 Hiff H) q Hq).
    + split; [discriminate|]. intros (ast' & [= <-] & Hno). exfalso.
      assert (Hok : Babel.visit_all AdvancedCodeAnalyzer.bundle_visitor None
                      (Babel.below ast ast ast) ([], []) = Js.Ok ([], [])).
      { apply Hiff. apply Forall_forall. intros q Hq sp src.
        now apply Hno. }
      rewrite H in Hok. discriminate.
  - split; [discriminate|]. intros (ast & H & _). discriminate.
Qed.


(** ** The array-chain callback *)

Section ArrayChain.
Import Babel AdvancedCodeAnalyzer Measures.

Lemma getChainLength_method_chain (calls : list (string * list node)) :
  forall base,
    is_call base = true ->
    getChainLength_loop 0 (method_chain base calls)
    = Z.of_nat (length calls) + getChainLength_loop 0 base.
Proof.
  induction calls as [|[m args] rest IH]; intros base Hb.
  - simpl. lia.
  - cbn [method_chain length]. rewrite IH by reflexivity.
    rewrite getChainLength_loop_step, Hb, getChainLength_loop_acc. lia.
Qed.

Lemma isArrayMethodChain_named (self : instance) (p : path)
      (l : option nat) (object : node) (m : string) (computed : bool)
      (args : list node) :
  p_node p
  = CallExpression l (MemberExpression object (Identifier m) computed) args ->
  isArrayMethodChain self p = Js.array_includes chainMethods m.
Proof. intros Hp. unfold isArrayMethodChain. now rewrite Hp. Qed.

Lemma isArrayMethodChain_other (self : instance) (p : path) :
  (forall l object m computed args,
      p_node p
      = CallExpression l (MemberExpression object (Identifier m) computed) args ->
      ~ In m chainMethods) ->
  isArrayMethodChain self p = false.
Proof.
  intros H. unfold isArrayMethodChain.
  destruct (p_node p) as [| | | | | | | | | | | | | |l c args| | | |] eqn:Ep;
    try reflexivity.
  destruct c as [| | | | | | | | | | | | | | |o pr cm| | |]; try reflexivity.
  destruct pr as [| | | | | | | | | | | | | | | |x| |]; try reflexivity.
  cbn [callee property_name name name_in].
  destruct (Js.array_includes chainMethods x) eqn:E; [|reflexivity].
  apply array_includes_In in E.
  now contradiction (H l o x cm args eq_refl).
Qed.
End ArrayChain.

(** C4, amended.  The array-chain callback, given the analyzer as receiver,
    looks at calls whose callee is a member access to one of the array
    methods map, filter, reduce, forEach, find, some and every.  The chain
    length n of such a call is measured by [getChainLength], which counts
    the call and goes on with the object of its callee while that object is
    itself a call (so a chain of n method calls on a base that is no call
    has length n).  When n exceeds 3 the callback adds one array-chain
    finding at medium severity whose message is
    "Long array method chain (n methods)"; when n is at most 3, and for
    every other call, it adds nothing. *)
Theorem array_chain_rule (self : AdvancedCodeAnalyzer.instance)
        (p : Babel.path) (bs : list finding) :
  (forall l object m computed args,
      Babel.p_node p
      = Babel.CallExpression l
          (Babel.MemberExpression object (Babel.Identifier m) computed) args ->
      In m ["map"; "filter"; "reduce"; "forEach"; "find"; "some"; "every"] ->
      (3 < AdvancedCodeAnalyzer.getChainLength self p ->
       AdvancedCodeAnalyzer.array_chain_callback (Some self) p bs =
       Js.Ok
         (bs ++ [mkFinding "array-chain" "medium" l
                   ("Long array method chain (" ++
                    Js.number_to_string
                      (AdvancedCodeAnalyzer.getChainLength self p)
                    ++ " methods)")
                   "Consider combining operations or using for-loop for better performance"])%list) /\
      (AdvancedCodeAnalyzer.getChainLength self p <= 3 ->
       AdvancedCodeAnalyzer.array_chain_callback (Some self) p bs = Js.Ok bs)) /\
  ((forall l object m computed args,
       Babel.p_node p
       = Babel.CallExpression l
           (Babel.MemberExpression object (Babel.Identifier m) computed) args ->
       ~ In m ["map"; "filter"; "reduce"; "forEach"; "find"; "some"; "every"]) ->
   AdvancedCodeAnalyzer.array_chain_callback (Some self) p bs = Js.Ok bs) /\
  (forall l object property computed args,
      Babel.p_node p
      = Babel.CallExpression l
          (Babel.MemberExpression object property computed) args ->
      AdvancedCodeAnalyzer.getChainLength self p
      = 1 + (if Measures.is_call object
             then AdvancedCodeAnalyzer.getChainLength_loop 0 object
             else 0)) /\
  ((forall l object property computed args,
       Babel.p_node p
       <> Babel.CallExpression l
            (Babel.MemberExpression object property computed) args) ->
   AdvancedCodeAnalyzer.getChainLength self p = 0) /\
  (forall base calls,
      Babel.p_node p = Measures.method_chain base calls ->
      Measures.is_call base = false ->
      AdvancedCodeAnalyzer.getChainLength self p = Z.of_nat (length calls)).
Proof.
  repeat apply conj.
  - intros l object m computed args Hp Hm.
    rewrite array_chain_callback_bound.
    rewrite (isArrayMethodChain_named self p l object m computed args Hp).
    apply (array_includes_In AdvancedCodeAnalyzer.chainMethods) in Hm.
    rewrite Hm, Hp. cbn [andb Babel.line]. split; intros H.
    + apply Z.ltb_lt in H. now rewrite H.
    + apply Z.ltb_ge in H. now rewrite H.
  - intros H. rewrite array_chain_callback_bound.
    now rewrite (isArrayMethodChain_other self p H).
  - intros l object property computed args Hp.
    unfold AdvancedCodeAnalyzer.getChainLength. rewrite Hp.
    rewrite getChainLength_loop_step, getChainLength_loop_acc.
    destruct (Measures.is_call object); lia.
  - intros H. unfold AdvancedCodeAnalyzer.getChainLength.
    destruct (Babel.p_node p)
      as [| | | | | | | | | | | | | |l c args| | | |]; try reflexivity.
    destruct c as [| | | | | | | | | | | | | | |o pr cm| | |];
      try reflexivity.
    now contradiction (H l o pr cm args).
  - intros base calls Hp Hb.
    unfold AdvancedCodeAnalyzer.getChainLength. rewrite Hp.
    destruct calls as [|[m args] rest].
    + simpl. destruct base; try reflexivity. discriminate.
    + cbn [Measures.method_chain length].
      rewrite getChainLength_method_chain by reflexivity.
      rewrite getChainLength_loop_step, Hb. lia.
Qed.

Lemma array_chain_rule_witness :
  AdvancedCodeAnalyzer.array_chain_callback (Some AdvancedCodeAnalyzer.new)
    Samples.array_chain_path [] =
  Js.Ok [mkFinding "array-chain" "medium" (Some 1%nat)
           "Long array method chain (4 methods)"
           "Consider combining operations or using for-loop for better performance"] /\
  AdvancedCodeAnalyzer.array_chain_callback (Some AdvancedCodeAnalyzer.new)
    Samples.builder_chain_path [] = Js.Ok [].
Proof.
  destruct (array_chain_rule AdvancedCodeAnalyzer.new
              Samples.array_chain_path []) as (Hfire & _).
  destruct (array_chain_rule AdvancedCodeAnalyzer.new
              Samples.builder_chain_path []) as (_ & Hother & _).
  split.
  - apply (proj1 (Hfire (Some 1%nat) _ "reduce" false [Babel.Identifier "k"]
                    eq_refl ltac:(simpl; auto 10))).
    reflexivity.
  - apply Hother. intros l object m computed args Hp.
    injection Hp as _ _ <- _ _.
    simpl. intros [H|[H|[H|[H|[H|[H|[H|[]]]]]]]]; discriminate.
Defined.
